(** * Verification of the MCP testing-agent tools ([server.py])

    A shallow embedding of the decision logic of [server.py]: the JaCoCo
    coverage aggregator, the coverage-gated commit, the staging filter, the
    two-attempt push, the test-skeleton generator and the per-class gap
    analysis, followed by the theorems that relate them to the design
    document.

    Conventions of the embedding.
    - A Python [str] is a [string], one [ascii] per code point (code points
      below 256).
    - A Python [int] is a [Z]; a Python [float] is a binary64 [spec_float].
    - A raised exception is a value of [exn]; a call that may raise returns
      an [outcome].
    - The file system is a finite map from pathlib paths to nodes.
    - External processes are reached through [_run_cmd] only; every
      invocation is recorded in a trace. *)

From Stdlib Require Import ZArith String Ascii List Bool Lia.
From Stdlib Require Import SpecFloat DecimalString.
From stdpp Require Import base option list gmap strings fin_maps.
Import ListNotations.

Local Open Scope string_scope.
Local Open Scope Z_scope.

(** ** Python strings *)

Module PyStr.

Definition code (c : ascii) : N := N_of_ascii c.

(** [str.isspace] on one character (code points below 256). *)
Definition isspace (c : ascii) : bool :=
  let n := code c in
  ((9 <=? n) && (n <=? 13) || (28 <=? n) && (n <=? 32)
   || (n =? 133) || (n =? 160))%N.

(** The line boundaries of [str.splitlines]. *)
Definition is_linebreak (c : ascii) : bool :=
  let n := code c in
  ((10 <=? n) && (n <=? 13) || (28 <=? n) && (n <=? 30) || (n =? 133))%N.

(** The line feed and the double quote. *)
Definition nl : string := String (ascii_of_N 10) EmptyString.
Definition dquote : string := String (ascii_of_N 34) EmptyString.

Definition is_empty (s : string) : bool :=
  match s with EmptyString => true | String _ _ => false end.

(** Truthiness of a [str]. *)
Definition truthy (s : string) : bool := negb (is_empty s).

Definition snoc (s : string) (c : ascii) : string := s ++ String c EmptyString.

(** [s.splitlines()]: [cur] is the line being read. A carriage return
    followed by a line feed is one boundary; a trailing empty line is not
    reported. *)
Fixpoint splitlines_from (cur s : string) : list string :=
  match s with
  | EmptyString => if is_empty cur then [] else [cur]
  | String c rest =>
      if is_linebreak c then
        match rest with
        | String c' rest' =>
            if ((code c =? 13) && (code c' =? 10))%N
            then cur :: splitlines_from EmptyString rest'
            else cur :: splitlines_from EmptyString rest
        | EmptyString => cur :: splitlines_from EmptyString rest
        end
      else splitlines_from (snoc cur c) rest
  end.

Definition splitlines (s : string) : list string :=
  splitlines_from EmptyString s.

Fixpoint lstrip (s : string) : string :=
  match s with
  | String c rest => if isspace c then lstrip rest else s
  | EmptyString => EmptyString
  end.

Fixpoint rstrip (s : string) : string :=
  match s with
  | String c rest =>
      let r := rstrip rest in
      if isspace c && is_empty r then EmptyString else String c r
  | EmptyString => EmptyString
  end.

(** [s.strip()] *)
Definition strip (s : string) : string := rstrip (lstrip s).

(** [s[n:]] *)
Fixpoint drop (n : nat) (s : string) : string :=
  match n, s with
  | S n', String _ rest => drop n' rest
  | _, _ => s
  end.

Definition startswith (s pre : string) : bool := String.prefix pre s.

Fixpoint endswith (s suf : string) : bool :=
  (s =? suf)%string ||
  match s with
  | String _ rest => endswith rest suf
  | EmptyString => false
  end.

(** [s.replace(old, new)] for a one-character [old]. *)
Fixpoint replace_char (old : ascii) (new s : string) : string :=
  match s with
  | String c rest =>
      if Ascii.eqb c old then new ++ replace_char old new rest
      else String c (replace_char old new rest)
  | EmptyString => EmptyString
  end.

(** [sep.join(l)] *)
Fixpoint join (sep : string) (l : list string) : string :=
  match l with
  | [] => EmptyString
  | [x] => x
  | x :: rest => x ++ sep ++ join sep rest
  end.

(** [s.split(sep)] for a one-character [sep]. *)
Fixpoint split_from (sep : ascii) (cur s : string) : list string :=
  match s with
  | String c rest =>
      if Ascii.eqb c sep then cur :: split_from sep EmptyString rest
      else split_from sep (snoc cur c) rest
  | EmptyString => [cur]
  end.

Definition split (sep : ascii) (s : string) : list string :=
  split_from sep EmptyString s.

(** [str(n)] of an [int]. *)
Definition of_int (n : Z) : string := NilZero.string_of_int (Z.to_int n).

(** [str(x)] of an optional [str]: [None] prints as the word None. *)
Definition of_opt (o : option string) : string :=
  match o with Some s => s | None => "None" end.

End PyStr.

(** ** Python floats (IEEE 754 binary64) *)

Module PyFloat.

Definition prec : Z := 53.
Definition emax : Z := 1024.

Definition mul : spec_float -> spec_float -> spec_float := SFmul prec emax.
Definition div : spec_float -> spec_float -> spec_float := SFdiv prec emax.
Definition ltb : spec_float -> spec_float -> bool := SFltb.

(** The literal [0.0]. *)
Definition zero : spec_float := S754_zero false.

(** The literal [100.0], i.e. [7036874417766400 * 2^-46]. *)
Definition hundred : spec_float := S754_finite false 7036874417766400 (-46).

(** An integer as an exact, unrounded operand. *)
Definition exact (n : Z) : spec_float :=
  match n with
  | Z0 => S754_zero false
  | Zpos p => S754_finite false p 0
  | Zneg p => S754_finite true p 0
  end.

(** Nearest integer to [n / 2^k], ties to even ([n >= 0]). *)
Definition round_shift (n : Z) (k : Z) : Z :=
  let d := 2 ^ k in
  let q := n / d in
  let r := n mod d in
  if (d <? 2 * r) || ((d =? 2 * r) && Z.odd q) then q + 1 else q.

(** The number of hundredths nearest to [m * 2^e]. *)
Definition hundredths (m : positive) (e : Z) : Z :=
  if 0 <=? e then Zpos m * 100 * 2 ^ e
  else round_shift (Zpos m * 100) (- e).

Definition two_digits (n : Z) : string :=
  if n <? 10 then "0" ++ PyStr.of_int n else PyStr.of_int n.

Definition sign_str (s : bool) : string := if s then "-" else EmptyString.

(** [format(x, ".2f")]: correctly rounded, two digits after the point. *)
Definition format_2f (x : spec_float) : string :=
  match x with
  | S754_nan => "nan"
  | S754_infinity s => sign_str s ++ "inf"
  | S754_zero s => sign_str s ++ "0.00"
  | S754_finite s m e =>
      let h := hundredths m e in
      sign_str s ++ PyStr.of_int (h / 100) ++ "." ++ two_digits (h mod 100)
  end.

End PyFloat.

(** ** Exceptions and outcomes *)

(** A raised exception: its class name and [str(e)]. *)
Inductive exn := Exn (cls msg : string).

Definition exn_cls (e : exn) : string := let 'Exn c _ := e in c.
Definition exn_str (e : exn) : string := let 'Exn _ m := e in m.

Inductive outcome (A : Type) :=
| Return (a : A)
| Raise (e : exn).
Arguments Return {A} a.
Arguments Raise {A} e.

#[global] Instance outcome_ret : MRet outcome := @Return.
#[global] Instance outcome_bind : MBind outcome := fun A B f m =>
  match m with
  | Return a => f a
  | Raise e => Raise e
  end.

(** ** XML element trees ([xml.etree.ElementTree]) *)

#[local] Unset Elimination Schemes.
Inductive element :=
| Element (tag : string) (attrib : list (string * string)) (children : list element).
#[local] Set Elimination Schemes.

Module ET.

Definition tag (e : element) : string := let 'Element t _ _ := e in t.
Definition attrib (e : element) : list (string * string) := let 'Element _ a _ := e in a.
Definition children (e : element) : list element := let 'Element _ _ c := e in c.

Fixpoint assoc (k : string) (l : list (string * string)) : option string :=
  match l with
  | [] => None
  | (k', v) :: rest => if (k =? k')%string then Some v else assoc k rest
  end.

(** [e.get(key)] *)
Definition get (e : element) (key : string) : option string := assoc key (attrib e).

(** [e.iter()] without [e] itself: the strict descendants, in document
    order. *)
Fixpoint descendants (e : element) : list element :=
  match e with
  | Element _ _ cs => flat_map (fun c => c :: descendants c) cs
  end.

(** [e.iter()]: the element and its descendants, in document order. *)
Definition iter (e : element) : list element := e :: descendants e.

Definition has_tag (t : string) (e : element) : bool := (tag e =? t)%string.

(** [e.findall('.//' + t)] *)
Definition findall_desc (e : element) (t : string) : list element :=
  List.filter (has_tag t) (descendants e).

(** [e.findall(t)] *)
Definition findall (e : element) (t : string) : list element :=
  List.filter (has_tag t) (children e).

End ET.

(** ** The interpreter and its libraries

    Library calls whose results the tools only pass along are fields of the
    runtime: the theorems hold whatever these calls return. *)
Class Runtime := {
  (** [int(s)] for a [str]: the value, or the [ValueError] raised. *)
  int_of_str : string -> outcome Z;
  (** [str(x)] for a [float]. *)
  float_str : spec_float -> string;
  (** The XML decoder behind [ET.parse], applied to the text of a file. *)
  xml_decode : string -> outcome element;
  (** [fnmatch.fnmatch(name, pat)] *)
  fnmatch : string -> string -> bool;
  (** [os.path.abspath(p)] *)
  abspath : string -> string;
  (** [package_rx.search(text)], reduced to its group 1. *)
  package_search : string -> option string;
  (** [method_rx.findall(text)]: the (name, arguments) pairs. *)
  method_findall : string -> list (string * string)
}.

(** [int(x)] where [x] is a [str] or [None]. *)
Definition py_int `{Runtime} (x : option string) : outcome Z :=
  match x with
  | Some s => int_of_str s
  | None =>
      Raise (Exn "TypeError"
        "int() argument must be a string, a bytes-like object or a real number, not 'NoneType'")
  end.

(** [a / b] on two [int]s: the correctly rounded quotient. *)
Definition int_true_divide (a b : Z) : outcome spec_float :=
  if b =? 0 then Raise (Exn "ZeroDivisionError" "division by zero")
  else
    match PyFloat.div (PyFloat.exact a) (PyFloat.exact b) with
    | S754_infinity _ =>
        Raise (Exn "OverflowError" "integer division result too large for a float")
    | q => Return q
    end.

(** ** Paths and the file system ([pathlib]) *)

(** A pure POSIX path: its root (empty, one slash or two slashes) and its
    components. Two paths name the same file when pathlib finds them equal:
    symbolic links and [..] components are not resolved. *)
Definition path : Type := string * list string.

Module Path.

Definition count_slashes (s : string) : nat :=
  (String.length s - String.length (
     (fix go (s : string) : string :=
        match s with
        | String c rest => if Ascii.eqb c "/" then go rest else s
        | EmptyString => EmptyString
        end) s))%nat.

Definition root_of (s : string) : string :=
  match count_slashes s with
  | O => EmptyString
  | 2%nat => "//"
  | _ => "/"
  end.

Definition is_component (s : string) : bool :=
  negb (PyStr.is_empty s) && negb (s =? ".")%string.

Definition parts_of (s : string) : list string :=
  List.filter is_component (PyStr.split "/" s).

(** [Path(s)] *)
Definition of_str (s : string) : path := (root_of s, parts_of s).

(** [p / s] *)
Definition joinpath (p : path) (s : string) : path :=
  let q := of_str s in
  if PyStr.is_empty (fst q) then (fst p, (snd p ++ snd q)%list) else q.

(** [str(p)] *)
Definition to_str (p : path) : string :=
  match p with
  | (EmptyString, []) => "."
  | (r, ps) => r ++ PyStr.join "/" ps
  end.

(** [p.name] *)
Definition name (p : path) : string := List.last (snd p) EmptyString.

Fixpoint rfind_from (c : ascii) (s : string) (i : nat) (found : option nat) : option nat :=
  match s with
  | String c' rest => rfind_from c rest (S i) (if Ascii.eqb c' c then Some i else found)
  | EmptyString => found
  end.

(** [p.stem]: the name without its last suffix. *)
Definition stem (p : path) : string :=
  let n := name p in
  match rfind_from "." n O None with
  | Some i =>
      if (0 <? i)%nat && (i <? String.length n - 1)%nat
      then String.substring 0 i n else n
  | None => n
  end.

(** [q] lies strictly below [p]. *)
Definition below (p q : path) : bool :=
  (fst p =? fst q)%string
  && bool_decide (snd p `prefix_of` snd q)
  && negb (bool_decide (snd p = snd q)).

End Path.

(** What a path leads to: a directory or a regular file. Symbolic links
    are not modelled, so every entry is reached through its own path
    only. *)
Inductive node :=
| Dir
| File (text : string).

#[global] Instance node_eq_dec : EqDecision node.
Proof. solve_decision. Defined.

Abbreviation filesystem := (gmap path node).

Module FS.

(** What is at [p]. A path without components is the root or the current
    directory, which always exist. *)
Definition stat (fs : filesystem) (p : path) : option node :=
  match p.2 with
  | [] => Some Dir
  | _ :: _ => fs !! p
  end.

(** [p.exists()] *)
Definition exists_ (fs : filesystem) (p : path) : bool :=
  bool_decide (is_Some (stat fs p)).

(** [p.is_dir()] *)
Definition is_dir (fs : filesystem) (p : path) : bool :=
  match stat fs p with
  | Some Dir => true
  | _ => false
  end.

(** [p.parent] *)
Definition parent (p : path) : path := (p.1, removelast p.2).

Inductive oserror := FileExistsError | FileNotFoundError | NotADirectoryError | IsADirectoryError.

Definition oserror_exn (e : oserror) (p : path) : exn :=
  match e with
  | FileExistsError => Exn "FileExistsError" ("[Errno 17] File exists: '" ++ Path.to_str p ++ "'")
  | FileNotFoundError =>
      Exn "FileNotFoundError" ("[Errno 2] No such file or directory: '" ++ Path.to_str p ++ "'")
  | NotADirectoryError => Exn "NotADirectoryError" ("[Errno 20] Not a directory: '" ++ Path.to_str p ++ "'")
  | IsADirectoryError => Exn "IsADirectoryError" ("[Errno 21] Is a directory: '" ++ Path.to_str p ++ "'")
  end.

(** [os.mkdir(p)] *)
Definition os_mkdir (fs : filesystem) (p : path) : oserror + filesystem :=
  match stat fs p with
  | Some _ => inl FileExistsError
  | None =>
      match stat fs (parent p) with
      | None => inl FileNotFoundError
      | Some (File _) => inl NotADirectoryError
      | Some Dir => inr (<[p := Dir]> fs)
      end
  end.

(** [p.mkdir(parents=False, exist_ok=True)] *)
Definition mkdir_exist_ok (fs : filesystem) (p : path) : outcome filesystem :=
  match os_mkdir fs p with
  | inr fs' => Return fs'
  | inl FileNotFoundError => Raise (oserror_exn FileNotFoundError p)
  | inl e => if is_dir fs p then Return fs else Raise (oserror_exn e p)
  end.

(** [p.mkdir(parents=True, exist_ok=True)] for [p = (root, rev rparts)];
    the parent of [p] is [(root, rev (tail rparts))]. *)
Fixpoint mkdir_parents_rev (fs : filesystem) (root : string) (rparts : list string)
  : outcome filesystem :=
  let p := (root, rev rparts) in
  match os_mkdir fs p with
  | inr fs' => Return fs'
  | inl FileNotFoundError =>
      match rparts with
      | [] => Raise (oserror_exn FileNotFoundError p)
      | _ :: rparent =>
          fs' ← mkdir_parents_rev fs root rparent;
          mkdir_exist_ok fs' p
      end
  | inl e => if is_dir fs p then Return fs else Raise (oserror_exn e p)
  end.

Definition mkdir_parents (fs : filesystem) (p : path) : outcome filesystem :=
  mkdir_parents_rev fs p.1 (rev p.2).

(** [p.write_text(text)] *)
Definition write_text (fs : filesystem) (p : path) (text : string) : outcome filesystem :=
  match stat fs p with
  | Some Dir => Raise (oserror_exn IsADirectoryError p)
  | Some (File _) => Return (<[p := File text]> fs)
  | None =>
      match stat fs (parent p) with
      | None => Raise (oserror_exn FileNotFoundError p)
      | Some (File _) => Raise (oserror_exn NotADirectoryError p)
      | Some Dir => Return (<[p := File text]> fs)
      end
  end.

(** [p.read_text()] *)
Definition read_text (fs : filesystem) (p : path) : outcome string :=
  match stat fs p with
  | Some (File text) => Return text
  | Some Dir => Raise (Exn "IsADirectoryError" ("[Errno 21] Is a directory: '" ++ Path.to_str p ++ "'"))
  | None => Raise (Exn "FileNotFoundError" ("[Errno 2] No such file or directory: '" ++ Path.to_str p ++ "'"))
  end.

(** [root.rglob(pattern)] for a pattern that constrains the name only:
    every entry strictly below [root] whose name satisfies [matches]. The
    listing is taken when the iteration starts. Python's [rglob] is a
    generator: it yields this listing as long as nothing is created below
    [root] while it is consumed; what it yields otherwise depends on the
    traversal of the [pathlib] version and is not modelled. *)
Definition rglob (fs : filesystem) (root : path) (matches : string -> bool) : list path :=
  (map_to_list (filter (fun kv => Path.below root kv.1 && matches (Path.name kv.1)) fs)).*1.

End FS.

(** [ET.parse(p).getroot()] *)
Definition ET_parse `{Runtime} (fs : filesystem) (p : path) : outcome element :=
  text ← FS.read_text fs p; xml_decode text.

(** ** Results of the tools

    Every tool returns a dictionary; each [return] statement of the source
    is a constructor carrying the entries of its dictionary. *)

(** [{"ok": True, "percent": .., "covered": .., "missed": ..}] *)
Record coverage := { percent : spec_float; covered : Z; missed : Z }.

Inductive cov_result :=
| CovOk (cov : coverage)
| CovFail (msg : string).            (* [{"ok": False, "msg": msg}] *)

(** What one external command returned; an entry is [None] when the key is
    absent or holds [None]. *)
Record cmd_result := {
  returncode : option Z;
  stdout : option string;
  stderr : option string
}.

Inductive commit_result :=
| NoStagedChanges (msg : string)
| ThresholdFailed (msg : string) (cov : coverage)
| CommitAttempted (ok : bool) (out err : option string) (cov : option coverage).

Inductive add_result :=
| NothingToStage (staged : list string) (msg : string)
| StageAttempted (ok : bool) (staged : list string) (add_stdout add_stderr : option string).

Inductive push_result :=
| UnknownBranch (msg : string)
| PushAttempted (ok : bool) (out err : option string) (branch : string).

(** One entry of the [uncovered] list of [analyze_coverage]. *)
Record uncovered_unit := {
  u_package : option string;
  u_class : option string;
  u_missed : Z;
  u_covered : Z
}.

Record report := {
  file : string;
  uncovered : list uncovered_unit;
  recommendations : list string
}.

Inductive analyze_result :=
| ReportNotFound (msg : string)
| Analyzed (rep : report).

Inductive generate_result :=
| SourceRootNotFound (msg : string)
| Generated (created_tests : Z).

Definition commit_ok (r : commit_result) : bool :=
  match r with
  | CommitAttempted ok _ _ _ => ok
  | _ => false
  end.

Definition push_ok (r : push_result) : bool :=
  match r with
  | PushAttempted ok _ _ _ => ok
  | UnknownBranch _ => false
  end.

(** [res.get("returncode") == 0] *)
Definition exited_zero (res : cmd_result) : bool :=
  match returncode res with
  | Some 0 => true
  | _ => false
  end.

(** [res.get("stdout")], or the empty string when it is missing or [None]. *)
Definition stdout_text (res : cmd_result) : string := default EmptyString (stdout res).

(** [[l for l in text.splitlines() if l.strip()]] *)
Definition nonblank_lines (text : string) : list string :=
  List.filter (fun l => PyStr.truthy (PyStr.strip l)) (PyStr.splitlines text).

(** [os.path.join(a, b)] (POSIX) *)
Definition os_path_join (a b : string) : string :=
  if PyStr.startswith b "/" then b
  else if PyStr.is_empty a || PyStr.endswith a "/" then a ++ b
  else a ++ "/" ++ b.

(** Reading a local variable that no executed statement has bound. *)
Definition unbound_local {A} (name : string) : outcome A :=
  Raise (Exn "UnboundLocalError"
    ("cannot access local variable '" ++ name ++ "' where it is not associated with a value")).

Definition default_exclude_patterns : list string :=
  ["target/**"; "**/target/**"; "**/*.class"; "**/*.jar"; "*.log";
   "**/.idea/**"; "**/.vscode/**"; "**/*.pyc"; "node_modules/**"].

Section Tools.

Context `{Runtime}.

(** *** [_compute_jacoco_coverage] *)

(** The loop of lines 27-30, from the running totals. *)
Fixpoint line_totals (counters : list element) (total_missed total_covered : Z)
  : outcome (Z * Z) :=
  match counters with
  | [] => Return (total_missed, total_covered)
  | counter :: rest =>
      if bool_decide (ET.get counter "type" = Some "LINE") then
        m ← py_int (ET.get counter "missed");
        c ← py_int (ET.get counter "covered");
        line_totals rest (total_missed + m) (total_covered + c)
      else line_totals rest total_missed total_covered
  end.

(** The body of the [try] block, lines 23-33. *)
Definition aggregate (fs : filesystem) (p : path) : outcome coverage :=
  root ← ET_parse fs p;
  totals ← line_totals (ET.findall_desc root "counter") 0 0;
  let total_missed := totals.1 in
  let total_covered := totals.2 in
  let total := total_missed + total_covered in
  percent ← (if 0 <? total
             then q ← int_true_divide total_covered total;
                  mret (PyFloat.mul q PyFloat.hundred)
             else mret PyFloat.zero);
  mret {| percent := percent; covered := total_covered; missed := total_missed |}.

Definition _compute_jacoco_coverage (fs : filesystem) (jacoco_xml_path : string)
  : cov_result :=
  let p := Path.of_str jacoco_xml_path in
  if negb (FS.exists_ fs p) then CovFail ("File not found: " ++ jacoco_xml_path)
  else
    match aggregate fs p with
    | Return cov => CovOk cov
    | Raise e => CovFail (exn_str e)
    end.

(** *** The process boundary *)

(** Modelled from the spec: [server.py] calls [_run_cmd(argv, cwd=...)] and
    never defines it. The design document gives its contract (process
    invocation boundary): run the command to completion and return its exit
    code and captured output. The state of everything outside the process
    (repository, remote) is a [World]; what a command returns and how it
    changes the world is left open. *)
Variable World : Type.
Variable _run_cmd : list string -> string -> World -> cmd_result * World.

(** The world together with the commands run so far, oldest first. *)
Record shell := { world : World; trace : list (list string * string) }.

Definition run (argv : list string) (cwd : string) (sh : shell) : cmd_result * shell :=
  let (res, w) := _run_cmd argv cwd (world sh) in
  (res, {| world := w; trace := trace sh ++ [(argv, cwd)] |}).

(** *** [git_commit] *)

(** What lines 123-137 leave behind when they do not return or raise. *)
Record prepared := { final_message : string; coverage_info : option coverage }.

(** Lines 123-137: [inl r] is an early [return r]. *)
Definition prepare_message (message : string) (include_coverage : bool)
    (jacoco_xml : option string) (coverage_threshold : option spec_float)
    (fs : filesystem) : outcome (commit_result + prepared) :=
  match jacoco_xml with
  | Some xml =>
      if include_coverage && PyStr.truthy xml then
        match _compute_jacoco_coverage fs xml with
        | CovOk cov =>
            let percent := percent cov in
            let final_message :=
              message ++ " | Coverage: " ++ PyFloat.format_2f percent ++ "% ("
                ++ PyStr.of_int (covered cov) ++ "/"
                ++ PyStr.of_int (covered cov + missed cov) ++ ")" in
            match coverage_threshold with
            | Some threshold =>
                if PyFloat.ltb percent threshold then
                  Return (inl (ThresholdFailed
                    ("Coverage " ++ PyFloat.format_2f percent ++ "% below threshold "
                       ++ float_str threshold ++ "% - aborting commit.") cov))
                else Return (inr {| final_message := final_message; coverage_info := Some cov |})
            | None => Return (inr {| final_message := final_message; coverage_info := Some cov |})
            end
        | CovFail msg =>
            let final_message := message ++ " | Coverage: unknown (" ++ msg ++ ")" in
            (* line 136 reads [percent], bound on the other branch only *)
            percent ← unbound_local "percent";
            let final_message :=
              message ++ " | Coverage: " ++ PyFloat.format_2f percent ++ "% ("
                ++ PyStr.of_opt None ++ "/" ++ PyStr.of_opt None ++ ")" in
            Return (inr {| final_message := final_message; coverage_info := None |})
        end
      else Return (inr {| final_message := message; coverage_info := None |})
  | None => Return (inr {| final_message := message; coverage_info := None |})
  end.

Definition git_commit (message repo_dir : string) (include_coverage : bool)
    (jacoco_xml : option string) (coverage_threshold : option spec_float)
    (fs : filesystem) (sh : shell) : outcome commit_result * shell :=
  let repo_dir := abspath repo_dir in
  let (staged_res, sh) := run ["git"; "diff"; "--name-only"; "--cached"] repo_dir sh in
  let staged := nonblank_lines (stdout_text staged_res) in
  match staged with
  | [] => (Return (NoStagedChanges "No staged changes to commit."), sh)
  | _ :: _ =>
      match prepare_message message include_coverage jacoco_xml coverage_threshold fs with
      | Raise e => (Raise e, sh)
      | Return (inl early) => (Return early, sh)
      | Return (inr msg) =>
          let std_msg := final_message msg in
          let (commit_res, sh) := run ["git"; "commit"; "-m"; std_msg] repo_dir sh in
          (Return (CommitAttempted (exited_zero commit_res) (stdout commit_res)
                     (stderr commit_res) (coverage_info msg)), sh)
      end
  end.

(** *** [git_add_all] *)

(** The inner loop of lines 86-90. *)
Fixpoint skip (repo_dir path : string) (exclude_patterns : list string) : bool :=
  match exclude_patterns with
  | [] => false
  | pat :: rest =>
      if fnmatch path pat || fnmatch (os_path_join repo_dir path) pat then true
      else skip repo_dir path rest
  end.

(** The loop of lines 82-92, from the list [files] built so far. *)
Fixpoint collect_files (repo_dir : string) (exclude_patterns : list string)
    (lines : list string) (files : list string) : list string :=
  match lines with
  | [] => files
  | ln :: rest =>
      if negb (PyStr.truthy (PyStr.strip ln)) then
        collect_files repo_dir exclude_patterns rest files
      else
        let path := PyStr.drop 3 ln in
        if skip repo_dir path exclude_patterns then
          collect_files repo_dir exclude_patterns rest files
        else collect_files repo_dir exclude_patterns rest (files ++ [path])
  end.

Definition git_add_all (repo_dir : string) (exclude_patterns : option (list string))
    (sh : shell) : add_result * shell :=
  let repo_dir := abspath repo_dir in
  let exclude_patterns := default default_exclude_patterns exclude_patterns in
  let (st, sh) := run ["git"; "status"; "--porcelain"] repo_dir sh in
  let files :=
    collect_files repo_dir exclude_patterns (PyStr.splitlines (stdout_text st)) [] in
  match files with
  | [] => (NothingToStage [] "No files to stage after filtering.", sh)
  | _ :: _ =>
      let add_cmd := (["git"; "add"; "--"] ++ files)%list in
      let (add_res, sh) := run add_cmd repo_dir sh in
      let (staged_res, sh) := run ["git"; "diff"; "--name-only"; "--cached"] repo_dir sh in
      let staged_files := nonblank_lines (stdout_text staged_res) in
      (StageAttempted (exited_zero add_res) staged_files (stdout add_res) (stderr add_res), sh)
  end.

(** *** [git_push] *)

Definition git_push (remote repo_dir : string) (sh : shell) : push_result * shell :=
  let repo_dir := abspath repo_dir in
  let (br, sh) := run ["git"; "rev-parse"; "--abbrev-ref"; "HEAD"] repo_dir sh in
  let branch := PyStr.strip (default EmptyString (stdout br)) in
  if negb (PyStr.truthy branch) then (UnknownBranch "Cannot determine current branch.", sh)
  else
    let (push_res, sh) := run ["git"; "push"; remote; branch] repo_dir sh in
    if exited_zero push_res then
      (PushAttempted true (stdout push_res) (stderr push_res) branch, sh)
    else
      let (push_up_res, sh) := run ["git"; "push"; "-u"; remote; branch] repo_dir sh in
      (PushAttempted (exited_zero push_up_res) (stdout push_up_res) (stderr push_up_res)
         branch, sh).

(** *** [analyze_coverage] *)

(** The loop of lines 358-368 over the counters of one class. *)
Fixpoint scan_counters (pkg_name cls_name : option string) (counters : list element)
    (uncovered : list uncovered_unit) : outcome (list uncovered_unit) :=
  match counters with
  | [] => Return uncovered
  | counter :: rest =>
      if bool_decide (ET.get counter "type" = Some "LINE") then
        missed ← py_int (ET.get counter "missed");
        covered ← py_int (ET.get counter "covered");
        if 0 <? missed then
          scan_counters pkg_name cls_name rest
            (uncovered ++ [{| u_package := pkg_name; u_class := cls_name;
                              u_missed := missed; u_covered := covered |}])
        else scan_counters pkg_name cls_name rest uncovered
      else scan_counters pkg_name cls_name rest uncovered
  end.

(** The loop of lines 355-368 over the classes of one package. *)
Fixpoint scan_classes (pkg_name : option string) (classes : list element)
    (uncovered : list uncovered_unit) : outcome (list uncovered_unit) :=
  match classes with
  | [] => Return uncovered
  | cls :: rest =>
      let cls_name := ET.get cls "name" in
      uncovered ← scan_counters pkg_name cls_name (ET.findall cls "counter") uncovered;
      scan_classes pkg_name rest uncovered
  end.

(** The loop of lines 353-368 over the packages of the report. *)
Fixpoint scan_packages (packages : list element) (uncovered : list uncovered_unit)
  : outcome (list uncovered_unit) :=
  match packages with
  | [] => Return uncovered
  | pkg :: rest =>
      let pkg_name := ET.get pkg "name" in
      uncovered ← scan_classes pkg_name (ET.findall pkg "class") uncovered;
      scan_packages rest uncovered
  end.

Definition recommendation (item : uncovered_unit) : string :=
  "Increase tests for " ++ PyStr.of_opt (u_package item) ++ "."
    ++ PyStr.of_opt (u_class item) ++ " (missed lines: " ++ PyStr.of_int (u_missed item) ++ ")".

(** The loop of lines 371-372. *)
Fixpoint recommend (items : list uncovered_unit) (recommendations : list string)
  : list string :=
  match items with
  | [] => recommendations
  | item :: rest => recommend rest (recommendations ++ [recommendation item])
  end.

(** Lines 329-338: where the report is looked for. Both [rglob] calls
    select the entries named [jacoco.xml] below the project directory. *)
Definition candidates (project_dir : string) (jacoco_xml : option string)
    (fs : filesystem) : list path :=
  let p := Path.of_str project_dir in
  let named := fun n => (n =? "jacoco.xml")%string in
  let candidates :=
    match jacoco_xml with
    | Some xml =>
        if PyStr.truthy xml then [Path.of_str xml]
        else (FS.rglob fs p named ++ FS.rglob fs p named)%list
    | None => (FS.rglob fs p named ++ FS.rglob fs p named)%list
    end in
  match candidates with
  | [] =>
      [Path.joinpath (Path.joinpath (Path.joinpath (Path.joinpath p "target") "site")
         "jacoco") "jacoco.xml"]
  | _ :: _ => candidates
  end.

(** Lines 340-344: the first candidate that exists. *)
Definition first_existing (fs : filesystem) (candidates : list path) : option path :=
  List.find (FS.exists_ fs) candidates.

Definition analyze_coverage (project_dir : string) (jacoco_xml : option string)
    (fs : filesystem) : outcome analyze_result :=
  match first_existing fs (candidates project_dir jacoco_xml fs) with
  | None =>
      Return (ReportNotFound
        "JaCoCo XML report not found. Run Maven tests with JaCoCo enabled.")
  | Some found =>
      root ← ET_parse fs found;
      uncovered ← scan_packages (ET.findall_desc root "package") [];
      let recommendations := recommend uncovered [] in
      Return (Analyzed {| file := Path.to_str found; uncovered := uncovered;
                          recommendations := recommendations |})
  end.

(** *** [generate_tests] *)

Definition imports : string :=
  "import org.junit.jupiter.api.Test;" ++ PyStr.nl
    ++ "import static org.junit.jupiter.api.Assertions.*;" ++ PyStr.nl.

Definition test_method (mname : string) : string :=
  "    @Test" ++ PyStr.nl ++ "    public void test_" ++ mname ++ "() {" ++ PyStr.nl
    ++ "        // TODO: add assertions for " ++ mname ++ PyStr.nl
    ++ "        fail(" ++ PyStr.dquote ++ "Not yet implemented" ++ PyStr.dquote ++ ");" ++ PyStr.nl
    ++ "    }" ++ PyStr.nl ++ PyStr.nl.

(** Lines 307-316: the text of one skeleton. *)
Definition skeleton (package test_class_name : string) (methods : list (string * string))
  : string :=
  let body_lines :=
    [if PyStr.truthy package then "package " ++ package ++ ";" ++ PyStr.nl else EmptyString] in
  let body_lines := (body_lines ++ [imports])%list in
  let body_lines := (body_lines ++ [("public class " ++ test_class_name ++ " {" ++ PyStr.nl)%string])%list in
  let body_lines := (body_lines ++ List.map (fun m => test_method m.1) methods)%list in
  let body_lines := (body_lines ++ [("}" ++ PyStr.nl)%string])%list in
  PyStr.join EmptyString body_lines.

(** One iteration of the loop of lines 288-318: the outcome is how much
    [created] grows. The file system is returned as the iteration left it,
    also when it raises. *)
Definition generate_one (test_root java_file : path) (fs : filesystem)
  : outcome Z * filesystem :=
  match FS.read_text fs java_file with
  | Raise e => (Raise e, fs)
  | Return text =>
      let package := default EmptyString (package_search text) in
      let methods := method_findall text in
      match methods with
      | [] => (Return 0, fs)
      | _ :: _ =>
          let class_name := Path.stem java_file in
          let test_class_name := class_name ++ "Test" in
          let pkg_path :=
            if PyStr.truthy package then PyStr.replace_char "." "/" package
            else EmptyString in
          let out_dir_full := Path.joinpath test_root pkg_path in
          match FS.mkdir_parents fs out_dir_full with
          | Raise e => (Raise e, fs)
          | Return fs =>
              let test_file := Path.joinpath out_dir_full (test_class_name ++ ".java") in
              if FS.exists_ fs test_file then (Return 0, fs)
              else
                match FS.write_text fs test_file (skeleton package test_class_name methods) with
                | Raise e => (Raise e, fs)
                | Return fs => (Return 1, fs)
                end
          end
      end
  end.

(** The loop of lines 288-318, from the count [created] so far. *)
Fixpoint generate_loop (test_root : path) (java_files : list path) (fs : filesystem)
    (created : Z) : outcome Z * filesystem :=
  match java_files with
  | [] => (Return created, fs)
  | java_file :: rest =>
      match generate_one test_root java_file fs with
      | (Raise e, fs) => (Raise e, fs)
      | (Return n, fs) => generate_loop test_root rest fs (created + n)
      end
  end.

Definition is_java (name : string) : bool := PyStr.endswith name ".java".

Definition generate_tests (project_dir : string) (out_dir : option string)
    (fs : filesystem) : outcome generate_result * filesystem :=
  let p := Path.of_str project_dir in
  let src_root := Path.joinpath (Path.joinpath (Path.joinpath p "src") "main") "java" in
  let test_root :=
    match out_dir with
    | Some d =>
        if PyStr.truthy d then Path.of_str d
        else Path.joinpath (Path.joinpath (Path.joinpath p "src") "test") "java"
    | None => Path.joinpath (Path.joinpath (Path.joinpath p "src") "test") "java"
    end in
  if negb (FS.exists_ fs src_root) then
    (Return (SourceRootNotFound ("Source root not found: " ++ Path.to_str src_root)), fs)
  else
    match generate_loop test_root (FS.rglob fs src_root is_java) fs 0 with
    | (Raise e, fs) => (Raise e, fs)
    | (Return created, fs) => (Return (Generated created), fs)
    end.

End Tools.

Arguments shell World : clear implicits.
Arguments world {World} s.
Arguments trace {World} s.
Arguments run {World} _run_cmd argv cwd sh.
Arguments git_commit {_ World} _run_cmd message repo_dir include_coverage jacoco_xml
  coverage_threshold fs sh.
Arguments git_add_all {_ World} _run_cmd repo_dir exclude_patterns sh.
Arguments git_push {_ World} _run_cmd remote repo_dir sh.

(** ** The remaining tools *)

(** More of [str]. *)
Module PyText.

(** [s[:n]] *)
Definition take (n : nat) (s : string) : string := String.substring 0 n s.

(** [s[i]] for [0 <= i] *)
Definition char_at (s : string) (i : nat) : outcome ascii :=
  match String.get i s with
  | Some c => Return c
  | None => Raise (Exn "IndexError" "string index out of range")
  end.

(** [l[-1]] *)
Definition last_item (l : list string) : outcome string :=
  match l with
  | [] => Raise (Exn "IndexError" "list index out of range")
  | x :: rest => Return (List.last rest x)
  end.

(** [needle in s] *)
Fixpoint contains (needle s : string) : bool :=
  String.prefix needle s ||
  match s with
  | String _ rest => contains needle rest
  | EmptyString => false
  end.

(** [s.replace(old, new, 1)] for a non-empty [old]. *)
Fixpoint replace_first (old new s : string) : string :=
  match s with
  | String c rest =>
      if String.prefix old s then new ++ PyStr.drop (String.length old) s
      else String c (replace_first old new rest)
  | EmptyString => EmptyString
  end.

(** [s.replace(old, new)] for a non-empty [old]; [skip] characters of an
    occurrence already replaced are still to be passed over. *)
Fixpoint replace_from (old new : string) (skip : nat) (s : string) : string :=
  match s with
  | String c rest =>
      match skip with
      | S k => replace_from old new k rest
      | O =>
          if String.prefix old s
          then new ++ replace_from old new (String.length old - 1) rest
          else String c (replace_from old new O rest)
      end
  | EmptyString => EmptyString
  end.

Definition replace_all (old new s : string) : string := replace_from old new O s.

End PyText.

(** The dictionary returned by [git_status]. *)
Record status_result := {
  st_clean : bool;
  st_branch : option string;
  st_staged : list string;
  st_unstaged : list string;
  st_conflicts : list string;
  st_raw : string
}.

(** The locals [branch], [staged], [unstaged] and [conflicts] of
    [git_status]. *)
Record status_lists := {
  sl_branch : option string;
  sl_staged : list string;
  sl_unstaged : list string;
  sl_conflicts : list string
}.

Inductive pr_result :=
| PrCreated (url : option string) (out : option string)
| PrFailed (msg : string) (err out : option string)
| GhMissing (msg : string).

Definition default_pr_title : string := "[AUTO] Pull request: changes and tests".

Definition default_pr_body : string :=
  "Automated PR created by MCP tools. Includes test or coverage updates when applicable."
    ++ PyStr.nl ++ PyStr.nl ++ "Metadata:" ++ PyStr.nl.

(** [x if x else d] for an optional [str]. *)
Definition or_default (x : option string) (d : string) : string :=
  match x with
  | Some s => if PyStr.truthy s then s else d
  | None => d
  end.

Section MoreGitTools.

Context `{Runtime}.
Variable World : Type.
Variable _run_cmd : list string -> string -> World -> cmd_result * World.

(** *** [git_status] *)

(** One iteration of the loop of lines 49-62. *)
Definition status_step (acc : status_lists) (ln : string) : outcome status_lists :=
  if PyStr.startswith ln "##" then
    Return {| sl_branch := Some (PyStr.strip (PyStr.drop 2 ln));
              sl_staged := sl_staged acc; sl_unstaged := sl_unstaged acc;
              sl_conflicts := sl_conflicts acc |}
  else
    let status := PyText.take 2 ln in
    let path := PyStr.drop 3 ln in
    x ← PyText.char_at status 0;
    y ← PyText.char_at status 1;
    let conflicts :=
      if Ascii.eqb x "U" || Ascii.eqb y "U" || (Ascii.eqb x "A" && Ascii.eqb y "A")
      then (sl_conflicts acc ++ [path])%list else sl_conflicts acc in
    let staged :=
      if negb (Ascii.eqb x " ") then (sl_staged acc ++ [path])%list else sl_staged acc in
    let unstaged :=
      if negb (Ascii.eqb y " ") then (sl_unstaged acc ++ [path])%list else sl_unstaged acc in
    Return {| sl_branch := sl_branch acc; sl_staged := staged; sl_unstaged := unstaged;
              sl_conflicts := conflicts |}.

(** The loop of lines 49-62. *)
Fixpoint status_loop (lines : list string) (acc : status_lists) : outcome status_lists :=
  match lines with
  | [] => Return acc
  | ln :: rest => acc ← status_step acc ln; status_loop rest acc
  end.

(** [len(l) == 0] *)
Definition is_nil {A} (l : list A) : bool :=
  match l with [] => true | _ :: _ => false end.

(** What [out.splitlines()] raises when [out] is [None]. *)
Definition no_splitlines : exn :=
  Exn "AttributeError" "'NoneType' object has no attribute 'splitlines'".

(** [git_status]. The result of the command has its [stdout] entry, so the
    default of line 43 is not used: an entry that holds [None] reaches
    [out.splitlines()] on line 44, which raises [AttributeError]. *)
Definition git_status (repo_dir : string) (sh : shell World)
  : outcome status_result * shell World :=
  let repo_dir := abspath repo_dir in
  let (res, sh) := run _run_cmd ["git"; "status"; "--porcelain"; "--branch"] repo_dir sh in
  match stdout res with
  | None => (Raise no_splitlines, sh)
  | Some out =>
      let lines := nonblank_lines out in
      match status_loop lines {| sl_branch := None; sl_staged := []; sl_unstaged := [];
                                 sl_conflicts := [] |} with
      | Raise e => (Raise e, sh)
      | Return acc =>
          let clean :=
            is_nil (sl_staged acc) && is_nil (sl_unstaged acc) && is_nil (sl_conflicts acc) in
          (Return {| st_clean := clean; st_branch := sl_branch acc;
                     st_staged := sl_staged acc; st_unstaged := sl_unstaged acc;
                     st_conflicts := sl_conflicts acc; st_raw := out |}, sh)
      end
  end.

(** *** [git_pull_request] *)

(** Line 186: the last line of the stripped output, [None] without output. *)
Definition pr_url (out : option string) : outcome (option string) :=
  match out with
  | Some text =>
      if PyStr.truthy text then
        url ← PyText.last_item (PyStr.splitlines (PyStr.strip text)); Return (Some url)
      else Return None
  | None => Return None
  end.

Definition git_pull_request (base : string) (title body : option string) (repo_dir : string)
    (sh : shell World) : outcome pr_result * shell World :=
  let repo_dir := abspath repo_dir in
  let title := or_default title default_pr_title in
  let body := or_default body default_pr_body in
  let (gh_check, sh) := run _run_cmd ["gh"; "--version"] repo_dir sh in
  if exited_zero gh_check then
    let cmd := ["gh"; "pr"; "create"; "--base"; base; "--title"; title; "--body"; body] in
    let (pr_res, sh) := run _run_cmd cmd repo_dir sh in
    if exited_zero pr_res then
      match pr_url (stdout pr_res) with
      | Return url => (Return (PrCreated url (stdout pr_res)), sh)
      | Raise e => (Raise e, sh)
      end
    else
      (Return (PrFailed "gh CLI failed to create PR" (stderr pr_res) (stdout pr_res)), sh)
  else
    (Return (GhMissing
       "GitHub CLI 'gh' not found. Install 'gh' or provide a GitHub token to use the API. Alternatively, create a PR manually via the host (GitHub/GitLab)."),
     sh).

(** *** [maven_run] *)

Definition maven_run (project_dir : string) (goals : option (list string))
    (sh : shell World) : cmd_result * shell World :=
  let goals := default ["test"] goals in
  let cmd := ("mvn" :: goals) in
  let project_dir := abspath project_dir in
  run _run_cmd cmd project_dir sh.

End MoreGitTools.

Arguments git_status {_ World} _run_cmd repo_dir sh.
Arguments git_pull_request {_ World} _run_cmd base title body repo_dir sh.
Arguments maven_run {_ World} _run_cmd project_dir goals sh.

(** More of [pathlib]. *)
Module Disk.

(** [p.with_suffix(suffix)]: the last suffix of the name replaced. A path
    without a name has none to replace. *)
Definition with_suffix (p : path) (suffix : string) : outcome path :=
  match p.2 with
  | [] => Raise (Exn "ValueError" ("PosixPath('" ++ Path.to_str p ++ "') has an empty name"))
  | _ :: _ => Return (p.1, (removelast p.2 ++ [(Path.stem p ++ suffix)%string])%list)
  end.

(** [src.replace(dst)] for a source that is a regular file: the file moves
    to [dst], replacing a file that is there. Moving a directory is not
    modelled. *)
Definition replace (fs : filesystem) (src dst : path) : outcome filesystem :=
  match FS.stat fs src with
  | None => Raise (FS.oserror_exn FS.FileNotFoundError src)
  | Some Dir => Raise (Exn "OSError" "moving a directory is not modelled")
  | Some (File text) =>
      match FS.stat fs dst with
      | Some Dir => Raise (FS.oserror_exn FS.IsADirectoryError dst)
      | Some (File _) => Return (<[dst := File text]> (delete src fs))
      | None =>
          match FS.stat fs (FS.parent dst) with
          | None => Raise (FS.oserror_exn FS.FileNotFoundError dst)
          | Some (File _) => Raise (FS.oserror_exn FS.NotADirectoryError dst)
          | Some Dir => Return (<[dst := File text]> (delete src fs))
          end
      end
  end.

(** [d.glob(pattern)] for a pattern without a slash: the entries directly
    in [d] whose name satisfies [matches]. *)
Definition glob (fs : filesystem) (d : path) (matches : string -> bool) : list path :=
  (map_to_list
     (filter (fun kv : path * node =>
                negb (is_nil kv.1.2) && bool_decide (FS.parent kv.1 = d)
                && matches (Path.name kv.1)) fs)).*1.

End Disk.

(** *** [configure_jacoco] *)

Inductive configure_result :=
| PomNotFound (msg : string)
| AlreadyConfigured (msg : string)
| Inserted (msg : string).

(** Lines 231-251. *)
Definition plugin_snippet : string :=
  PyStr.join PyStr.nl
    [EmptyString;
     "            <plugin>";
     "              <groupId>org.jacoco</groupId>";
     "              <artifactId>jacoco-maven-plugin</artifactId>";
     "              <version>0.8.10</version>";
     "              <executions>";
     "                <execution>";
     "                  <goals>";
     "                    <goal>prepare-agent</goal>";
     "                  </goals>";
     "                </execution>";
     "                <execution>";
     "                  <id>report</id>";
     "                  <phase>test</phase>";
     "                  <goals>";
     "                    <goal>report</goal>";
     "                  </goals>";
     "                </execution>";
     "              </executions>";
     "            </plugin>";
     "    "].

(** Lines 254-261: where the snippet goes. *)
Definition insert_plugin (text : string) : string :=
  if PyText.contains "<build>" text then
    if PyText.contains "<plugins>" text then
      PyText.replace_first "<plugins>" ("<plugins>" ++ PyStr.nl ++ plugin_snippet) text
    else
      PyText.replace_all "<build>"
        ("<build>" ++ PyStr.nl ++ "  <plugins>" ++ PyStr.nl ++ plugin_snippet ++ PyStr.nl
           ++ "  </plugins>") text
  else
    PyText.replace_all "</project>"
      ("  <build>" ++ PyStr.nl ++ "    <plugins>" ++ PyStr.nl ++ plugin_snippet ++ PyStr.nl
         ++ "    </plugins>" ++ PyStr.nl ++ "  </build>" ++ PyStr.nl ++ "</project>") text.

(** Lines 225-228: the backup, made once. *)
Definition backup_pom (fs : filesystem) (pom : path) (text : string)
  : outcome filesystem * filesystem :=
  match Disk.with_suffix pom ".xml.bak" with
  | Raise e => (Raise e, fs)
  | Return backup =>
      if negb (FS.exists_ fs backup) then
        match Disk.replace fs pom backup with
        | Raise e => (Raise e, fs)
        | Return fs =>
            match FS.write_text fs backup text with
            | Raise e => (Raise e, fs)
            | Return fs => (Return fs, fs)
            end
        end
      else (Return fs, fs)
  end.

(** [configure_jacoco]; the file system is returned as the call left it,
    also when it raises. *)
Definition configure_jacoco (project_dir : string) (fs : filesystem)
  : outcome configure_result * filesystem :=
  let p := Path.of_str project_dir in
  let pom := Path.joinpath p "pom.xml" in
  if negb (FS.exists_ fs pom) then
    (Return (PomNotFound ("pom.xml not found in " ++ project_dir)), fs)
  else
    match FS.read_text fs pom with
    | Raise e => (Raise e, fs)
    | Return text =>
        if PyText.contains "jacoco-maven-plugin" text then
          (Return (AlreadyConfigured "JaCoCo already configured in pom.xml"), fs)
        else
          match backup_pom fs pom text with
          | (Raise e, fs) => (Raise e, fs)
          | (Return _, fs) =>
              let text := insert_plugin text in
              match FS.write_text fs pom text with
              | Raise e => (Raise e, fs)
              | Return fs =>
                  (Return (Inserted "Inserted JaCoCo plugin into pom.xml (backup created)"), fs)
              end
          end
    end.

(** *** [_write_fix_proposal] *)

(** Line 416. *)
Definition patch_text : string :=
  "# Proposal patch placeholder" ++ PyStr.nl
    ++ "# This file contains suggested changes to fix failing tests found during iteration."
    ++ PyStr.nl
    ++ "# Inspect the failures in the .json file and edit this patch to include actual unified-diff content."
    ++ PyStr.nl.

Section FixProposal.

(** The failure descriptors and [json.dumps(meta, indent=2)] for the
    record of an iteration and its failures. *)
Variable Failures : Type.
Variable json_dumps : Z -> Failures -> string.

Definition proposal_dir (project_dir : string) : path :=
  Path.joinpath (Path.joinpath (Path.of_str project_dir) ".mcp") "fixes".

Definition meta_path (project_dir : string) (iteration : Z) : path :=
  Path.joinpath (proposal_dir project_dir) ("proposal_" ++ PyStr.of_int iteration ++ ".json").

Definition patch_path (project_dir : string) (iteration : Z) : path :=
  Path.joinpath (proposal_dir project_dir) ("proposal_" ++ PyStr.of_int iteration ++ ".patch").

Definition _write_fix_proposal (failures : Failures) (project_dir : string) (iteration : Z)
    (fs : filesystem) : outcome string * filesystem :=
  let base := proposal_dir project_dir in
  match FS.mkdir_parents fs base with
  | Raise e => (Raise e, fs)
  | Return fs =>
      let meta_path := meta_path project_dir iteration in
      let patch_path := patch_path project_dir iteration in
      match FS.write_text fs meta_path (json_dumps iteration failures) with
      | Raise e => (Raise e, fs)
      | Return fs =>
          match FS.write_text fs patch_path patch_text with
          | Raise e => (Raise e, fs)
          | Return fs => (Return (Path.to_str meta_path), fs)
          end
      end
  end.

End FixProposal.

(** *** [_parse_surefire_reports] *)

(** Elements with their text, as the surefire parser reads them. *)
#[local] Unset Elimination Schemes.
Inductive xelement :=
| XElement (tag : string) (attrib : list (string * string)) (text : option string)
    (children : list xelement).
#[local] Set Elimination Schemes.

Module XET.

Definition tag (e : xelement) : string := let 'XElement t _ _ _ := e in t.
Definition attrib (e : xelement) : list (string * string) := let 'XElement _ a _ _ := e in a.
Definition text (e : xelement) : option string := let 'XElement _ _ t _ := e in t.
Definition children (e : xelement) : list xelement := let 'XElement _ _ _ c := e in c.

(** [e.get(key)] *)
Definition get (e : xelement) (key : string) : option string := ET.assoc key (attrib e).

Fixpoint descendants (e : xelement) : list xelement :=
  match e with
  | XElement _ _ _ cs => flat_map (fun c => c :: descendants c) cs
  end.

Definition has_tag (t : string) (e : xelement) : bool := (tag e =? t)%string.

(** [e.findall('.//' + t)] *)
Definition findall_desc (e : xelement) (t : string) : list xelement :=
  List.filter (has_tag t) (descendants e).

(** [e.find(t)]: the first child with tag [t]. *)
Definition find (e : xelement) (t : string) : option xelement :=
  List.find (has_tag t) (children e).

(** [bool(e)]: an element without children is false. *)
Definition truthy (e : xelement) : bool := negb (is_nil (children e)).

End XET.

(** One entry of the [failures] list. *)
Record test_failure := {
  tf_classname : option string;
  tf_name : option string;
  tf_message : string;
  tf_stacktrace : string
}.

Section Surefire.

(** The XML decoder behind [ET.parse], keeping the text of the elements. *)
Variable xml_decode_text : string -> outcome xelement.

(** Line 393: [tc.find('failure') or tc.find('error')]. *)
Definition failure_of (tc : xelement) : option xelement :=
  match XET.find tc "failure" with
  | Some failure => if XET.truthy failure then Some failure else XET.find tc "error"
  | None => XET.find tc "error"
  end.

(** The loop of lines 392-399 over the test cases of one report. *)
Fixpoint scan_testcases (testcases : list xelement) (failures : list test_failure)
  : list test_failure :=
  match testcases with
  | [] => failures
  | tc :: rest =>
      match failure_of tc with
      | Some failure =>
          let classname := XET.get tc "classname" in
          let name := XET.get tc "name" in
          let message := or_default (XET.get failure "message") EmptyString in
          let stack := or_default (XET.text failure) EmptyString in
          scan_testcases rest
            (failures ++ [{| tf_classname := classname; tf_name := name;
                             tf_message := message; tf_stacktrace := stack |}])
      | None => scan_testcases rest failures
      end
  end.

(** The loop of lines 388-402 over the report files. *)
Fixpoint scan_reports (fs : filesystem) (xml_files : list path) (failures : list test_failure)
  : list test_failure :=
  match xml_files with
  | [] => failures
  | xml_file :: rest =>
      match (text ← FS.read_text fs xml_file; xml_decode_text text) with
      | Return root =>
          scan_reports fs rest (scan_testcases (XET.findall_desc root "testcase") failures)
      | Raise _ => scan_reports fs rest failures
      end
  end.

Definition is_xml (name : string) : bool := PyStr.endswith name ".xml".

Definition reports_dir (project_dir : string) : path :=
  Path.joinpath (Path.joinpath (Path.of_str project_dir) "target") "surefire-reports".

Definition _parse_surefire_reports (project_dir : string) (fs : filesystem)
  : list test_failure :=
  let reports_dir := reports_dir project_dir in
  if negb (FS.exists_ fs reports_dir) then []
  else scan_reports fs (Disk.glob fs reports_dir is_xml) [].

End Surefire.

(** ** Vocabulary of the specification *)

(** The commands run between two states of the shell. *)
Definition invoked {World} (before after : shell World) : list (list string * string) :=
  drop (length (trace before)) (trace after).

Definition staged_query : list string := ["git"; "diff"; "--name-only"; "--cached"].
Definition status_query : list string := ["git"; "status"; "--porcelain"].
Definition branch_query : list string := ["git"; "rev-parse"; "--abbrev-ref"; "HEAD"].
Definition commit_cmd (msg : string) : list string := ["git"; "commit"; "-m"; msg].
Definition add_cmd (files : list string) : list string := "git" :: "add" :: "--" :: files.
Definition push_cmd (remote branch : string) : list string := ["git"; "push"; remote; branch].
Definition push_upstream_cmd (remote branch : string) : list string :=
  ["git"; "push"; "-u"; remote; branch].

Definition is_commit (inv : list string * string) : bool :=
  match inv.1 with
  | "git" :: "commit" :: _ => true
  | _ => false
  end.

Definition is_push (inv : list string * string) : bool :=
  match inv.1 with
  | "git" :: "push" :: _ => true
  | _ => false
  end.

Definition is_add (inv : list string * string) : bool :=
  match inv.1 with
  | "git" :: "add" :: _ => true
  | _ => false
  end.

(** The message a commit carries when coverage was computed. *)
Definition coverage_message (message : string) (cov : coverage) : string :=
  message ++ " | Coverage: " ++ PyFloat.format_2f (percent cov) ++ "% ("
    ++ PyStr.of_int (covered cov) ++ "/" ++ PyStr.of_int (covered cov + missed cov) ++ ")".

Definition threshold_message `{Runtime} (cov : coverage) (threshold : spec_float) : string :=
  "Coverage " ++ PyFloat.format_2f (percent cov) ++ "% below threshold "
    ++ float_str threshold ++ "% - aborting commit.".

(** The two terminal failures of the commit gate, on the staged list
    [staged] that the query reported. *)
Inductive refusal `{Runtime} (include_coverage : bool) (jacoco_xml : option string)
    (coverage_threshold : option spec_float) (fs : filesystem) (staged : list string)
  : commit_result -> Prop :=
| refuse_nothing_staged :
    staged = [] ->
    refusal include_coverage jacoco_xml coverage_threshold fs staged
      (NoStagedChanges "No staged changes to commit.")
| refuse_below_threshold xml threshold cov :
    staged <> [] ->
    include_coverage = true ->
    jacoco_xml = Some xml ->
    PyStr.truthy xml = true ->
    coverage_threshold = Some threshold ->
    _compute_jacoco_coverage fs xml = CovOk cov ->
    PyFloat.ltb (percent cov) threshold = true ->
    refusal include_coverage jacoco_xml coverage_threshold fs staged
      (ThresholdFailed (threshold_message cov threshold) cov).

(** A counter of kind LINE. *)
Definition is_line (c : element) : bool := bool_decide (ET.get c "type" = Some "LINE").

(** The LINE counters that [_compute_jacoco_coverage] visits. *)
Definition line_counters (root : element) : list element :=
  List.filter is_line (ET.findall_desc root "counter").

(** Every LINE counter of the entire report tree, in document order. *)
Definition tree_line_counters (root : element) : list element :=
  List.filter is_line (List.filter (ET.has_tag "counter") (ET.iter root)).

(** Both attributes of the counter are integers. *)
Definition integer_counter `{Runtime} (c : element) : bool :=
  match py_int (ET.get c "missed"), py_int (ET.get c "covered") with
  | Return _, Return _ => true
  | _, _ => false
  end.

(** The integer in attribute [key] of a counter. *)
Definition counter_value `{Runtime} (key : string) (c : element) : Z :=
  match py_int (ET.get c key) with
  | Return n => n
  | Raise _ => 0
  end.

(** A CoverageCounter of the data model: two non-negative integers. *)
Definition counts_lines `{Runtime} (c : element) : Prop :=
  integer_counter c = true
  /\ 0 <= counter_value "missed" c /\ 0 <= counter_value "covered" c.

(** The sum of [f] over a list of counters. *)
Definition total (f : element -> Z) (l : list element) : Z :=
  fold_right (fun c acc => f c + acc) 0 l.

(** The packages of a report and the classes of a package, in traversal
    order. *)
Definition packages (root : element) : list element := ET.findall_desc root "package".
Definition classes (pkg : element) : list element := ET.findall pkg "class".

(** The LINE counters directly under a class. *)
Definition class_line_counters (cls : element) : list element :=
  List.filter is_line (ET.findall cls "counter").

Definition unit_of `{Runtime} (pkg cls counter : element) : uncovered_unit :=
  {| u_package := ET.get pkg "name"; u_class := ET.get cls "name";
     u_missed := counter_value "missed" counter;
     u_covered := counter_value "covered" counter |}.

Definition misses_lines `{Runtime} (counter : element) : bool :=
  0 <? counter_value "missed" counter.

(** The units of one class: one for each of its LINE counters with
    [missed > 0]. *)
Definition class_units `{Runtime} (pkg cls : element) : list uncovered_unit :=
  List.map (unit_of pkg cls) (List.filter misses_lines (class_line_counters cls)).

(** The units of a report, in traversal order. *)
Definition gap_units `{Runtime} (root : element) : list uncovered_unit :=
  flat_map (fun pkg => flat_map (class_units pkg) (classes pkg)) (packages root).

(** The LINE counter of a class of a JaCoCo report. *)
Definition line_counter (cls : element) : option element := head (class_line_counters cls).

(** No class carries two LINE counters. *)
Definition single_line_counters (root : element) : Prop :=
  forall pkg cls, In pkg (packages root) -> In cls (classes pkg) ->
    (length (class_line_counters cls) <= 1)%nat.

(** The unit of a class whose LINE counter has [missed > 0]. *)
Definition class_gap `{Runtime} (pkg cls : element) : option uncovered_unit :=
  match line_counter cls with
  | Some counter => if misses_lines counter then Some (unit_of pkg cls counter) else None
  | None => None
  end.

(** One unit for each class whose LINE counter has [missed > 0], in
    traversal order. *)
Definition gaps_by_class `{Runtime} (root : element) : list uncovered_unit :=
  flat_map (fun pkg => omap (class_gap pkg) (classes pkg)) (packages root).

(** Every LINE counter of every class has integer attributes. *)
Definition integer_class `{Runtime} (cls : element) : bool :=
  forallb integer_counter (class_line_counters cls).
Definition integer_classes `{Runtime} (root : element) : bool :=
  forallb (fun pkg => forallb integer_class (classes pkg)) (packages root).

(** The source root and the test root of [generate_tests] (lines 274-279). *)
Definition source_root (project_dir : string) : path :=
  Path.joinpath (Path.joinpath (Path.joinpath (Path.of_str project_dir) "src") "main") "java".

(** The source tree below [src_root] is the same in both file systems. *)
Definition same_sources (src_root : path) (fs fs' : filesystem) : Prop :=
  forall p, Path.below src_root p = true -> fs' !! p = fs !! p.

(** The paths a porcelain status text reports as changed (lines 82-85). *)
Definition changed_paths (status_text : string) : list string :=
  List.map (PyStr.drop 3) (nonblank_lines status_text).

(** [path] matches some pattern, as reported or joined to the repository
    root. *)
Definition excluded `{Runtime} (repo_dir : string) (patterns : list string) (path : string)
  : bool :=
  existsb (fun pat => fnmatch path pat || fnmatch (os_path_join repo_dir path) pat) patterns.

(** The filtered set: the changed paths that no pattern excludes. *)
Definition eligible `{Runtime} (repo_dir : string) (patterns : list string)
    (status_text : string) : list string :=
  List.filter (fun path => negb (excluded repo_dir patterns path)) (changed_paths status_text).

(** Line 32: the percent of [covered] lines out of [covered + missed]. *)
Definition line_percent (covered missed : Z) : spec_float :=
  if 0 <? covered + missed
  then PyFloat.mul (PyFloat.div (PyFloat.exact covered) (PyFloat.exact (covered + missed)))
         PyFloat.hundred
  else PyFloat.zero.

(** Coverage was requested: [include_coverage and jacoco_xml] is truthy. *)
Definition coverage_requested (include_coverage : bool) (jacoco_xml : option string)
  : option string :=
  match jacoco_xml with
  | Some xml => if include_coverage && PyStr.truthy xml then Some xml else None
  | None => None
  end.

(** The threshold, if any, lets [percent] pass. *)
Definition passes (coverage_threshold : option spec_float) (percent : spec_float) : bool :=
  match coverage_threshold with
  | Some threshold => negb (PyFloat.ltb percent threshold)
  | None => true
  end.

(** ** A concrete runtime and world

    The examples below run the tools on small inputs. Library calls are
    tabulated on the documents the examples use; the commands of the world act
    on a toy repository. *)

Module Demo.

(** [int(s)] on an optionally signed run of ASCII digits. *)
Fixpoint digits_value (s : string) (acc : Z) : option Z :=
  match s with
  | EmptyString => Some acc
  | String c rest =>
      let n := Z.of_N (PyStr.code c) in
      if (48 <=? n) && (n <=? 57) then digits_value rest (10 * acc + (n - 48)) else None
  end.

Definition parse_int (s : string) : outcome Z :=
  let bad := Raise (Exn "ValueError" ("invalid literal for int() with base 10: '" ++ s ++ "'")) in
  match PyStr.strip s with
  | EmptyString => bad
  | String "-" (String _ _ as ds) => from_option (fun v => Return (- v)) bad (digits_value ds 0)
  | String "+" (String _ _ as ds) => from_option Return bad (digits_value ds 0)
  | ds => from_option Return bad (digits_value ds 0)
  end.

(** [str(x)] for a float with an integral value; the thresholds of the
    examples are of that kind. Any other value is shown with two decimals. *)
Definition show_float (x : spec_float) : string :=
  match x with
  | S754_finite s m e =>
      if (e <=? 0) && (Zpos m mod 2 ^ (- e) =? 0)
      then PyFloat.sign_str s ++ PyStr.of_int (Zpos m / 2 ^ (- e)) ++ ".0"
      else PyFloat.format_2f x
  | _ => PyFloat.format_2f x
  end.

Definition counter (type missed covered : string) : element :=
  Element "counter" [("type", type); ("missed", missed); ("covered", covered)] [].

Definition class (name : string) (counters : list element) : element :=
  Element "class" [("name", name)] counters.

(** A report with one package and two classes: [Full] misses no line,
    [Partial] misses three. *)
Definition two_classes : element :=
  Element "report" [("name", "demo")]
    [Element "package" [("name", "com/acme")]
       [class "com/acme/Full" [counter "METHOD" "0" "2"; counter "LINE" "0" "12"];
        class "com/acme/Partial" [counter "METHOD" "1" "1"; counter "LINE" "3" "7"]]].

(** A report whose LINE counters add up to 85 covered and 15 missed. *)
Definition eighty_five : element :=
  Element "report" [("name", "demo")]
    [Element "package" [("name", "com/acme")]
       [class "com/acme/A" [counter "LINE" "5" "45"; counter "BRANCH" "4" "4"];
        class "com/acme/B" [counter "LINE" "10" "40"]]].

(** A report without any line. *)
Definition no_lines : element :=
  Element "report" [("name", "demo")] [Element "package" [("name", "com/acme")] []].

(** A report whose first class has a LINE counter without [missed]. *)
Definition one_malformed : element :=
  Element "report" [("name", "demo")]
    [Element "package" [("name", "com/acme")]
       [class "com/acme/Broken" [Element "counter" [("type", "LINE"); ("covered", "4")] []];
        class "com/acme/Partial" [counter "LINE" "3" "7"]]].

Definition decode (text : string) : outcome element :=
  if (text =? "<two_classes/>")%string then Return two_classes
  else if (text =? "<eighty_five/>")%string then Return eighty_five
  else if (text =? "<no_lines/>")%string then Return no_lines
  else if (text =? "<one_malformed/>")%string then Return one_malformed
  else Raise (Exn "ParseError" "syntax error: line 1, column 0").

(** [fnmatch] for patterns made of literal characters, [*] and [?]. *)
Fixpoint glob (pat : string) : string -> bool :=
  match pat with
  | EmptyString => PyStr.is_empty
  | String c pat' =>
      if Ascii.eqb c "*" then
        fix star (name : string) : bool :=
          glob pat' name ||
          match name with
          | String _ name' => star name'
          | EmptyString => false
          end
      else fun name =>
        match name with
        | String c' name' => (Ascii.eqb c "?" || Ascii.eqb c c') && glob pat' name'
        | EmptyString => false
        end
  end.

(** [os.path.abspath] for normalized paths, from the directory [/work]. *)
Definition resolve (p : string) : string :=
  if (p =? ".")%string then "/work"
  else if PyStr.startswith p "/" then p
  else "/work/" ++ p.

Definition calc_java : string :=
  "package com.acme; public class Calc { public int add(int a, int b) { return a + b; } }".
Definition empty_java : string := "package com.acme; interface Marker { }".

Definition find_package (text : string) : option string :=
  if (text =? calc_java)%string || (text =? empty_java)%string then Some "com.acme" else None.

Definition find_methods (text : string) : list (string * string) :=
  if (text =? calc_java)%string then [("add", "int a, int b")] else [].

#[export] Instance runtime : Runtime := {|
  int_of_str := parse_int;
  float_str := show_float;
  xml_decode := decode;
  fnmatch := fun name pat => glob pat name;
  abspath := resolve;
  package_search := find_package;
  method_findall := find_methods
|}.

(** A toy repository: the porcelain status text, the index, the commit
    messages, the current branch and whether it has an upstream. *)
Record repo := {
  status : string;
  index : list string;
  history : list string;
  branch : string;
  upstream : bool
}.

Definition reply (code : Z) (out : string) : cmd_result :=
  {| returncode := Some code; stdout := Some out; stderr := Some EmptyString |}.

Definition run_cmd (argv : list string) (cwd : string) (r : repo) : cmd_result * repo :=
  match argv with
  | ["git"; "status"; "--porcelain"] => (reply 0 (status r), r)
  | ["git"; "diff"; "--name-only"; "--cached"] => (reply 0 (PyStr.join PyStr.nl (index r)), r)
  | "git" :: "add" :: "--" :: files =>
      (reply 0 EmptyString,
       {| status := status r; index := (index r ++ files)%list; history := history r;
          branch := branch r; upstream := upstream r |})
  | ["git"; "commit"; "-m"; msg] =>
      match index r with
      | [] => (reply 1 "nothing to commit", r)
      | _ :: _ =>
          (reply 0 EmptyString,
           {| status := status r; index := []; history := msg :: history r;
              branch := branch r; upstream := upstream r |})
      end
  | ["git"; "rev-parse"; "--abbrev-ref"; "HEAD"] => (reply 0 (branch r ++ PyStr.nl), r)
  | ["git"; "push"; _; _] =>
      if upstream r then (reply 0 EmptyString, r)
      else (reply 128 "no upstream branch", r)
  | ["git"; "push"; "-u"; _; _] =>
      (reply 0 EmptyString,
       {| status := status r; index := index r; history := history r;
          branch := branch r; upstream := true |})
  | _ => ({| returncode := Some 127; stdout := None; stderr := None |}, r)
  end.

Definition start (r : repo) : shell repo := {| world := r; trace := [] |}.

(** The literal [90.0]. *)
Definition ninety : spec_float := S754_finite false 6333186975989760 (-46).

(** A working tree with one staged file. *)
Definition staged_repo : repo :=
  {| status := "M  src/Calc.java"; index := ["src/Calc.java"]; history := [];
     branch := "main"; upstream := false |}.

(** A working tree with nothing staged and three changed paths. *)
Definition dirty_repo : repo :=
  {| status := " M src/Calc.java" ++ PyStr.nl ++ "?? target/classes/Calc.class" ++ PyStr.nl
               ++ "?? build.log";
     index := []; history := []; branch := "main"; upstream := false |}.

Definition file_at (p text : string) (fs : filesystem) : filesystem :=
  <[Path.of_str p := File text]> fs.
Definition dir_at (p : string) (fs : filesystem) : filesystem :=
  <[Path.of_str p := Dir]> fs.

(** Coverage reports on disk. *)
Definition reports : filesystem :=
  file_at "cov85.xml" "<eighty_five/>"
    (file_at "empty.xml" "<no_lines/>"
       (file_at "two.xml" "<two_classes/>"
          (file_at "broken.xml" "<one_malformed/>"
             (file_at "garbage.xml" "not xml" ∅)))).

(** A project with two sources, one of them without a public method. *)
Definition project : filesystem :=
  file_at "proj/src/main/java/com/acme/Calc.java" calc_java
    (file_at "proj/src/main/java/com/acme/Marker.java" empty_java
       (dir_at "proj/src/main/java/com/acme"
          (dir_at "proj/src/main/java/com"
             (dir_at "proj/src/main/java"
                (dir_at "proj/src/main" (dir_at "proj/src" (dir_at "proj" ∅))))))).

Definition cov85 : coverage :=
  {| percent := S754_finite false 5981343255101440 (-46); covered := 85; missed := 15 |}.

Definition partial_unit : uncovered_unit :=
  {| u_package := Some "com/acme"; u_class := Some "com/acme/Partial";
     u_missed := 3; u_covered := 7 |}.

Definition type_error : exn :=
  Exn "TypeError"
    "int() argument must be a string, a bytes-like object or a real number, not 'NoneType'".

Definition unbound_percent : exn :=
  Exn "UnboundLocalError"
    "cannot access local variable 'percent' where it is not associated with a value".

Definition quiet : option string := Some EmptyString.

(** The repository [staged_repo] after a commit with message [msg]. *)
Definition committed (msg : string) : repo :=
  {| status := status staged_repo; index := []; history := [msg];
     branch := "main"; upstream := false |}.

(** The first run of the generator on the project. *)
Definition first_run : outcome generate_result * filesystem :=
  generate_tests "proj" None project.

End Demo.

(** ** More instances for the examples *)

Module Workbench.

Import Demo.

(** A toy workstation: the branch-aware status text, whether the hosting
    CLI is installed, what its create command prints and how it exits, and
    the pull requests and builds so far. *)
Record desk := {
  porcelain : string;
  gh_installed : bool;
  gh_reply : string;
  gh_code : Z;
  pulls : list (string * string);
  builds : list (list string)
}.

Definition tool (argv : list string) (cwd : string) (d : desk) : cmd_result * desk :=
  match argv with
  | ["git"; "status"; "--porcelain"; "--branch"] => (reply 0 (porcelain d), d)
  | ["gh"; "--version"] =>
      if gh_installed d then (reply 0 "gh version 2.40.1", d)
      else ({| returncode := Some 127; stdout := None;
               stderr := Some "gh: command not found" |}, d)
  | ["gh"; "pr"; "create"; "--base"; base; "--title"; title; "--body"; _] =>
      ({| returncode := Some (gh_code d); stdout := Some (gh_reply d);
          stderr := Some EmptyString |},
       {| porcelain := porcelain d; gh_installed := gh_installed d; gh_reply := gh_reply d;
          gh_code := gh_code d;
          pulls := if (gh_code d =? 0) then (pulls d ++ [(base, title)])%list else pulls d;
          builds := builds d |})
  | "mvn" :: goals =>
      (reply 0 "BUILD SUCCESS",
       {| porcelain := porcelain d; gh_installed := gh_installed d; gh_reply := gh_reply d;
          gh_code := gh_code d; pulls := pulls d; builds := (builds d ++ [goals])%list |})
  | _ => ({| returncode := Some 127; stdout := None; stderr := None |}, d)
  end.

Definition at_desk (d : desk) : shell desk := {| world := d; trace := [] |}.

(** A branch line, a staged file, a modified file, an untracked file and a
    conflict. *)
Definition busy : desk :=
  {| porcelain := "## main...origin/main" ++ PyStr.nl ++ "M  src/Calc.java" ++ PyStr.nl
                  ++ " M README.md" ++ PyStr.nl ++ "?? notes.txt" ++ PyStr.nl ++ "UU pom.xml";
     gh_installed := true;
     gh_reply := "Creating pull request for main into master" ++ PyStr.nl
                 ++ "https://github.com/acme/calc/pull/7" ++ PyStr.nl;
     gh_code := 0; pulls := []; builds := [] |}.

Definition busy_summary : status_result :=
  {| st_clean := false; st_branch := Some "main...origin/main";
     st_staged := ["src/Calc.java"; "notes.txt"; "pom.xml"];
     st_unstaged := ["README.md"; "notes.txt"; "pom.xml"];
     st_conflicts := ["pom.xml"];
     st_raw := porcelain busy |}.

(** A status text with a line of one character. *)
Definition clipped : desk :=
  {| porcelain := "## main" ++ PyStr.nl ++ "M"; gh_installed := false;
     gh_reply := EmptyString; gh_code := 1; pulls := []; builds := [] |}.

(** The create command succeeds and prints white space only. *)
Definition terse : desk :=
  {| porcelain := EmptyString; gh_installed := true; gh_reply := " " ++ PyStr.nl;
     gh_code := 0; pulls := []; builds := [] |}.

(** The create command fails. *)
Definition refused : desk :=
  {| porcelain := EmptyString; gh_installed := true; gh_reply := EmptyString;
     gh_code := 1; pulls := []; builds := [] |}.

(** A repository whose branch query prints an empty line. *)
Definition unborn : repo :=
  {| status := EmptyString; index := []; history := []; branch := EmptyString;
     upstream := false |}.

(** A report with the LINE counters of [eighty_five] and other counters
    of its own. *)
Definition eighty_five_more : element :=
  Element "report" [("name", "demo")]
    [Element "package" [("name", "com/acme")]
       [class "com/acme/A" [counter "INSTRUCTION" "90" "10"; counter "LINE" "5" "45"];
        class "com/acme/B" [counter "LINE" "10" "40"; counter "METHOD" "7" "1"]]].

Definition decode_more (text : string) : outcome element :=
  if (text =? "<eighty_five_more/>")%string then Return eighty_five_more else decode text.

Definition runtime_more : Runtime := {|
  int_of_str := parse_int;
  float_str := show_float;
  xml_decode := decode_more;
  fnmatch := fun name pat => glob pat name;
  abspath := resolve;
  package_search := find_package;
  method_findall := find_methods
|}.

Definition reports_more : filesystem := file_at "more.xml" "<eighty_five_more/>" reports.

(** A project whose report is where the build puts it. *)
Definition built : filesystem :=
  file_at "proj/target/site/jacoco/jacoco.xml" "<two_classes/>"
    (dir_at "proj/target/site/jacoco"
       (dir_at "proj/target/site" (dir_at "proj/target" (dir_at "proj" ∅)))).

(** Build files. *)
Definition pom_with_plugins : string :=
  "<project><build><plugins></plugins></build></project>".
Definition pom_fragment : string := "<project/>".

Definition with_pom (text : string) : filesystem :=
  file_at "proj/pom.xml" text (file_at "proj/README.md" "Calc" (dir_at "proj" ∅)).

(** A stand-in for [json.dumps]. *)
Definition dumps (iteration : Z) (failures : list test_failure) : string :=
  "iteration " ++ PyStr.of_int iteration ++ ", failures "
    ++ PyStr.of_int (Z.of_nat (List.length failures)).

(** Test reports: one with a text-only failure and a passing test, one
    that is not XML. *)
Definition text_failure : xelement :=
  XElement "failure" [("message", "expected 3 but was 4")]
    (Some "at CalcTest.adds(CalcTest.java:9)") [].

Definition failing_case : xelement :=
  XElement "testcase" [("classname", "CalcTest"); ("name", "adds")] None [text_failure].

Definition passing_case : xelement :=
  XElement "testcase" [("classname", "CalcTest"); ("name", "subtracts")] None [].

Definition calc_report : xelement :=
  XElement "testsuite" [("name", "CalcTest")] None [failing_case; passing_case].

(** A test that raised, with a text-only failure beside the error. *)
Definition crash : xelement :=
  XElement "error" [("message", "/ by zero")] (Some "at Calc.divide(Calc.java:21)") [].

Definition crashing_case : xelement :=
  XElement "testcase" [("classname", "CalcTest"); ("name", "divides")] None
    [XElement "failure" [] (Some "unexpected") []; crash].

Definition crash_report : xelement :=
  XElement "testsuite" [("name", "CalcTest")] None [passing_case; crashing_case].

Definition decode_report (text : string) : outcome xelement :=
  if (text =? "<calc_report/>")%string then Return calc_report
  else if (text =? "<crash_report/>")%string then Return crash_report
  else Raise (Exn "ParseError" "syntax error: line 1, column 0").

Definition tested : filesystem :=
  file_at "proj/target/surefire-reports/TEST-CalcTest.xml" "<calc_report/>"
    (file_at "proj/target/surefire-reports/TEST-broken.xml" "not xml"
       (dir_at "proj/target/surefire-reports" (dir_at "proj/target" (dir_at "proj" ∅)))).

Definition crashed : filesystem :=
  file_at "proj/target/surefire-reports/TEST-CalcTest.xml" "<crash_report/>"
    (dir_at "proj/target/surefire-reports" (dir_at "proj/target" (dir_at "proj" ∅))).

Definition crash_entry : test_failure :=
  {| tf_classname := Some "CalcTest"; tf_name := Some "divides";
     tf_message := "/ by zero"; tf_stacktrace := "at Calc.divide(Calc.java:21)" |}.

(** The project of the examples with a directory named like a source. *)
Definition odd_project : filesystem :=
  dir_at "proj/src/main/java/com/acme/Gen.java" project.

End Workbench.

(** ** Binary64 division of a part by the whole *)

Section FloatFacts.

Lemma Zdigits2_log2 m : 0 < m -> Zdigits2 m = Z.log2 m + 1.
Proof.
  destruct m as [|p|p]; try lia. intros _. simpl.
  assert (E : digits2_pos p = Pos.size p).
  { induction p; simpl; congruence. }
  rewrite E. destruct p; simpl; lia.
Qed.

Lemma Zdigits2_nonneg m : 0 <= Zdigits2 m.
Proof. destruct m; simpl; lia. Qed.

Lemma Zdigits2_gt m : 0 <= m -> m < 2 ^ Zdigits2 m.
Proof.
  intros Hm. destruct (Z.eq_dec m 0) as [->|Hne]; [reflexivity|].
  rewrite Zdigits2_log2 by lia. apply Z.log2_spec. lia.
Qed.

Lemma Zdigits2_le m k : 0 <= m -> 0 <= k -> m < 2 ^ k -> Zdigits2 m <= k.
Proof.
  intros Hm Hk Hlt. destruct (Z.eq_dec m 0) as [->|Hne]; [exact Hk|].
  rewrite Zdigits2_log2 by lia.
  assert (Z.log2 m < k) by (apply Z.log2_lt_pow2; lia). lia.
Qed.

Lemma shr_1_m mrs :
  0 <= shr_m mrs -> 0 <= shr_m (shr_1 mrs) /\ shr_m (shr_1 mrs) * 2 <= shr_m mrs.
Proof.
  destruct mrs as [m r s]. simpl. intros Hm.
  destruct m as [|[p|p|]|p]; simpl; lia.
Qed.

Lemma iter_shr_1_m p mrs :
  0 <= shr_m mrs ->
  0 <= shr_m (SpecFloat.iter_pos shr_1 p mrs)
  /\ shr_m (SpecFloat.iter_pos shr_1 p mrs) * 2 ^ Zpos p <= shr_m mrs.
Proof.
  revert mrs. induction p as [p IH|p IH|]; intros mrs Hm; simpl SpecFloat.iter_pos.
  - destruct (shr_1_m mrs Hm) as [H0 H1].
    destruct (IH _ H0) as [H2 H3]. destruct (IH _ H2) as [H4 H5].
    split; [exact H4|].
    replace (Zpos p~1) with (Zpos p + Zpos p + 1) by lia.
    rewrite !Z.pow_add_r by lia. 
    assert (0 < 2 ^ Zpos p) by (apply Z.pow_pos_nonneg; lia). nia.
  - destruct (IH _ Hm) as [H2 H3]. destruct (IH _ H2) as [H4 H5].
    split; [exact H4|].
    replace (Zpos p~0) with (Zpos p + Zpos p) by lia.
    rewrite !Z.pow_add_r by lia.
    assert (0 < 2 ^ Zpos p) by (apply Z.pow_pos_nonneg; lia). nia.
  - destruct (shr_1_m mrs Hm) as [H0 H1]. split; [exact H0|]. 
    change (2 ^ 1) with 2. exact H1.
Qed.

Lemma shr_spec mrs e n mrs' e' :
  0 <= shr_m mrs -> shr mrs e n = (mrs', e') ->
  e' = Z.max e (e + n) /\ 0 <= shr_m mrs' /\ shr_m mrs' * 2 ^ (e' - e) <= shr_m mrs.
Proof.
  intros Hm. unfold shr. destruct n as [|p|p]; intros [= <- <-].
  - rewrite Z.max_l, Z.sub_diag by lia. simpl. lia.
  - destruct (iter_shr_1_m p mrs Hm) as [H0 H1].
    rewrite Z.max_r by lia. replace (e + Zpos p - e) with (Zpos p) by lia. auto.
  - rewrite Z.max_l, Z.sub_diag by lia. simpl. lia.
Qed.

Lemma shr_record_of_loc_m m l : shr_m (shr_record_of_loc m l) = m.
Proof. destruct l as [|[]]; reflexivity. Qed.

Lemma round_nearest_even_bounds m l :
  0 <= m -> m <= round_nearest_even m l <= m + 1.
Proof. intros Hm. destruct l as [|[]]; simpl; try lia. destruct (Z.even m); lia. Qed.

Lemma fexp64 e : fexp 53 1024 e = Z.max (e - 53) (-1074).
Proof. reflexivity. Qed.

(** Rounding does not overflow when the operand is small enough. *)
Lemma binary_round_aux_no_overflow s mx ex lx s' :
  0 <= mx -> ex <= 971 -> Zdigits2 mx + ex <= 1023 ->
  binary_round_aux 53 1024 s mx ex lx <> S754_infinity s'.
Proof.
  intros Hm Hex Hd. unfold binary_round_aux, shr_fexp.
  destruct (shr (shr_record_of_loc mx lx) ex _) as [mrs1 e1] eqn:E1.
  apply shr_spec in E1; [|rewrite shr_record_of_loc_m; exact Hm].
  rewrite shr_record_of_loc_m in E1. destruct E1 as (He1 & Hm1 & Hle1).
  pose proof (round_nearest_even_bounds (shr_m mrs1) (loc_of_shr_record mrs1) Hm1) as Hr.
  set (m2 := round_nearest_even (shr_m mrs1) (loc_of_shr_record mrs1)) in *.
  destruct (shr (shr_record_of_loc m2 loc_Exact) e1 _) as [mrs2 e2] eqn:E2.
  apply shr_spec in E2; [|simpl; lia].
  destruct E2 as (He2 & _ & _).
  destruct (shr_m mrs2); try discriminate.
  assert (He1' : e1 <= 971 /\ ex <= e1).
  { rewrite fexp64 in He1. lia. }
  assert (Hd2 : Zdigits2 m2 + e1 <= 1024).
  { pose proof (Zdigits2_gt mx Hm) as Hgt.
    pose proof (Zdigits2_nonneg mx) as Hnn.
    destruct (Z_le_gt_dec (e1 - ex) (Zdigits2 mx)) as [Hc|Hc].
    - assert (shr_m mrs1 < 2 ^ (Zdigits2 mx - (e1 - ex))).
      { apply Z.mul_lt_mono_pos_r with (p := 2 ^ (e1 - ex)).
        - apply Z.pow_pos_nonneg; lia.
        - rewrite <- Z.pow_add_r by lia.
          replace (Zdigits2 mx - (e1 - ex) + (e1 - ex)) with (Zdigits2 mx) by lia. lia. }
      assert (Zdigits2 m2 <= Zdigits2 mx - (e1 - ex) + 1).
      { apply Zdigits2_le; [lia | lia |].
        rewrite Z.pow_add_r by lia. change (2 ^ 1) with 2. lia. }
      lia.
    - assert (shr_m mrs1 = 0).
      { assert (2 ^ Zdigits2 mx < 2 ^ (e1 - ex)) by (apply Z.pow_lt_mono_r; lia). nia. }
      assert (Zdigits2 m2 <= 1).
      { apply Zdigits2_le; [lia | lia | change (2 ^ 1) with 2; lia]. }
      lia. }
  assert (e2 <= 971).
  { rewrite He2, fexp64. lia. }
  change (1024 - 53) with 971.
  destruct (e2 <=? 971) eqn:Hcmp; [discriminate|]. apply Z.leb_gt in Hcmp. lia.
Qed.

Lemma SFdiv_core_binary_fraction pa pb mz ez lz :
  (pa <= pb)%positive ->
  SFdiv_core_binary 53 1024 (Zpos pa) 0 (Zpos pb) 0 = (mz, ez, lz) ->
  0 <= mz /\ ez <= 0 /\ Zdigits2 mz + ez <= 1.
Proof.
  intros Hle. unfold SFdiv_core_binary.
  set (e' := Z.min _ (0 - 0)).
  assert (He' : e' <= 0) by (subst e'; lia).
  set (m' := match 0 - 0 - e' with
             | Z0 => Zpos pa
             | Zpos _ => Z.shiftl (Zpos pa) (0 - 0 - e')
             | Zneg _ => 0
             end).
  assert (Hm' : m' = Zpos pa * 2 ^ (- e')).
  { subst m'. replace (0 - 0 - e') with (- e') by lia.
    destruct (- e') as [|p|p] eqn:Hs; [lia| |lia].
    apply Z.shiftl_mul_pow2. lia. }
  destruct (Z.div_eucl m' (Zpos pb)) as [q r] eqn:Ediv. intros [= <- <- <-].
  assert (Hq : q = m' / Zpos pb) by (unfold Z.div; rewrite Ediv; reflexivity).
  assert (Hpow : 0 < 2 ^ (- e')) by (apply Z.pow_pos_nonneg; lia).
  assert (H0 : 0 <= q) by (rewrite Hq; apply Z.div_pos; nia).
  assert (H1 : q <= 2 ^ (- e')).
  { rewrite Hq. apply Z.div_le_upper_bound; [lia|]. rewrite Hm'. nia. }
  split; [exact H0|]. split; [exact He'|].
  assert (Zdigits2 q <= - e' + 1); [|lia].
  apply Zdigits2_le; [lia | lia |].
  rewrite Z.pow_add_r by lia. change (2 ^ 1) with 2. lia.
Qed.

(** The quotient of two integers [0 <= a <= b], [0 < b], is representable:
    the division raises nothing. *)
Lemma int_true_divide_fraction a b :
  0 <= a <= b -> 0 < b ->
  int_true_divide a b = Return (PyFloat.div (PyFloat.exact a) (PyFloat.exact b)).
Proof.
  intros Hab Hb. unfold int_true_divide.
  destruct (b =? 0) eqn:Hz; [apply Z.eqb_eq in Hz; lia|].
  destruct b as [|pb|pb]; try lia.
  destruct a as [|pa|pa]; try lia; [reflexivity|].
  unfold PyFloat.div, PyFloat.exact, PyFloat.prec, PyFloat.emax, SFdiv.
  destruct (SFdiv_core_binary 53 1024 (Zpos pa) 0 (Zpos pb) 0) as [[mz ez] lz] eqn:Ecore.
  apply SFdiv_core_binary_fraction in Ecore; [|lia].
  destruct Ecore as (H0 & H1 & H2).
  destruct (binary_round_aux 53 1024 (xorb false false) mz ez lz) eqn:Er; try reflexivity.
  exfalso. revert Er. apply binary_round_aux_no_overflow; lia.
Qed.

End FloatFacts.

(** ** The coverage aggregator *)

Section Aggregator.

Context `{Runtime}.

Lemma integer_counter_values c :
  integer_counter c = true ->
  py_int (ET.get c "missed") = Return (counter_value "missed" c)
  /\ py_int (ET.get c "covered") = Return (counter_value "covered" c).
Proof.
  unfold integer_counter, counter_value.
  destruct (py_int (ET.get c "missed")); [|discriminate].
  destruct (py_int (ET.get c "covered")); [|discriminate]. auto.
Qed.

(** The loop adds the attributes of the LINE counters to the totals. *)
Lemma line_totals_spec counters total_missed total_covered :
  forallb integer_counter (List.filter is_line counters) = true ->
  line_totals counters total_missed total_covered
  = Return (total_missed + total (counter_value "missed") (List.filter is_line counters),
            total_covered + total (counter_value "covered") (List.filter is_line counters)).
Proof.
  revert total_missed total_covered.
  induction counters as [|counter rest IH]; intros tm tc Hall.
  - simpl. rewrite !Z.add_0_r. reflexivity.
  - cbn [line_totals List.filter] in *.
    change (bool_decide (ET.get counter "type" = Some "LINE")) with (is_line counter).
    destruct (is_line counter).
    + cbn [forallb] in Hall. apply andb_true_iff in Hall as [Hc Hrest].
      destruct (integer_counter_values _ Hc) as [-> ->]. simpl.
      rewrite (IH _ _ Hrest). unfold total. cbn [fold_right]. do 2 f_equal; lia.
    + apply IH, Hall.
Qed.

Lemma total_nonneg f l : Forall (fun c => 0 <= f c) l -> 0 <= total f l.
Proof. induction 1; simpl; lia. Qed.

Lemma ET_parse_exists fs p root : ET_parse fs p = Return root -> FS.exists_ fs p = true.
Proof.
  unfold ET_parse, FS.read_text, FS.exists_. intros Hp.
  destruct (FS.stat fs p) as [[|text]|]; try discriminate.
  apply bool_decide_eq_true. eauto.
Qed.

(** The counters below the root are all the counters of the tree, unless
    the root is itself a counter. *)
Lemma tree_line_counters_visited root :
  ET.tag root <> "counter" -> tree_line_counters root = line_counters root.
Proof.
  intros Hroot. unfold tree_line_counters, line_counters, ET.findall_desc, ET.iter.
  cbn [List.filter]. unfold ET.has_tag at 1.
  destruct (String.eqb_spec (ET.tag root) "counter") as [E|_]; [contradiction|reflexivity].
Qed.

(** C4. For a report that parses, with LINE counters that are pairs of
    non-negative integers, the aggregator succeeds; its covered and missed
    totals are the sums of these attributes over every LINE counter of the
    entire report tree, and its percent is
    [covered / (covered + missed) * 100], or [0.0] when [covered + missed]
    is zero. *)
Theorem coverage_overall_percent fs jacoco_xml_path root :
  let c := total (counter_value "covered") (tree_line_counters root) in
  let m := total (counter_value "missed") (tree_line_counters root) in
  ET_parse fs (Path.of_str jacoco_xml_path) = Return root ->
  ET.tag root <> "counter" ->
  Forall counts_lines (tree_line_counters root) ->
  _compute_jacoco_coverage fs jacoco_xml_path
  = CovOk {| percent :=
               if c + m =? 0 then PyFloat.zero
               else PyFloat.mul (PyFloat.div (PyFloat.exact c) (PyFloat.exact (c + m)))
                      PyFloat.hundred;
             covered := c;
             missed := m |}.
Proof.
  intros c m Hparse Hroot Hall. subst c m.
  rewrite (tree_line_counters_visited _ Hroot) in *.
  set (c := total (counter_value "covered") (line_counters root)).
  set (m := total (counter_value "missed") (line_counters root)).
  assert (Hint : forallb integer_counter (line_counters root) = true).
  { apply forallb_forall. intros x Hx.
    rewrite Forall_forall in Hall. apply list_elem_of_In in Hx. apply (Hall x Hx). }
  assert (Hc : 0 <= c).
  { apply total_nonneg. eapply Forall_impl; [exact Hall|]. intros x Hx. apply Hx. }
  assert (Hm : 0 <= m).
  { apply total_nonneg. eapply Forall_impl; [exact Hall|]. intros x Hx. apply Hx. }
  unfold _compute_jacoco_coverage. rewrite (ET_parse_exists _ _ _ Hparse). simpl.
  unfold aggregate. rewrite Hparse. simpl.
  fold (line_counters root) in *. unfold line_counters in Hint.
  rewrite (line_totals_spec _ 0 0 Hint). fold (line_counters root). simpl.
  rewrite !Z.add_0_l. fold c m. rewrite (Z.add_comm m c).
  destruct (c + m =? 0) eqn:Hz.
  - apply Z.eqb_eq in Hz. rewrite Hz. reflexivity.
  - apply Z.eqb_neq in Hz.
    destruct (0 <? c + m) eqn:Hpos; [|apply Z.ltb_ge in Hpos; lia].
    rewrite int_true_divide_fraction by lia. reflexivity.
Qed.

End Aggregator.

(** ** The gap analysis *)

Section GapAnalysis.

Context `{Runtime}.

Lemma recommend_spec items recommendations :
  recommend items recommendations
  = (recommendations ++ List.map recommendation items)%list.
Proof.
  revert recommendations. induction items as [|item rest IH]; intros acc; simpl.
  - symmetry. apply app_nil_r.
  - rewrite IH, <- app_assoc. reflexivity.
Qed.

(** The loop over the counters of a class either appends the units of the
    class or raises at its first malformed LINE counter. *)
Lemma scan_counters_spec pkg cls counters acc :
  if forallb integer_counter (List.filter is_line counters) then
    scan_counters (ET.get pkg "name") (ET.get cls "name") counters acc
    = Return (acc ++ List.map (unit_of pkg cls)
                       (List.filter misses_lines (List.filter is_line counters)))%list
  else exists e, scan_counters (ET.get pkg "name") (ET.get cls "name") counters acc = Raise e.
Proof.
  revert acc. induction counters as [|counter rest IH]; intros acc.
  - simpl. rewrite app_nil_r. reflexivity.
  - cbn [scan_counters List.filter].
    change (bool_decide (ET.get counter "type" = Some "LINE")) with (is_line counter).
    destruct (is_line counter); [|apply IH].
    cbn [forallb]. destruct (integer_counter counter) eqn:Hc; cbn [andb].
    + destruct (integer_counter_values _ Hc) as [-> ->]. simpl.
      fold (misses_lines counter).
      destruct (misses_lines counter).
      * specialize (IH (acc ++ [unit_of pkg cls counter])%list).
        destruct (forallb integer_counter (List.filter is_line rest)); [|exact IH].
        fold (unit_of pkg cls counter).
        rewrite IH. simpl. rewrite <- app_assoc. reflexivity.
      * apply IH.
    + unfold integer_counter in Hc.
      destruct (py_int (ET.get counter "missed")) as [m|e]; [|eexists; reflexivity].
      destruct (py_int (ET.get counter "covered")) as [c|e]; [discriminate|].
      eexists; reflexivity.
Qed.

Lemma scan_classes_spec pkg cls_list acc :
  if forallb integer_class cls_list then
    scan_classes (ET.get pkg "name") cls_list acc
    = Return (acc ++ flat_map (class_units pkg) cls_list)%list
  else exists e, scan_classes (ET.get pkg "name") cls_list acc = Raise e.
Proof.
  revert acc. induction cls_list as [|cls rest IH]; intros acc.
  - simpl. rewrite app_nil_r. reflexivity.
  - cbn [scan_classes forallb flat_map].
    pose proof (scan_counters_spec pkg cls (ET.findall cls "counter") acc) as Hc.
    fold (class_line_counters cls) in Hc. fold (class_units pkg cls) in Hc.
    fold (integer_class cls) in Hc.
    destruct (integer_class cls); cbn [andb].
    + rewrite Hc. unfold mbind, outcome_bind.
      specialize (IH (acc ++ class_units pkg cls)%list).
      destruct (forallb integer_class rest); [|exact IH].
      rewrite IH, <- app_assoc. reflexivity.
    + destruct Hc as [e ->]. eexists; reflexivity.
Qed.

Lemma scan_packages_spec pkgs acc :
  if forallb (fun pkg => forallb integer_class (classes pkg)) pkgs then
    scan_packages pkgs acc
    = Return (acc ++ flat_map (fun pkg => flat_map (class_units pkg) (classes pkg)) pkgs)%list
  else exists e, scan_packages pkgs acc = Raise e.
Proof.
  revert acc. induction pkgs as [|pkg rest IH]; intros acc.
  - simpl. rewrite app_nil_r. reflexivity.
  - cbn [scan_packages forallb flat_map].
    pose proof (scan_classes_spec pkg (ET.findall pkg "class") acc) as Hc.
    fold (classes pkg) in *.
    destruct (forallb integer_class (classes pkg)); cbn [andb].
    + rewrite Hc. unfold mbind, outcome_bind.
      specialize (IH (acc ++ flat_map (class_units pkg) (classes pkg))%list).
      destruct (forallb _ rest); [|exact IH].
      rewrite IH, <- app_assoc. reflexivity.
    + destruct Hc as [e ->]. eexists; reflexivity.
Qed.

(** [analyze_coverage] on a report that decodes: the units of all
    classes, or no result at all. *)
Lemma analyze_coverage_decoded project_dir jacoco_xml fs found root :
  first_existing fs (candidates project_dir jacoco_xml fs) = Some found ->
  ET_parse fs found = Return root ->
  if integer_classes root then
    analyze_coverage project_dir jacoco_xml fs
    = Return (Analyzed {| file := Path.to_str found;
                          uncovered := gap_units root;
                          recommendations := List.map recommendation (gap_units root) |})
  else exists e, analyze_coverage project_dir jacoco_xml fs = Raise e.
Proof.
  intros Hfound Hparse. unfold analyze_coverage. rewrite Hfound, Hparse. simpl.
  pose proof (scan_packages_spec (packages root) []) as Hs.
  unfold integer_classes. fold (packages root).
  destruct (forallb _ (packages root)).
  - rewrite Hs. simpl. rewrite recommend_spec. reflexivity.
  - destruct Hs as [e ->]. eexists; reflexivity.
Qed.

Lemma class_units_single pkg cls :
  (length (class_line_counters cls) <= 1)%nat ->
  class_units pkg cls = option_list (class_gap pkg cls).
Proof.
  unfold class_units, class_gap, line_counter.
  destruct (class_line_counters cls) as [|c [|c' rest]]; simpl; intros Hlen.
  - reflexivity.
  - destruct (misses_lines c); reflexivity.
  - lia.
Qed.

Lemma gap_units_by_class root :
  single_line_counters root -> gap_units root = gaps_by_class root.
Proof.
  unfold single_line_counters, gap_units, gaps_by_class.
  induction (packages root) as [|pkg rest IH]; intros Hsingle; [reflexivity|].
  simpl. f_equal.
  - assert (Hc : forall cls, In cls (classes pkg) ->
              (length (class_line_counters cls) <= 1)%nat)
      by (intros cls Hin; apply (Hsingle pkg cls); [left; reflexivity|exact Hin]).
    induction (classes pkg) as [|cls more IHc]; [reflexivity|].
    simpl. rewrite class_units_single by (apply Hc; left; reflexivity).
    rewrite IHc by (intros c Hin; apply Hc; right; exact Hin).
    destruct (class_gap pkg cls); reflexivity.
  - apply IH. intros p c Hp Hc. apply (Hsingle p c); [right; exact Hp|exact Hc].
Qed.

(** C5. For a report that parses, [analyze_coverage] returns one unit
    exactly for each class whose LINE counter has [missed > 0], in
    traversal order, each paired with the recommendation
    [Increase tests for {package}.{class} (missed lines: {missed})]; the
    list is a function of the report alone; with one class at [missed = 0]
    and one at [missed = 3] there is exactly one unit, with 3 missed
    lines. *)
Theorem analyze_coverage_units project_dir jacoco_xml fs found root :
  first_existing fs (candidates project_dir jacoco_xml fs) = Some found ->
  ET_parse fs found = Return root ->
  integer_classes root = true ->
  single_line_counters root ->
  analyze_coverage project_dir jacoco_xml fs
  = Return (Analyzed {| file := Path.to_str found;
                        uncovered := gaps_by_class root;
                        recommendations := List.map recommendation (gaps_by_class root) |})
  /\ (forall u p c, u_package u = Some p -> u_class u = Some c ->
      recommendation u
      = "Increase tests for " ++ p ++ "." ++ c ++ " (missed lines: "
          ++ PyStr.of_int (u_missed u) ++ ")")
  /\ (forall pkg a b ca cb,
        packages root = [pkg] -> classes pkg = [a; b] ->
        line_counter a = Some ca -> line_counter b = Some cb ->
        counter_value "missed" ca = 0 -> counter_value "missed" cb = 3 ->
        gaps_by_class root = [unit_of pkg b cb] /\ u_missed (unit_of pkg b cb) = 3).
Proof.
  intros Hfound Hparse Hint Hsingle. split; [|split].
  - pose proof (analyze_coverage_decoded _ _ _ _ _ Hfound Hparse) as Hd.
    rewrite Hint in Hd. rewrite <- (gap_units_by_class _ Hsingle). exact Hd.
  - intros u p c Hp Hc. unfold recommendation. rewrite Hp, Hc. reflexivity.
  - intros pkg a b ca cb Hpk Hcl Ha Hb Hma Hmb.
    unfold gaps_by_class, class_gap, misses_lines. rewrite Hpk. simpl. rewrite Hcl. simpl.
    rewrite Ha, Hb, Hma, Hmb. simpl. split; reflexivity.
Qed.

(** C6. The defect. Once a report file is found, [analyze_coverage] has
    no handler around the decoder or around [int()]: a report that does not
    decode makes the call raise the decoder's exception, and a report that
    decodes but has, in a class directly under a package, a LINE counter
    with a missing or non-integer attribute makes the call raise as well.
    In neither case is anything returned, be it a partial result or a
    structured failure. *)
Theorem analyze_coverage_uncaught project_dir jacoco_xml fs found :
  first_existing fs (candidates project_dir jacoco_xml fs) = Some found ->
  (forall e, ET_parse fs found = Raise e ->
     analyze_coverage project_dir jacoco_xml fs = Raise e)
  /\ (forall root, ET_parse fs found = Return root -> integer_classes root = false ->
        exists e, analyze_coverage project_dir jacoco_xml fs = Raise e).
Proof.
  intros Hfound. split.
  - intros e Hparse. unfold analyze_coverage. rewrite Hfound, Hparse. reflexivity.
  - intros root Hparse Hint.
    pose proof (analyze_coverage_decoded _ _ _ _ _ Hfound Hparse) as Hd.
    rewrite Hint in Hd. exact Hd.
Qed.

End GapAnalysis.

(** ** The commit gate *)

Section CommitGate.

Context `{Runtime} {World : Type}.
Variable _run_cmd : list string -> string -> World -> cmd_result * World.

Lemma trace_run argv cwd (sh : shell World) :
  trace (run _run_cmd argv cwd sh).2 = (trace sh ++ [(argv, cwd)])%list.
Proof. unfold run. destruct (_run_cmd argv cwd (world sh)); reflexivity. Qed.

Lemma invoked_app (sh sh' : shell World) l :
  trace sh' = (trace sh ++ l)%list -> invoked sh sh' = l.
Proof. intros E. unfold invoked. rewrite E. apply drop_app_length. Qed.

Lemma invoked_run argv cwd (sh : shell World) :
  invoked sh (run _run_cmd argv cwd sh).2 = [(argv, cwd)].
Proof. apply invoked_app, trace_run. Qed.

Lemma invoked_run2 a1 c1 a2 c2 (sh : shell World) :
  invoked sh (run _run_cmd a2 c2 (run _run_cmd a1 c1 sh).2).2 = [(a1, c1); (a2, c2)].
Proof. apply invoked_app. rewrite !trace_run, <- app_assoc. reflexivity. Qed.

Lemma invoked_run3 a1 c1 a2 c2 a3 c3 (sh : shell World) :
  invoked sh (run _run_cmd a3 c3 (run _run_cmd a2 c2 (run _run_cmd a1 c1 sh).2).2).2
  = [(a1, c1); (a2, c2); (a3, c3)].
Proof. apply invoked_app. rewrite !trace_run, <- !app_assoc. reflexivity. Qed.

(** [git_commit] in terms of the staged query and [prepare_message]. *)
Lemma git_commit_unfold message repo_dir include_coverage jacoco_xml coverage_threshold fs
    (sh : shell World) :
  git_commit _run_cmd message repo_dir include_coverage jacoco_xml coverage_threshold fs sh
  = let query := run _run_cmd staged_query (abspath repo_dir) sh in
    match nonblank_lines (stdout_text query.1) with
    | [] => (Return (NoStagedChanges "No staged changes to commit."), query.2)
    | _ :: _ =>
        match prepare_message message include_coverage jacoco_xml coverage_threshold fs with
        | Raise e => (Raise e, query.2)
        | Return (inl early) => (Return early, query.2)
        | Return (inr msg) =>
            let commit := run _run_cmd (commit_cmd (final_message msg)) (abspath repo_dir) query.2 in
            (Return (CommitAttempted (exited_zero commit.1) (stdout commit.1)
                       (stderr commit.1) (coverage_info msg)), commit.2)
        end
    end.
Proof.
  unfold git_commit. fold staged_query.
  destruct (run _run_cmd staged_query (abspath repo_dir) sh) as [staged_res sh1]. simpl.
  destruct (nonblank_lines (stdout_text staged_res)); [reflexivity|].
  destruct (prepare_message _ _ _ _ _) as [[early|msg]|e]; try reflexivity.
  unfold commit_cmd.
  destruct (run _run_cmd _ (abspath repo_dir) sh1). reflexivity.
Qed.

Lemma prepare_message_refused message include_coverage jacoco_xml coverage_threshold fs
    xml threshold cov :
  include_coverage = true -> jacoco_xml = Some xml -> PyStr.truthy xml = true ->
  coverage_threshold = Some threshold ->
  _compute_jacoco_coverage fs xml = CovOk cov ->
  PyFloat.ltb (percent cov) threshold = true ->
  prepare_message message include_coverage jacoco_xml coverage_threshold fs
  = Return (inl (ThresholdFailed (threshold_message cov threshold) cov)).
Proof.
  intros -> -> Hx -> Hc Hlt. unfold prepare_message. simpl. rewrite Hx, Hc, Hlt.
  reflexivity.
Qed.

Lemma prepare_message_unknown message include_coverage jacoco_xml coverage_threshold fs
    xml reason :
  coverage_requested include_coverage jacoco_xml = Some xml ->
  _compute_jacoco_coverage fs xml = CovFail reason ->
  prepare_message message include_coverage jacoco_xml coverage_threshold fs
  = unbound_local "percent".
Proof.
  unfold coverage_requested, prepare_message. intros Hr Hc.
  destruct jacoco_xml as [x|]; [|discriminate].
  destruct (include_coverage && PyStr.truthy x); [|discriminate].
  injection Hr as ->. rewrite Hc. reflexivity.
Qed.

Lemma prepare_message_computed message include_coverage jacoco_xml coverage_threshold fs
    xml cov :
  coverage_requested include_coverage jacoco_xml = Some xml ->
  _compute_jacoco_coverage fs xml = CovOk cov ->
  passes coverage_threshold (percent cov) = true ->
  prepare_message message include_coverage jacoco_xml coverage_threshold fs
  = Return (inr {| final_message := coverage_message message cov;
                   coverage_info := Some cov |}).
Proof.
  unfold coverage_requested, prepare_message, passes. intros Hr Hc Hp.
  destruct jacoco_xml as [x|]; [|discriminate].
  destruct (include_coverage && PyStr.truthy x); [|discriminate].
  injection Hr as ->. rewrite Hc.
  destruct coverage_threshold as [t|]; [|reflexivity].
  apply negb_true_iff in Hp. rewrite Hp. reflexivity.
Qed.

Lemma prepare_message_plain message include_coverage jacoco_xml coverage_threshold fs :
  coverage_requested include_coverage jacoco_xml = None ->
  prepare_message message include_coverage jacoco_xml coverage_threshold fs
  = Return (inr {| final_message := message; coverage_info := None |}).
Proof.
  unfold coverage_requested, prepare_message. intros Hr.
  destruct jacoco_xml as [x|]; [|reflexivity].
  destruct (include_coverage && PyStr.truthy x); [discriminate|reflexivity].
Qed.

(** C1. With nothing staged, [git_commit] returns the NoStagedChanges
    failure whatever the coverage arguments are; with staged changes, a
    threshold and a computed percent strictly below it, it returns the
    ThresholdFailed failure. In both cases the staged-changes query is the
    only command run: no commit is invoked. *)
Theorem git_commit_refusals message repo_dir include_coverage jacoco_xml coverage_threshold
    fs (sh : shell World) r :
  let query := run _run_cmd staged_query (abspath repo_dir) sh in
  let result :=
    git_commit _run_cmd message repo_dir include_coverage jacoco_xml coverage_threshold fs sh in
  refusal include_coverage jacoco_xml coverage_threshold fs
    (nonblank_lines (stdout_text query.1)) r ->
  result = (Return r, query.2)
  /\ invoked sh result.2 = [(staged_query, abspath repo_dir)]
  /\ Forall (fun inv => is_commit inv = false) (invoked sh result.2).
Proof.
  intros query result Href.
  assert (E : result = (Return r, query.2)).
  { subst result. rewrite git_commit_unfold. cbv zeta. fold query.
    destruct Href as [Hs | xml threshold cov Hs Hi Hj Hx Ht Hc Hlt].
    - rewrite Hs. reflexivity.
    - destruct (nonblank_lines (stdout_text query.1)); [congruence|].
      rewrite (prepare_message_refused _ _ _ _ _ _ _ _ Hi Hj Hx Ht Hc Hlt). reflexivity. }
  rewrite E. simpl. subst query. rewrite invoked_run.
  repeat split. constructor; [reflexivity|constructor].
Qed.

(** The aggregate percent is a function of the two totals. *)
Lemma aggregate_percent fs p cov :
  aggregate fs p = Return cov -> percent cov = line_percent (covered cov) (missed cov).
Proof.
  unfold aggregate, line_percent. intros Hagg.
  destruct (ET_parse fs p) as [root|]; [|discriminate]. simpl in Hagg.
  destruct (line_totals _ 0 0) as [[m c]|]; [|discriminate]. simpl in Hagg.
  destruct (0 <? m + c) eqn:Hpos.
  - destruct (int_true_divide c (m + c)) as [q|] eqn:Hq; [|discriminate].
    simpl in Hagg. injection Hagg as <-. simpl.
    rewrite (Z.add_comm c m), Hpos. unfold int_true_divide in Hq.
    destruct (m + c =? 0); [discriminate|].
    destruct (PyFloat.div _ _); congruence.
  - simpl in Hagg. injection Hagg as <-. simpl.
    rewrite (Z.add_comm c m), Hpos. reflexivity.
Qed.

Lemma computed_percent fs xml cov :
  _compute_jacoco_coverage fs xml = CovOk cov ->
  percent cov = line_percent (covered cov) (missed cov).
Proof.
  unfold _compute_jacoco_coverage.
  destruct (negb _); [discriminate|].
  destruct (aggregate fs (Path.of_str xml)) eqn:Hagg; [|discriminate].
  intros [= <-]. eauto using aggregate_percent.
Qed.

(** C2, as the code runs. With staged changes and coverage requested, when
    the aggregation fails [git_commit] raises [UnboundLocalError] at line
    136, which reads the local [percent] that only the other branch binds:
    the commit is not run and no result is returned. *)
Theorem git_commit_coverage_unknown message repo_dir include_coverage jacoco_xml
    coverage_threshold fs (sh : shell World) xml reason :
  let query := run _run_cmd staged_query (abspath repo_dir) sh in
  let result :=
    git_commit _run_cmd message repo_dir include_coverage jacoco_xml coverage_threshold fs sh in
  nonblank_lines (stdout_text query.1) <> [] ->
  coverage_requested include_coverage jacoco_xml = Some xml ->
  _compute_jacoco_coverage fs xml = CovFail reason ->
  result = (unbound_local "percent", query.2)
  /\ invoked sh result.2 = [(staged_query, abspath repo_dir)].
Proof.
  intros query result Hs Hr Hc.
  assert (E : result = (unbound_local "percent", query.2)).
  { subst result. rewrite git_commit_unfold. cbv zeta. fold query.
    destruct (nonblank_lines (stdout_text query.1)); [congruence|].
    rewrite (prepare_message_unknown _ _ _ _ _ _ _ Hr Hc). reflexivity. }
  rewrite E. split; [reflexivity|]. apply invoked_run.
Qed.

(** C3. With staged changes, coverage computed and no threshold violated,
    [git_commit] runs the commit with the base message followed by the
    percent with two decimals and the covered/total counts, and reports
    the outcome of that command; for 85 covered and 15 missed lines the
    message is the base message followed by
    [ | Coverage: 85.00% (85/100)]. *)
Theorem git_commit_message_format message repo_dir include_coverage jacoco_xml
    coverage_threshold fs (sh : shell World) xml cov :
  let cwd := abspath repo_dir in
  let query := run _run_cmd staged_query cwd sh in
  let commit := run _run_cmd (commit_cmd (coverage_message message cov)) cwd query.2 in
  nonblank_lines (stdout_text query.1) <> [] ->
  coverage_requested include_coverage jacoco_xml = Some xml ->
  _compute_jacoco_coverage fs xml = CovOk cov ->
  passes coverage_threshold (percent cov) = true ->
  git_commit _run_cmd message repo_dir include_coverage jacoco_xml coverage_threshold fs sh
  = (Return (CommitAttempted (exited_zero commit.1) (stdout commit.1) (stderr commit.1)
               (Some cov)), commit.2)
  /\ invoked sh commit.2 = [(staged_query, cwd); (commit_cmd (coverage_message message cov), cwd)]
  /\ (covered cov = 85 -> missed cov = 15 ->
      coverage_message message cov = message ++ " | Coverage: 85.00% (85/100)").
Proof.
  intros cwd query commit Hs Hr Hc Hp. split; [|split].
  - rewrite git_commit_unfold. cbv zeta. fold cwd query.
    destruct (nonblank_lines (stdout_text query.1)); [congruence|].
    rewrite (prepare_message_computed _ _ _ _ _ _ _ Hr Hc Hp). reflexivity.
  - apply invoked_run2.
  - intros H85 H15. unfold coverage_message.
    rewrite (computed_percent _ _ _ Hc), H85, H15. reflexivity.
Qed.

(** C10. With staged changes, when [include_coverage] is false or
    [jacoco_xml] is [None], no coverage is computed: whatever the
    threshold, the commit is run with the base message as it is, the call
    reports the outcome of that command and carries no coverage. *)
Theorem git_commit_without_coverage message repo_dir include_coverage jacoco_xml
    coverage_threshold fs (sh : shell World) :
  let cwd := abspath repo_dir in
  let query := run _run_cmd staged_query cwd sh in
  let commit := run _run_cmd (commit_cmd message) cwd query.2 in
  let result :=
    git_commit _run_cmd message repo_dir include_coverage jacoco_xml coverage_threshold fs sh in
  nonblank_lines (stdout_text query.1) <> [] ->
  include_coverage = false \/ jacoco_xml = None ->
  result = (Return (CommitAttempted (exited_zero commit.1) (stdout commit.1)
                      (stderr commit.1) None), commit.2)
  /\ invoked sh result.2 = [(staged_query, cwd); (commit_cmd message, cwd)]
  /\ (forall r, result.1 = Return r -> commit_ok r = exited_zero commit.1).
Proof.
  intros cwd query commit result Hs Hno.
  assert (Hr : coverage_requested include_coverage jacoco_xml = None).
  { unfold coverage_requested. destruct Hno as [-> | ->]; [|reflexivity].
    destruct jacoco_xml; reflexivity. }
  assert (E : result = (Return (CommitAttempted (exited_zero commit.1) (stdout commit.1)
                                  (stderr commit.1) None), commit.2)).
  { subst result. rewrite git_commit_unfold. cbv zeta. fold cwd query.
    destruct (nonblank_lines (stdout_text query.1)); [congruence|].
    rewrite (prepare_message_plain _ _ _ _ _ Hr). reflexivity. }
  rewrite E. split; [reflexivity|]. split.
  - apply invoked_run2.
  - intros r [= <-]. reflexivity.
Qed.

End CommitGate.

(** ** The staging filter *)

Section StagingFilter.

Context `{Runtime} {World : Type}.
Variable _run_cmd : list string -> string -> World -> cmd_result * World.

Lemma skip_excluded repo_dir path patterns :
  skip repo_dir path patterns = excluded repo_dir patterns path.
Proof.
  induction patterns as [|pat rest IH]; [reflexivity|]. simpl.
  destruct (fnmatch path pat || fnmatch (os_path_join repo_dir path) pat); [reflexivity|].
  exact IH.
Qed.

Lemma collect_files_spec repo_dir patterns lines files :
  collect_files repo_dir patterns lines files
  = (files ++ List.filter (fun path => negb (excluded repo_dir patterns path))
                (List.map (PyStr.drop 3)
                   (List.filter (fun l => PyStr.truthy (PyStr.strip l)) lines)))%list.
Proof.
  revert files. induction lines as [|ln rest IH]; intros files.
  - symmetry. apply app_nil_r.
  - cbn [collect_files List.filter].
    destruct (PyStr.truthy (PyStr.strip ln)); cbn [negb List.map List.filter]; [|apply IH].
    rewrite skip_excluded.
    destruct (excluded repo_dir patterns (PyStr.drop 3 ln)); cbn [negb]; [apply IH|].
    rewrite IH, <- app_assoc. reflexivity.
Qed.

Lemma collect_files_eligible repo_dir patterns text :
  collect_files repo_dir patterns (PyStr.splitlines text) [] = eligible repo_dir patterns text.
Proof. rewrite collect_files_spec. reflexivity. Qed.

Lemma eligible_not_excluded repo_dir patterns text path :
  In path (eligible repo_dir patterns text) -> excluded repo_dir patterns path = false.
Proof.
  unfold eligible. rewrite filter_In. intros [_ Hn]. now apply negb_true_iff in Hn.
Qed.

(** [git_add_all] in terms of the status query and the filtered set. *)
Lemma git_add_all_unfold repo_dir exclude_patterns (sh : shell World) :
  git_add_all _run_cmd repo_dir exclude_patterns sh
  = let cwd := abspath repo_dir in
    let query := run _run_cmd status_query cwd sh in
    match eligible cwd (default default_exclude_patterns exclude_patterns)
            (stdout_text query.1) with
    | [] => (NothingToStage [] "No files to stage after filtering.", query.2)
    | (_ :: _) as files =>
        let add := run _run_cmd (add_cmd files) cwd query.2 in
        let staged := run _run_cmd staged_query cwd add.2 in
        (StageAttempted (exited_zero add.1) (nonblank_lines (stdout_text staged.1))
           (stdout add.1) (stderr add.1), staged.2)
    end.
Proof.
  unfold git_add_all. fold status_query. cbv zeta.
  destruct (run _run_cmd status_query (abspath repo_dir) sh) as [st sh1]. simpl.
  rewrite collect_files_eligible.
  destruct (eligible _ _ _) as [|f files]; [reflexivity|].
  unfold add_cmd. cbn [app].
  destruct (run _run_cmd _ (abspath repo_dir) sh1) as [add_res sh2].
  fold staged_query. cbn [fst snd].
  destruct (run _run_cmd staged_query (abspath repo_dir) sh2). reflexivity.
Qed.

(** C7. For every pattern list and every status output: a changed path
    that matches one of the exclusion patterns, as reported or joined to
    the repository root, is in the argument list of no staging command that
    [git_add_all] runs; and whenever no path is left after filtering,
    whatever the patterns are, [git_add_all] returns after the status query
    without running any other command. *)
Theorem git_add_all_excludes repo_dir exclude_patterns (sh : shell World) :
  let cwd := abspath repo_dir in
  let patterns := default default_exclude_patterns exclude_patterns in
  let query := run _run_cmd status_query cwd sh in
  let result := git_add_all _run_cmd repo_dir exclude_patterns sh in
  (forall path pat files dir,
     In pat patterns ->
     fnmatch path pat = true \/ fnmatch (os_path_join cwd path) pat = true ->
     In (add_cmd files, dir) (invoked sh result.2) ->
     ~ In path files)
  /\ (eligible cwd patterns (stdout_text query.1) = [] ->
      result = (NothingToStage [] "No files to stage after filtering.", query.2)
      /\ invoked sh result.2 = [(status_query, cwd)]).
Proof.
  intros cwd patterns query result.
  subst result. rewrite git_add_all_unfold. cbv zeta. fold cwd patterns query.
  destruct (eligible cwd patterns (stdout_text query.1)) as [|f files] eqn:Hel.
  - simpl. subst query. rewrite invoked_run. split; [|auto].
    intros path pat fl dir _ _ [Heq|[]]. discriminate Heq.
  - split; [|discriminate]. simpl. subst query. rewrite invoked_run3.
    intros path pat fl dir Hpat Hmatch Hin Hpath.
    assert (Hex : excluded cwd patterns path = true).
    { unfold excluded. apply existsb_exists. exists pat. split; [exact Hpat|].
      apply orb_true_iff. exact Hmatch. }
    simpl in Hin.
    destruct Hin as [Heq|[Heq|[Heq|[]]]]; try discriminate Heq.
    injection Heq as Hfl _. rewrite <- Hfl, <- Hel in Hpath.
    apply eligible_not_excluded in Hpath. congruence.
Qed.

End StagingFilter.

(** ** The push negotiator *)

Section PushNegotiator.

Context `{Runtime} {World : Type}.
Variable _run_cmd : list string -> string -> World -> cmd_result * World.

(** C8. When the branch name is determined, a plain push that exits with
    zero is the only push and the call succeeds; a plain push that does
    not is followed by exactly one upstream-setting push, and the call
    reports the outcome of that last command. *)
Theorem git_push_two_attempts remote repo_dir (sh : shell World) :
  let cwd := abspath repo_dir in
  let query := run _run_cmd branch_query cwd sh in
  let branch := PyStr.strip (default EmptyString (stdout query.1)) in
  let plain := run _run_cmd (push_cmd remote branch) cwd query.2 in
  let upstream := run _run_cmd (push_upstream_cmd remote branch) cwd plain.2 in
  let result := git_push _run_cmd remote repo_dir sh in
  PyStr.truthy branch = true ->
  if exited_zero plain.1 then
    result = (PushAttempted true (stdout plain.1) (stderr plain.1) branch, plain.2)
    /\ List.filter is_push (invoked sh result.2) = [(push_cmd remote branch, cwd)]
  else
    result = (PushAttempted (exited_zero upstream.1) (stdout upstream.1) (stderr upstream.1)
                branch, upstream.2)
    /\ List.filter is_push (invoked sh result.2)
       = [(push_cmd remote branch, cwd); (push_upstream_cmd remote branch, cwd)].
Proof.
  intros cwd query branch plain upstream result Hbranch.
  assert (E : result =
    if exited_zero plain.1
    then (PushAttempted true (stdout plain.1) (stderr plain.1) branch, plain.2)
    else (PushAttempted (exited_zero upstream.1) (stdout upstream.1) (stderr upstream.1)
            branch, upstream.2)).
  { subst result. unfold git_push. fold branch_query cwd.
    subst upstream plain branch query.
    destruct (run _run_cmd branch_query cwd sh) as [br sh1]. simpl in *.
    rewrite Hbranch. simpl.
    fold (push_cmd remote (PyStr.strip (default EmptyString (stdout br)))).
    destruct (run _run_cmd (push_cmd remote _) cwd sh1) as [push_res sh2]. simpl.
    destruct (exited_zero push_res); [reflexivity|].
    fold (push_upstream_cmd remote (PyStr.strip (default EmptyString (stdout br)))).
    destruct (run _run_cmd (push_upstream_cmd remote _) cwd sh2). reflexivity. }
  rewrite E. destruct (exited_zero plain.1); split; try reflexivity; simpl.
  - subst plain query. rewrite invoked_run2. reflexivity.
  - subst upstream plain query. rewrite invoked_run3. reflexivity.
Qed.

End PushNegotiator.

(** ** The skeleton generator *)

Section SkeletonGenerator.

Context `{Runtime}.

Lemma stat_mono (fs fs' : filesystem) (p : path) n :
  fs ⊆ fs' -> FS.stat fs p = Some n -> FS.stat fs' p = Some n.
Proof.
  unfold FS.stat. intros Hsub. destruct p.2; [auto|].
  intros Hl. eapply lookup_weaken; eauto.
Qed.

Lemma exists_mono (fs fs' : filesystem) p :
  fs ⊆ fs' -> FS.exists_ fs p = true -> FS.exists_ fs' p = true.
Proof.
  unfold FS.exists_. intros Hsub He. apply bool_decide_eq_true in He as [n Hn].
  apply bool_decide_eq_true. exists n. eauto using stat_mono.
Qed.

Lemma is_dir_stat (fs : filesystem) p : FS.is_dir fs p = true <-> FS.stat fs p = Some Dir.
Proof.
  unfold FS.is_dir. destruct (FS.stat fs p) as [[|text]|]; split; congruence.
Qed.

Lemma is_dir_mono (fs fs' : filesystem) p :
  fs ⊆ fs' -> FS.is_dir fs p = true -> FS.is_dir fs' p = true.
Proof. rewrite !is_dir_stat. apply stat_mono. Qed.

Lemma stat_insert (fs : filesystem) p n :
  FS.stat fs p = None -> fs ⊆ <[p := n]> fs /\ FS.stat (<[p := n]> fs) p = Some n.
Proof.
  unfold FS.stat. destruct p.2; [discriminate|]. intros Hnone. split.
  - apply insert_subseteq, Hnone.
  - apply lookup_insert_eq.
Qed.

Lemma os_mkdir_incl (fs fs' : filesystem) p :
  FS.os_mkdir fs p = inr fs' -> fs ⊆ fs' /\ FS.is_dir fs' p = true.
Proof.
  unfold FS.os_mkdir. destruct (FS.stat fs p) eqn:Hp; [discriminate|].
  destruct (FS.stat fs (FS.parent p)) as [[|text]|]; try discriminate.
  intros [= <-]. destruct (stat_insert fs p Dir Hp) as [Hsub Hst].
  split; [exact Hsub|]. apply is_dir_stat, Hst.
Qed.

Lemma mkdir_exist_ok_incl (fs fs' : filesystem) p :
  FS.mkdir_exist_ok fs p = Return fs' -> fs ⊆ fs' /\ FS.is_dir fs' p = true.
Proof.
  unfold FS.mkdir_exist_ok. destruct (FS.os_mkdir fs p) as [e|fs1] eqn:Hmk.
  - destruct e; try discriminate;
      (destruct (FS.is_dir fs p) eqn:Hd; [|discriminate]); intros [= <-]; auto.
  - intros [= <-]. apply os_mkdir_incl, Hmk.
Qed.

Lemma mkdir_parents_rev_incl (fs fs' : filesystem) root rparts :
  FS.mkdir_parents_rev fs root rparts = Return fs' ->
  fs ⊆ fs' /\ FS.is_dir fs' (root, rev rparts) = true.
Proof.
  revert fs'. induction rparts as [|part rparent IH]; intros fs'.
  - cbn [FS.mkdir_parents_rev].
    destruct (FS.os_mkdir fs (root, rev [])) as [e|fs1] eqn:Hmk.
    + destruct e; try discriminate;
        (destruct (FS.is_dir fs (root, rev [])) eqn:Hd; [|discriminate]);
        intros [= <-]; auto.
    + intros [= <-]. apply os_mkdir_incl, Hmk.
  - cbn [FS.mkdir_parents_rev].
    destruct (FS.os_mkdir fs (root, rev (part :: rparent))) as [e|fs1] eqn:Hmk.
    + destruct e; try discriminate;
        try ((destruct (FS.is_dir fs (root, rev (part :: rparent))) eqn:Hd; [|discriminate]);
             intros [= <-]; auto).
      destruct (FS.mkdir_parents_rev fs root rparent) as [fs1|] eqn:Hrec; [|discriminate].
      destruct (IH fs1 eq_refl) as [Hsub1 _]. simpl.
      intros Hlast. apply mkdir_exist_ok_incl in Hlast as [Hsub2 Hd].
      split; [etrans; eassumption|exact Hd].
    + intros [= <-]. apply os_mkdir_incl, Hmk.
Qed.

Lemma mkdir_parents_incl (fs fs' : filesystem) p :
  FS.mkdir_parents fs p = Return fs' -> fs ⊆ fs' /\ FS.is_dir fs' p = true.
Proof.
  unfold FS.mkdir_parents. intros Hmk.
  apply mkdir_parents_rev_incl in Hmk. rewrite rev_involutive in Hmk.
  destruct p; exact Hmk.
Qed.

(** Making a directory that is there changes nothing. *)
Lemma mkdir_parents_present (fs : filesystem) p :
  FS.is_dir fs p = true -> FS.mkdir_parents fs p = Return fs.
Proof.
  intros Hd. unfold FS.mkdir_parents.
  assert (Hp : (p.1, rev (rev p.2)) = p) by (rewrite rev_involutive; destruct p; reflexivity).
  assert (Hmk : FS.os_mkdir fs (p.1, rev (rev p.2)) = inl FS.FileExistsError).
  { rewrite Hp. unfold FS.os_mkdir. apply is_dir_stat in Hd. rewrite Hd. reflexivity. }
  destruct (rev p.2); cbn [FS.mkdir_parents_rev]; rewrite Hmk, Hp, Hd; reflexivity.
Qed.

Lemma write_text_incl (fs fs' : filesystem) p text :
  FS.exists_ fs p = false -> FS.write_text fs p text = Return fs' ->
  fs ⊆ fs' /\ FS.exists_ fs' p = true.
Proof.
  unfold FS.exists_, FS.write_text. intros Hne.
  apply bool_decide_eq_false in Hne.
  destruct (FS.stat fs p) as [n|] eqn:Hp; [exfalso; apply Hne; eauto|].
  destruct (FS.stat fs (FS.parent p)) as [[|t]|]; try discriminate.
  intros [= <-]. destruct (stat_insert fs p (File text) Hp) as [Hsub Hst].
  split; [exact Hsub|]. apply bool_decide_eq_true. rewrite Hst. eauto.
Qed.

(** What one iteration leaves behind when it returns: the directory and
    the skeleton of the source file are there. *)
Definition settled (test_root java_file : path) (fs : filesystem) : Prop :=
  exists text, FS.read_text fs java_file = Return text /\
    (method_findall text = [] \/
     let package := default EmptyString (package_search text) in
     let pkg_path :=
       if PyStr.truthy package then PyStr.replace_char "." "/" package else EmptyString in
     let out_dir_full := Path.joinpath test_root pkg_path in
     FS.is_dir fs out_dir_full = true /\
     FS.exists_ fs (Path.joinpath out_dir_full ((Path.stem java_file ++ "Test") ++ ".java"))
     = true).

Lemma read_text_mono (fs fs' : filesystem) p text :
  fs ⊆ fs' -> FS.read_text fs p = Return text -> FS.read_text fs' p = Return text.
Proof.
  unfold FS.read_text. intros Hsub.
  destruct (FS.stat fs p) as [[|t]|] eqn:Hp; try discriminate.
  rewrite (stat_mono _ _ _ _ Hsub Hp). auto.
Qed.

Lemma settled_mono (test_root java_file : path) (fs fs' : filesystem) :
  fs ⊆ fs' -> settled test_root java_file fs -> settled test_root java_file fs'.
Proof.
  intros Hsub (text & Hread & Hrest). exists text. split; [eauto using read_text_mono|].
  destruct Hrest as [Hnone | [Hd He]]; [left; exact Hnone|right].
  split; [eauto using is_dir_mono | eauto using exists_mono].
Qed.

(** An iteration only adds entries; when it returns, its file is settled. *)
Lemma generate_one_incl (test_root java_file : path) (fs fs' : filesystem) o :
  generate_one test_root java_file fs = (o, fs') ->
  fs ⊆ fs' /\ (forall n, o = Return n -> settled test_root java_file fs').
Proof.
  unfold generate_one, settled.
  destruct (FS.read_text fs java_file) as [text|e] eqn:Hread.
  2:{ intros [= <- <-]. split; [reflexivity|discriminate]. }
  destruct (method_findall text) as [|m ms] eqn:Hm.
  { intros [= <- <-]. split; [reflexivity|]. intros n _. exists text. rewrite Hm. auto. }
  set (package := default EmptyString (package_search text)).
  set (pkg_path := if PyStr.truthy package then _ else _).
  set (out_dir_full := Path.joinpath test_root pkg_path).
  destruct (FS.mkdir_parents fs out_dir_full) as [fs1|e] eqn:Hmk.
  2:{ intros [= <- <-]. split; [reflexivity|discriminate]. }
  apply mkdir_parents_incl in Hmk as [Hsub1 Hd].
  set (test_file := Path.joinpath out_dir_full _).
  destruct (FS.exists_ fs1 test_file) eqn:Hex.
  { intros [= <- <-]. split; [exact Hsub1|]. intros n _. exists text.
    split; [eauto using read_text_mono|]. right. split; [exact Hd|exact Hex]. }
  destruct (FS.write_text fs1 test_file _) as [fs2|e] eqn:Hw.
  2:{ intros [= <- <-]. split; [exact Hsub1|discriminate]. }
  apply (write_text_incl _ _ _ _ Hex) in Hw as [Hsub2 Hex2].
  intros [= <- <-]. split; [etrans; eassumption|]. intros n _. exists text.
  split; [apply (read_text_mono fs); [etrans; eassumption|exact Hread]|].
  right. split; [eauto using is_dir_mono|exact Hex2].
Qed.

(** On a settled file an iteration creates nothing and changes nothing. *)
Lemma generate_one_settled (test_root java_file : path) (fs : filesystem) :
  settled test_root java_file fs -> generate_one test_root java_file fs = (Return 0, fs).
Proof.
  intros (text & Hread & Hrest). unfold generate_one. rewrite Hread.
  destruct (method_findall text) as [|m ms]; [reflexivity|].
  destruct Hrest as [Hnone | [Hd He]]; [discriminate|].
  cbv zeta in Hd, He. rewrite (mkdir_parents_present _ _ Hd).
  rewrite He. reflexivity.
Qed.

Lemma generate_loop_incl (test_root : path) (java_files : list path) (fs fs' : filesystem)
    created o :
  generate_loop test_root java_files fs created = (o, fs') ->
  fs ⊆ fs' /\ (forall n, o = Return n -> Forall (fun f => settled test_root f fs') java_files).
Proof.
  revert fs created. induction java_files as [|java_file rest IH]; intros fs created.
  - intros [= <- <-]. split; [reflexivity|]. constructor.
  - cbn [generate_loop].
    destruct (generate_one test_root java_file fs) as [[k|e] fs1] eqn:Hone.
    + apply generate_one_incl in Hone as [Hsub1 Hset]. intros Hloop.
      apply IH in Hloop as [Hsub2 Hall]. split; [etrans; eassumption|].
      intros n Hn. constructor; [|eauto].
      eapply settled_mono; [exact Hsub2|eauto].
    + apply generate_one_incl in Hone as [Hsub1 _].
      intros [= <- <-]. split; [exact Hsub1|discriminate].
Qed.

Lemma generate_loop_settled (test_root : path) (java_files : list path) (fs : filesystem)
    created :
  Forall (fun f => settled test_root f fs) java_files ->
  generate_loop test_root java_files fs created = (Return created, fs).
Proof.
  intros Hall. revert created.
  induction Hall as [|java_file rest Hset _ IH]; intros created.
  - reflexivity.
  - cbn [generate_loop]. rewrite (generate_one_settled _ _ _ Hset).
    rewrite IH, Z.add_0_r. reflexivity.
Qed.

Lemma rglob_same_sources (src_root : path) (fs fs' : filesystem) matches :
  same_sources src_root fs fs' -> FS.rglob fs' src_root matches = FS.rglob fs src_root matches.
Proof.
  intros Hsame. unfold FS.rglob. f_equal. f_equal.
  apply map_filter_strong_ext_1. intros p n. simpl.
  split; intros [Hp Hl]; (split; [exact Hp|]);
    apply Is_true_true in Hp; apply andb_true_iff in Hp as [Hb _];
    [rewrite <- (Hsame p Hb) | rewrite (Hsame p Hb)]; exact Hl.
Qed.

Lemma same_sources_filter (src_root : path) (fs fs' : filesystem) :
  filter (fun kv : path * node => Is_true (Path.below src_root kv.1)) fs'
  = filter (fun kv : path * node => Is_true (Path.below src_root kv.1)) fs ->
  same_sources src_root fs fs'.
Proof.
  intros E p Hb. apply option_eq. intros n.
  assert (Hiff : forall m : filesystem,
            m !! p = Some n <->
            filter (fun kv : path * node => Is_true (Path.below src_root kv.1)) m !! p = Some n).
  { intros m. rewrite map_lookup_filter_Some. simpl. rewrite Hb. simpl. tauto. }
  rewrite (Hiff fs'), (Hiff fs), E. reflexivity.
Qed.

Lemma same_sources_decide (src_root : path) (fs fs' : filesystem) :
  bool_decide
    (filter (fun kv : path * node => Is_true (Path.below src_root kv.1)) fs'
     = filter (fun kv : path * node => Is_true (Path.below src_root kv.1)) fs) = true ->
  same_sources src_root fs fs'.
Proof. intros E. apply same_sources_filter. exact (bool_decide_eq_true_1 _ E). Qed.

(** C9. [generate_tests] never writes to a path that already exists:
    every entry of the file system is still there, unchanged, after a run,
    however the run ends. And after a run that returned, a second run on
    the same source tree creates no file: it returns [created_tests = 0]
    and leaves the file system as it found it. *)
Theorem generate_tests_idempotent (project_dir : string) (out_dir : option string)
    (fs fs' : filesystem) (o : outcome generate_result) :
  generate_tests project_dir out_dir fs = (o, fs') ->
  (forall (p : path) node, fs !! p = Some node -> fs' !! p = Some node)
  /\ (forall n (fs2 : filesystem),
        o = Return (Generated n) ->
        fs' ⊆ fs2 ->
        same_sources (source_root project_dir) fs fs2 ->
        generate_tests project_dir out_dir fs2 = (Return (Generated 0), fs2)).
Proof.
  unfold generate_tests. fold (source_root project_dir).
  set (src_root := source_root project_dir).
  set (test_root := match out_dir with Some _ => _ | None => _ end).
  destruct (FS.exists_ fs src_root) eqn:Hsrc; cbn [negb].
  2:{ intros [= <- <-]. split; [auto|]. intros n fs2 Hn. discriminate Hn. }
  destruct (generate_loop test_root (FS.rglob fs src_root is_java) fs 0)
    as [[created|e] fs1] eqn:Hloop;
    apply generate_loop_incl in Hloop as [Hsub Hall]; intros [= <- <-].
  - split; [intros p node Hl; eapply lookup_weaken; eauto|].
    intros n fs2 _ Hsub2 Hsame.
    assert (Hsub' : fs ⊆ fs2) by (etrans; eassumption).
    rewrite (exists_mono _ _ _ Hsub' Hsrc). cbn [negb].
    rewrite (rglob_same_sources _ _ _ _ Hsame).
    rewrite generate_loop_settled; [reflexivity|].
    eapply Forall_impl; [exact (Hall created eq_refl)|].
    intros f Hf. eapply settled_mono; [exact Hsub2|exact Hf].
  - split; [|intros n fs2 Hn; discriminate Hn].
    intros p node Hl. eapply lookup_weaken; eauto.
Qed.

End SkeletonGenerator.

(** ** The tools on concrete inputs *)

Section Examples.

Import Demo.

Lemma git_commit_refusals_witness :
  refusal true (Some "cov85.xml") (Some ninety) reports ["src/Calc.java"]
    (ThresholdFailed "Coverage 85.00% below threshold 90.0% - aborting commit." cov85)
  /\ git_commit run_cmd "Add Calc" "." true (Some "cov85.xml") (Some ninety) reports
       (start staged_repo)
     = (Return (ThresholdFailed "Coverage 85.00% below threshold 90.0% - aborting commit." cov85),
        {| world := staged_repo; trace := [(staged_query, "/work")] |}).
Proof.
  assert (Href : refusal true (Some "cov85.xml") (Some ninety) reports ["src/Calc.java"]
                   (ThresholdFailed (threshold_message cov85 ninety) cov85)).
  { apply (refuse_below_threshold _ _ _ _ _ "cov85.xml" ninety cov85);
      [discriminate | reflexivity | reflexivity | reflexivity | reflexivity
      | vm_compute; reflexivity | vm_compute; reflexivity]. }
  split; [exact Href|].
  exact (proj1 (git_commit_refusals run_cmd "Add Calc" "." true (Some "cov85.xml")
                  (Some ninety) reports (start staged_repo) _ Href)).
Defined.

(** With nothing staged the coverage arguments are not even looked at. *)
Example git_commit_nothing_staged :
  git_commit run_cmd "Add Calc" "." true (Some "cov85.xml") (Some ninety) reports
    (start dirty_repo)
  = (Return (NoStagedChanges "No staged changes to commit."),
     {| world := dirty_repo; trace := [(staged_query, "/work")] |}).
Proof. vm_compute. reflexivity. Qed.

Lemma git_commit_coverage_unknown_witness :
  nonblank_lines (stdout_text (run run_cmd staged_query "/work" (start staged_repo)).1) <> []
  /\ coverage_requested true (Some "missing.xml") = Some "missing.xml"
  /\ _compute_jacoco_coverage reports "missing.xml" = CovFail "File not found: missing.xml"
  /\ git_commit run_cmd "Add Calc" "." true (Some "missing.xml") None reports (start staged_repo)
     = (Raise unbound_percent, {| world := staged_repo; trace := [(staged_query, "/work")] |}).
Proof.
  assert (Hs : nonblank_lines
                 (stdout_text (run run_cmd staged_query (abspath ".") (start staged_repo)).1)
               <> []) by (vm_compute; discriminate).
  assert (Hr : coverage_requested true (Some "missing.xml") = Some "missing.xml")
    by reflexivity.
  assert (Hc : _compute_jacoco_coverage reports "missing.xml"
               = CovFail "File not found: missing.xml") by (vm_compute; reflexivity).
  split; [exact Hs|]. split; [exact Hr|]. split; [exact Hc|].
  exact (proj1 (git_commit_coverage_unknown run_cmd "Add Calc" "." true (Some "missing.xml")
                  None reports (start staged_repo) "missing.xml" _ Hs Hr Hc)).
Defined.

Lemma git_commit_message_format_witness :
  coverage_requested true (Some "cov85.xml") = Some "cov85.xml"
  /\ _compute_jacoco_coverage reports "cov85.xml" = CovOk cov85
  /\ passes None (percent cov85) = true
  /\ git_commit run_cmd "Add Calc" "." true (Some "cov85.xml") None reports (start staged_repo)
     = (Return (CommitAttempted true quiet quiet (Some cov85)),
        {| world := committed "Add Calc | Coverage: 85.00% (85/100)";
           trace := [(staged_query, "/work");
                     (commit_cmd "Add Calc | Coverage: 85.00% (85/100)", "/work")] |}).
Proof.
  assert (Hs : nonblank_lines
                 (stdout_text (run run_cmd staged_query (abspath ".") (start staged_repo)).1)
               <> []) by (vm_compute; discriminate).
  assert (Hr : coverage_requested true (Some "cov85.xml") = Some "cov85.xml") by reflexivity.
  assert (Hc : _compute_jacoco_coverage reports "cov85.xml" = CovOk cov85)
    by (vm_compute; reflexivity).
  assert (Hp : passes None (percent cov85) = true) by reflexivity.
  split; [exact Hr|]. split; [exact Hc|]. split; [exact Hp|].
  exact (proj1 (git_commit_message_format run_cmd "Add Calc" "." true (Some "cov85.xml")
                  None reports (start staged_repo) "cov85.xml" cov85 Hs Hr Hc Hp)).
Defined.

Lemma git_commit_without_coverage_witness :
  nonblank_lines (stdout_text (run run_cmd staged_query "/work" (start staged_repo)).1) <> []
  /\ git_commit run_cmd "Add Calc" "." true None (Some ninety) reports (start staged_repo)
     = (Return (CommitAttempted true quiet quiet None),
        {| world := committed "Add Calc";
           trace := [(staged_query, "/work"); (commit_cmd "Add Calc", "/work")] |}).
Proof.
  assert (Hs : nonblank_lines
                 (stdout_text (run run_cmd staged_query (abspath ".") (start staged_repo)).1)
               <> []) by (vm_compute; discriminate).
  split; [exact Hs|].
  exact (proj1 (git_commit_without_coverage run_cmd "Add Calc" "." true None (Some ninety)
                  reports (start staged_repo) Hs (or_intror eq_refl))).
Defined.

Lemma coverage_overall_percent_witness :
  ET_parse reports (Path.of_str "cov85.xml") = Return eighty_five
  /\ ET.tag eighty_five <> "counter"
  /\ Forall counts_lines (tree_line_counters eighty_five)
  /\ _compute_jacoco_coverage reports "cov85.xml" = CovOk cov85.
Proof.
  assert (Hp : ET_parse reports (Path.of_str "cov85.xml") = Return eighty_five)
    by (vm_compute; reflexivity).
  assert (Hroot : ET.tag eighty_five <> "counter") by (vm_compute; discriminate).
  assert (Hall : Forall counts_lines (tree_line_counters eighty_five)).
  { repeat constructor; vm_compute; congruence. }
  split; [exact Hp|]. split; [exact Hroot|]. split; [exact Hall|].
  exact (coverage_overall_percent reports "cov85.xml" eighty_five Hp Hroot Hall).
Defined.

(** A report without lines aggregates to [0.0], as a success. *)
Example coverage_of_no_lines :
  _compute_jacoco_coverage reports "empty.xml"
  = CovOk {| percent := PyFloat.zero; covered := 0; missed := 0 |}.
Proof. vm_compute. reflexivity. Qed.

Lemma two_classes_single : single_line_counters two_classes.
Proof.
  intros pkg cls Hp Hc. vm_compute in Hp. destruct Hp as [<-|[]].
  vm_compute in Hc. destruct Hc as [<-|[<-|[]]]; vm_compute; lia.
Defined.

Lemma analyze_coverage_units_witness :
  first_existing reports (candidates "proj" (Some "two.xml") reports) = Some (Path.of_str "two.xml")
  /\ ET_parse reports (Path.of_str "two.xml") = Return two_classes
  /\ integer_classes two_classes = true
  /\ single_line_counters two_classes
  /\ analyze_coverage "proj" (Some "two.xml") reports
     = Return (Analyzed
         {| file := "two.xml"; uncovered := [partial_unit];
            recommendations :=
              ["Increase tests for com/acme.com/acme/Partial (missed lines: 3)"] |}).
Proof.
  assert (Hf : first_existing reports (candidates "proj" (Some "two.xml") reports)
               = Some (Path.of_str "two.xml")) by (vm_compute; reflexivity).
  assert (Hp : ET_parse reports (Path.of_str "two.xml") = Return two_classes)
    by (vm_compute; reflexivity).
  assert (Hi : integer_classes two_classes = true) by (vm_compute; reflexivity).
  split; [exact Hf|]. split; [exact Hp|]. split; [exact Hi|].
  split; [exact two_classes_single|].
  exact (proj1 (analyze_coverage_units "proj" (Some "two.xml") reports _ _ Hf Hp Hi
                  two_classes_single)).
Defined.

Lemma analyze_coverage_uncaught_witness :
  first_existing reports (candidates "proj" (Some "broken.xml") reports)
  = Some (Path.of_str "broken.xml")
  /\ ET_parse reports (Path.of_str "broken.xml") = Return one_malformed
  /\ integer_classes one_malformed = false
  /\ (exists e, analyze_coverage "proj" (Some "broken.xml") reports = Raise e)
  /\ first_existing reports (candidates "proj" (Some "garbage.xml") reports)
     = Some (Path.of_str "garbage.xml")
  /\ ET_parse reports (Path.of_str "garbage.xml")
     = Raise (Exn "ParseError" "syntax error: line 1, column 0")
  /\ analyze_coverage "proj" (Some "garbage.xml") reports
     = Raise (Exn "ParseError" "syntax error: line 1, column 0").
Proof.
  assert (Hf : first_existing reports (candidates "proj" (Some "broken.xml") reports)
               = Some (Path.of_str "broken.xml")) by (vm_compute; reflexivity).
  assert (Hp : ET_parse reports (Path.of_str "broken.xml") = Return one_malformed)
    by (vm_compute; reflexivity).
  assert (Hi : integer_classes one_malformed = false) by (vm_compute; reflexivity).
  assert (Hf' : first_existing reports (candidates "proj" (Some "garbage.xml") reports)
                = Some (Path.of_str "garbage.xml")) by (vm_compute; reflexivity).
  assert (Hp' : ET_parse reports (Path.of_str "garbage.xml")
                = Raise (Exn "ParseError" "syntax error: line 1, column 0"))
    by (vm_compute; reflexivity).
  split; [exact Hf|]. split; [exact Hp|]. split; [exact Hi|].
  split.
  - exact (proj2 (analyze_coverage_uncaught "proj" (Some "broken.xml") reports _ Hf)
             one_malformed Hp Hi).
  - split; [exact Hf'|]. split; [exact Hp'|].
    exact (proj1 (analyze_coverage_uncaught "proj" (Some "garbage.xml") reports _ Hf')
             _ Hp').
Defined.

(** At [broken.xml] the report decodes and its second class is well
    formed, yet the malformed LINE counter of its first class makes the
    whole analysis raise [TypeError]: the unit of the second class is not
    returned. *)
Example analyze_coverage_skips_no_entry :
  ET_parse reports (Path.of_str "broken.xml") = Return one_malformed
  /\ analyze_coverage "proj" (Some "broken.xml") reports = Raise type_error
  /\ ~ (exists rep, analyze_coverage "proj" (Some "broken.xml") reports = Return (Analyzed rep)
                    /\ uncovered rep = [partial_unit]).
Proof.
  assert (Hr : analyze_coverage "proj" (Some "broken.xml") reports = Raise type_error)
    by (vm_compute; reflexivity).
  split; [vm_compute; reflexivity|]. split; [exact Hr|].
  intros (rep & Hrep & _). rewrite Hr in Hrep. discriminate Hrep.
Qed.

(** On the same two files the aggregator returns a failure with a
    message. *)
Example coverage_structured_failures :
  (exists msg, _compute_jacoco_coverage reports "broken.xml" = CovFail msg)
  /\ (exists msg, _compute_jacoco_coverage reports "garbage.xml" = CovFail msg).
Proof.
  split; eexists; vm_compute; reflexivity.
Qed.

Lemma git_add_all_excludes_witness :
  (forall files dir,
     In (add_cmd files, dir)
       (invoked (start dirty_repo) (git_add_all run_cmd "." None (start dirty_repo)).2) ->
     ~ In "build.log" files)
  /\ let clean := {| status := EmptyString; index := []; history := ["Add Calc"];
                     branch := "main"; upstream := true |} in
     eligible "/work" [] (stdout_text (run run_cmd status_query "/work" (start clean)).1) = []
     /\ git_add_all run_cmd "." (Some []) (start clean)
        = (NothingToStage [] "No files to stage after filtering.",
           {| world := clean; trace := [(status_query, "/work")] |}).
Proof.
  split.
  - intros files dir Hin.
    apply (proj1 (git_add_all_excludes run_cmd "." None (start dirty_repo))
             "build.log" "*.log" files dir); [simpl; tauto| |exact Hin].
    left. vm_compute. reflexivity.
  - intros clean.
    assert (Hnone : eligible (abspath ".") (default default_exclude_patterns (Some []))
                      (stdout_text (run run_cmd status_query (abspath ".") (start clean)).1)
                    = []) by (vm_compute; reflexivity).
    split; [exact Hnone|].
    exact (proj1 (proj2 (git_add_all_excludes run_cmd "." (Some []) (start clean)) Hnone)).
Defined.

(** What is staged from the dirty working tree under the default patterns. *)
Example git_add_all_default_patterns :
  invoked (start dirty_repo) (git_add_all run_cmd "." None (start dirty_repo)).2
  = [(status_query, "/work"); (add_cmd ["src/Calc.java"], "/work"); (staged_query, "/work")].
Proof.
  vm_compute. reflexivity.
Qed.

(** When every changed path is excluded, only the status query is run. *)
Example git_add_all_nothing_left :
  git_add_all run_cmd "." (Some ["*"]) (start dirty_repo)
  = (NothingToStage [] "No files to stage after filtering.",
     {| world := dirty_repo; trace := [(status_query, "/work")] |}).
Proof. vm_compute. reflexivity. Qed.

Lemma git_push_two_attempts_witness :
  PyStr.truthy "main" = true
  /\ git_push run_cmd "origin" "." (start staged_repo)
     = (PushAttempted true quiet quiet "main",
        {| world := {| status := status staged_repo; index := index staged_repo;
                       history := []; branch := "main"; upstream := true |};
           trace := [(branch_query, "/work"); (push_cmd "origin" "main", "/work");
                     (push_upstream_cmd "origin" "main", "/work")] |}).
Proof.
  split; [reflexivity|].
  exact (proj1 (git_push_two_attempts run_cmd "origin" "." (start staged_repo) eq_refl)).
Defined.

(** A plain push that succeeds is the only push. *)
Example git_push_plain :
  let tracked := {| status := EmptyString; index := []; history := ["Add Calc"];
                    branch := "main"; upstream := true |} in
  git_push run_cmd "origin" "." (start tracked)
  = (PushAttempted true quiet quiet "main",
     {| world := tracked;
        trace := [(branch_query, "/work"); (push_cmd "origin" "main", "/work")] |}).
Proof. vm_compute. reflexivity. Qed.

Lemma generate_tests_idempotent_witness :
  generate_tests "proj" None project = (first_run.1, first_run.2)
  /\ first_run.1 = Return (Generated 1)
  /\ first_run.2 ⊆ first_run.2
  /\ same_sources (source_root "proj") project first_run.2
  /\ generate_tests "proj" None first_run.2 = (Return (Generated 0), first_run.2).
Proof.
  assert (H0 : generate_tests "proj" None project = (first_run.1, first_run.2))
    by apply surjective_pairing.
  assert (H1 : first_run.1 = Return (Generated 1)) by (vm_compute; reflexivity).
  assert (Hsub : first_run.2 ⊆ first_run.2) by reflexivity.
  assert (Hsame : same_sources (source_root "proj") project first_run.2).
  { apply same_sources_decide. vm_compute. reflexivity. }
  split; [exact H0|]. split; [exact H1|]. split; [exact Hsub|]. split; [exact Hsame|].
  exact (proj2 (generate_tests_idempotent "proj" None project first_run.2 first_run.1 H0)
           1 first_run.2 H1 Hsub Hsame).
Defined.

(** The skeleton of [Calc.java] is not there before the first run and is
    there after it. *)
Example generate_tests_creates :
  project !! Path.of_str "proj/src/test/java/com/acme/CalcTest.java" = None
  /\ first_run.2 !! Path.of_str "proj/src/test/java/com/acme/CalcTest.java"
     = Some (File (skeleton "com.acme" "CalcTest" [("add", "int a, int b")])).
Proof. split; vm_compute; reflexivity. Qed.

End Examples.

(** ** More on the commit gate *)

Section CommitGateMore.

Context `{Runtime} {World : Type}.
Variable _run_cmd : list string -> string -> World -> cmd_result * World.

Lemma ltb_irrefl x : PyFloat.ltb x x = false.
Proof.
  unfold PyFloat.ltb, SFltb.
  destruct x as [s|s| |s m e]; simpl; try reflexivity.
  - destruct s; reflexivity.
  - destruct s; rewrite Z.compare_refl, Pos.compare_cont_refl; reflexivity.
Qed.

(** X1. The threshold is inclusive: a computed percent equal to the
    threshold is not refused, the commit is run with the coverage
    message. *)
Theorem git_commit_threshold_inclusive message repo_dir include_coverage jacoco_xml fs
    (sh : shell World) xml cov :
  let cwd := abspath repo_dir in
  let query := run _run_cmd staged_query cwd sh in
  let commit := run _run_cmd (commit_cmd (coverage_message message cov)) cwd query.2 in
  nonblank_lines (stdout_text query.1) <> [] ->
  coverage_requested include_coverage jacoco_xml = Some xml ->
  _compute_jacoco_coverage fs xml = CovOk cov ->
  git_commit _run_cmd message repo_dir include_coverage jacoco_xml (Some (percent cov)) fs sh
  = (Return (CommitAttempted (exited_zero commit.1) (stdout commit.1) (stderr commit.1)
               (Some cov)), commit.2).
Proof.
  intros cwd query commit Hs Hr Hc.
  rewrite git_commit_unfold. cbv zeta. fold cwd query.
  destruct (nonblank_lines (stdout_text query.1)); [congruence|].
  rewrite (prepare_message_computed _ _ _ _ _ _ _ Hr Hc); [reflexivity|].
  simpl. rewrite ltb_irrefl. reflexivity.
Qed.

Lemma prepare_message_raises message include_coverage jacoco_xml coverage_threshold fs e :
  prepare_message message include_coverage jacoco_xml coverage_threshold fs = Raise e ->
  exists xml reason,
    coverage_requested include_coverage jacoco_xml = Some xml
    /\ _compute_jacoco_coverage fs xml = CovFail reason.
Proof.
  unfold prepare_message, coverage_requested.
  destruct jacoco_xml as [xml|]; [|discriminate].
  destruct (include_coverage && PyStr.truthy xml); [|discriminate].
  destruct (_compute_jacoco_coverage fs xml) as [cov|reason] eqn:Hc.
  - destruct coverage_threshold as [t|]; [destruct (PyFloat.ltb _ _)|]; discriminate.
  - intros _. eauto.
Qed.

(** X2. Whatever its arguments, [git_commit] runs the staged-changes query
    first and then at most one command, a commit; and it raises only when
    coverage was requested and the aggregation failed. *)
Theorem git_commit_commands message repo_dir include_coverage jacoco_xml coverage_threshold
    fs (sh : shell World) :
  let cwd := abspath repo_dir in
  let result :=
    git_commit _run_cmd message repo_dir include_coverage jacoco_xml coverage_threshold fs sh in
  (invoked sh result.2 = [(staged_query, cwd)]
   \/ exists msg, invoked sh result.2 = [(staged_query, cwd); (commit_cmd msg, cwd)])
  /\ (forall e, result.1 = Raise e ->
        exists xml reason,
          coverage_requested include_coverage jacoco_xml = Some xml
          /\ _compute_jacoco_coverage fs xml = CovFail reason).
Proof.
  intros cwd result. subst result. rewrite git_commit_unfold. cbv zeta. fold cwd.
  set (query := run _run_cmd staged_query cwd sh).
  destruct (nonblank_lines (stdout_text query.1)).
  { split; [left; apply invoked_run|]. discriminate. }
  destruct (prepare_message _ _ _ _ _) as [[early|msg]|e] eqn:Hprep; simpl.
  - split; [left; apply invoked_run|]. discriminate.
  - split; [right; exists (final_message msg); apply invoked_run2|]. discriminate.
  - split; [left; apply invoked_run|].
    intros e' [= <-]. eauto using prepare_message_raises.
Qed.

End CommitGateMore.

(** ** More on the staging filter and the push *)

Section StagingPushMore.

Context `{Runtime} {World : Type}.
Variable _run_cmd : list string -> string -> World -> cmd_result * World.

(** X3. When some changed path is left after filtering, [git_add_all] runs
    one staging command whose arguments are exactly the changed paths that
    no pattern excludes, in the order of the status output, and reports the
    exit status of that command with the staged list read back. *)
Theorem git_add_all_stages_eligible repo_dir exclude_patterns (sh : shell World) :
  let cwd := abspath repo_dir in
  let patterns := default default_exclude_patterns exclude_patterns in
  let query := run _run_cmd status_query cwd sh in
  let files := eligible cwd patterns (stdout_text query.1) in
  let add := run _run_cmd (add_cmd files) cwd query.2 in
  let staged := run _run_cmd staged_query cwd add.2 in
  files <> [] ->
  git_add_all _run_cmd repo_dir exclude_patterns sh
  = (StageAttempted (exited_zero add.1) (nonblank_lines (stdout_text staged.1))
       (stdout add.1) (stderr add.1), staged.2)
  /\ invoked sh staged.2 = [(status_query, cwd); (add_cmd files, cwd); (staged_query, cwd)]
  /\ (forall path, In path files <->
        In path (changed_paths (stdout_text query.1))
        /\ excluded cwd patterns path = false).
Proof.
  intros cwd patterns query files add staged Hne. split; [|split].
  - rewrite git_add_all_unfold. cbv zeta. fold cwd patterns query files.
    subst add staged. destruct files; [congruence|reflexivity].
  - apply invoked_run3.
  - intros path. unfold files, eligible. rewrite filter_In, negb_true_iff. reflexivity.
Qed.

Lemma eligible_no_patterns repo_dir text : eligible repo_dir [] text = changed_paths text.
Proof.
  unfold eligible. induction (changed_paths text) as [|p rest IH]; [reflexivity|].
  simpl. f_equal. exact IH.
Qed.

(** X4. An empty pattern list replaces the defaults instead of adding to
    them: every changed path is then passed to the staging command, build
    output included. *)
Theorem git_add_all_empty_patterns repo_dir (sh : shell World) :
  let cwd := abspath repo_dir in
  let query := run _run_cmd status_query cwd sh in
  let files := changed_paths (stdout_text query.1) in
  files <> [] ->
  invoked sh (git_add_all _run_cmd repo_dir (Some []) sh).2
  = [(status_query, cwd); (add_cmd files, cwd); (staged_query, cwd)].
Proof.
  intros cwd query files Hne.
  rewrite git_add_all_unfold. cbv zeta. fold cwd query. simpl default.
  rewrite eligible_no_patterns. fold files.
  destruct files; [congruence|]. apply invoked_run3.
Qed.

(** X5. When the branch query gives no name, [git_push] fails with
    [Cannot determine current branch.] and runs no push at all. *)
Theorem git_push_unknown_branch remote repo_dir (sh : shell World) :
  let cwd := abspath repo_dir in
  let query := run _run_cmd branch_query cwd sh in
  let result := git_push _run_cmd remote repo_dir sh in
  PyStr.strip (default EmptyString (stdout query.1)) = EmptyString ->
  result = (UnknownBranch "Cannot determine current branch.", query.2)
  /\ invoked sh result.2 = [(branch_query, cwd)].
Proof.
  intros cwd query result Hblank.
  assert (E : result = (UnknownBranch "Cannot determine current branch.", query.2)).
  { subst result. unfold git_push. fold branch_query cwd. subst query.
    destruct (run _run_cmd branch_query cwd sh) as [br sh1]. simpl in *.
    rewrite Hblank. reflexivity. }
  rewrite E. split; [reflexivity|]. apply invoked_run.
Qed.

End StagingPushMore.

(** ** More on the coverage aggregator and the gap analysis *)

Section CoverageMore.

Context `{Runtime}.

(** The loop looks at the LINE counters only. *)
Lemma line_totals_filter counters total_missed total_covered :
  line_totals counters total_missed total_covered
  = line_totals (List.filter is_line counters) total_missed total_covered.
Proof.
  revert total_missed total_covered.
  induction counters as [|counter rest IH]; intros tm tc; [reflexivity|].
  cbn [line_totals List.filter].
  change (bool_decide (ET.get counter "type" = Some "LINE")) with (is_line counter).
  destruct (is_line counter) eqn:Hl; [|apply IH].
  cbn [line_totals].
  change (bool_decide (ET.get counter "type" = Some "LINE")) with (is_line counter).
  rewrite Hl.
  destruct (py_int (ET.get counter "missed")); [|reflexivity]. simpl.
  destruct (py_int (ET.get counter "covered")); [|reflexivity]. simpl.
  apply IH.
Qed.

Lemma line_totals_malformed counters total_missed total_covered :
  forallb integer_counter (List.filter is_line counters) = false ->
  exists e, line_totals counters total_missed total_covered = Raise e.
Proof.
  revert total_missed total_covered.
  induction counters as [|counter rest IH]; intros tm tc; [discriminate|].
  cbn [line_totals List.filter].
  change (bool_decide (ET.get counter "type" = Some "LINE")) with (is_line counter).
  destruct (is_line counter); [|apply IH].
  cbn [forallb]. unfold integer_counter at 1.
  destruct (py_int (ET.get counter "missed")) as [m|e]; [|eexists; reflexivity].
  destruct (py_int (ET.get counter "covered")) as [c|e]; [|eexists; reflexivity].
  simpl. apply IH.
Qed.

(** X6. One malformed LINE counter anywhere in the tree fails the whole
    aggregation: the result is a failure with a message, never a sum over
    the remaining counters. *)
Theorem coverage_malformed_counter_fails fs jacoco_xml_path root :
  ET_parse fs (Path.of_str jacoco_xml_path) = Return root ->
  forallb integer_counter (line_counters root) = false ->
  exists msg, _compute_jacoco_coverage fs jacoco_xml_path = CovFail msg.
Proof.
  intros Hparse Hbad. unfold _compute_jacoco_coverage.
  rewrite (ET_parse_exists _ _ _ Hparse). simpl. unfold aggregate. rewrite Hparse. simpl.
  destruct (line_totals_malformed (ET.findall_desc root "counter") 0 0 Hbad) as [e ->].
  simpl. eauto.
Qed.

(** X7. Only the LINE counters count: two reports with the same LINE
    counters aggregate to the same result, whatever their other counters
    hold. *)
Theorem coverage_ignores_other_counters fs fs' xml xml' root root' :
  ET_parse fs (Path.of_str xml) = Return root ->
  ET_parse fs' (Path.of_str xml') = Return root' ->
  line_counters root = line_counters root' ->
  match _compute_jacoco_coverage fs xml, _compute_jacoco_coverage fs' xml' with
  | CovOk cov, CovOk cov' => cov = cov'
  | CovFail msg, CovFail msg' => msg = msg'
  | _, _ => False
  end.
Proof.
  intros Hp Hp' Hsame. unfold _compute_jacoco_coverage.
  rewrite (ET_parse_exists _ _ _ Hp), (ET_parse_exists _ _ _ Hp'). simpl.
  unfold aggregate. rewrite Hp, Hp'. simpl.
  rewrite (line_totals_filter (ET.findall_desc root "counter")).
  rewrite (line_totals_filter (ET.findall_desc root' "counter")).
  fold (line_counters root) (line_counters root'). rewrite Hsame.
  destruct (line_totals (line_counters root') 0 0) as [[m c]|e]; simpl; [|reflexivity].
  destruct (0 <? m + c); simpl; [|reflexivity].
  destruct (int_true_divide c (m + c)); reflexivity.
Qed.

(** X8. An explicit report path that does not exist is not replaced by a
    search of the project: the analysis reports that no report was found. *)
Theorem analyze_coverage_explicit_only (project_dir xml : string) (fs : filesystem) :
  PyStr.truthy xml = true ->
  FS.exists_ fs (Path.of_str xml) = false ->
  analyze_coverage project_dir (Some xml) fs
  = Return (ReportNotFound
      "JaCoCo XML report not found. Run Maven tests with JaCoCo enabled.").
Proof.
  intros Hx Hne. unfold analyze_coverage, candidates, first_existing.
  rewrite Hx. simpl. rewrite Hne. reflexivity.
Qed.

Lemma rglob_elem (fs : filesystem) (root p : path) matches :
  p ∈ FS.rglob fs root matches <->
  is_Some (fs !! p) /\ Path.below root p = true /\ matches (Path.name p) = true.
Proof.
  unfold FS.rglob. rewrite list_elem_of_fmap. split.
  - intros [[q n] [-> Hin]]. apply elem_of_map_to_list in Hin.
    apply map_lookup_filter_Some in Hin as [Hl Hp]. simpl in *.
    apply Is_true_true, andb_true_iff in Hp. destruct Hp. eauto.
  - intros [[n Hn] [Hb Hm]]. exists (p, n). split; [reflexivity|].
    apply elem_of_map_to_list, map_lookup_filter_Some. split; [exact Hn|].
    simpl. apply Is_true_true, andb_true_iff. auto.
Qed.

(** The conventional location of the report (line 338). *)
Definition default_report (project_dir : string) : path :=
  Path.joinpath (Path.joinpath (Path.joinpath (Path.joinpath (Path.of_str project_dir)
    "target") "site") "jacoco") "jacoco.xml".



End CoverageMore.

(** ** The status summary *)

Definition status_branch_query : list string := ["git"; "status"; "--porcelain"; "--branch"].

(** A line of the status output that names the branch. *)
Definition is_branch_line (ln : string) : bool := PyStr.startswith ln "##".

(** The lines of the status output that describe a path. *)
Definition status_entries (text : string) : list string :=
  List.filter (fun ln => negb (is_branch_line ln)) (nonblank_lines text).

(** The index code of an entry is not a space. *)
Definition in_index (ln : string) : bool :=
  match String.get 0 ln with
  | Some x => negb (Ascii.eqb x " ")
  | None => false
  end.

(** The work-tree code of an entry is not a space. *)
Definition in_tree (ln : string) : bool :=
  match String.get 1 ln with
  | Some y => negb (Ascii.eqb y " ")
  | None => false
  end.

(** The two codes of an entry mark a conflict. *)
Definition in_conflict (ln : string) : bool :=
  match String.get 0 ln, String.get 1 ln with
  | Some x, Some y => Ascii.eqb x "U" || Ascii.eqb y "U" || (Ascii.eqb x "A" && Ascii.eqb y "A")
  | _, _ => false
  end.

(** The paths of the entries that satisfy [f], in order. *)
Definition paths_where (f : string -> bool) (entries : list string) : list string :=
  List.map (PyStr.drop 3) (List.filter f entries).

(** The branch named by the last branch line, if any. *)
Definition branch_of (lines : list string) (start : option string) : option string :=
  fold_left (fun b ln => if is_branch_line ln then Some (PyStr.strip (PyStr.drop 2 ln)) else b)
    lines start.

Definition index_error : exn := Exn "IndexError" "string index out of range".

Section StatusSummary.

Context `{Runtime} {World : Type}.
Variable _run_cmd : list string -> string -> World -> cmd_result * World.

Lemma git_status_unfold repo_dir (sh : shell World) out :
  let query := run _run_cmd status_branch_query (abspath repo_dir) sh in
  stdout query.1 = Some out ->
  git_status _run_cmd repo_dir sh
  = match status_loop (nonblank_lines out)
            {| sl_branch := None; sl_staged := []; sl_unstaged := []; sl_conflicts := [] |} with
    | Raise e => (Raise e, query.2)
    | Return acc =>
        (Return {| st_clean := is_nil (sl_staged acc) && is_nil (sl_unstaged acc)
                               && is_nil (sl_conflicts acc);
                   st_branch := sl_branch acc; st_staged := sl_staged acc;
                   st_unstaged := sl_unstaged acc; st_conflicts := sl_conflicts acc;
                   st_raw := out |}, query.2)
    end.
Proof.
  unfold git_status. fold status_branch_query. cbv zeta.
  destruct (run _run_cmd status_branch_query (abspath repo_dir) sh) as [res sh1].
  cbn [fst snd]. intros ->. reflexivity.
Qed.

Lemma git_status_no_output repo_dir (sh : shell World) :
  let query := run _run_cmd status_branch_query (abspath repo_dir) sh in
  stdout query.1 = None ->
  git_status _run_cmd repo_dir sh = (Raise no_splitlines, query.2).
Proof.
  unfold git_status. fold status_branch_query. cbv zeta.
  destruct (run _run_cmd status_branch_query (abspath repo_dir) sh) as [res sh1].
  cbn [fst snd]. intros ->. reflexivity.
Qed.

Definition add_if (b : bool) (l : list string) (path : string) : list string :=
  if b then (l ++ [path])%list else l.

Lemma status_step_branch acc ln :
  is_branch_line ln = true ->
  status_step acc ln
  = Return {| sl_branch := Some (PyStr.strip (PyStr.drop 2 ln));
              sl_staged := sl_staged acc; sl_unstaged := sl_unstaged acc;
              sl_conflicts := sl_conflicts acc |}.
Proof. unfold status_step, is_branch_line. intros ->. reflexivity. Qed.

Lemma status_step_entry acc ln :
  is_branch_line ln = false -> (2 <= String.length ln)%nat ->
  status_step acc ln
  = Return {| sl_branch := sl_branch acc;
              sl_staged := add_if (in_index ln) (sl_staged acc) (PyStr.drop 3 ln);
              sl_unstaged := add_if (in_tree ln) (sl_unstaged acc) (PyStr.drop 3 ln);
              sl_conflicts := add_if (in_conflict ln) (sl_conflicts acc) (PyStr.drop 3 ln) |}.
Proof.
  unfold status_step, is_branch_line. intros -> Hlen.
  destruct ln as [|x [|y rest]]; simpl in Hlen; try lia.
  reflexivity.
Qed.

Lemma status_step_short acc ln :
  String.length ln = 1%nat -> status_step acc ln = Raise index_error.
Proof.
  destruct ln as [|x [|y rest]]; try discriminate. intros _.
  unfold status_step, PyStr.startswith. cbn [String.prefix].
  destruct (ascii_dec "#" x); reflexivity.
Qed.

Lemma status_step_raises acc ln e : status_step acc ln = Raise e -> e = index_error.
Proof.
  unfold status_step. destruct (PyStr.startswith ln "##"); [discriminate|].
  unfold PyText.char_at.
  destruct (String.get 0 (PyText.take 2 ln)); simpl; [|intros [= <-]; reflexivity].
  destruct (String.get 1 (PyText.take 2 ln)); simpl; [discriminate|intros [= <-]; reflexivity].
Qed.

(** The loop on well-formed entries. *)
Lemma status_loop_spec lines acc :
  Forall (fun ln => (2 <= String.length ln)%nat)
    (List.filter (fun ln => negb (is_branch_line ln)) lines) ->
  let entries := List.filter (fun ln => negb (is_branch_line ln)) lines in
  status_loop lines acc
  = Return {| sl_branch := branch_of lines (sl_branch acc);
              sl_staged := (sl_staged acc ++ paths_where in_index entries)%list;
              sl_unstaged := (sl_unstaged acc ++ paths_where in_tree entries)%list;
              sl_conflicts := (sl_conflicts acc ++ paths_where in_conflict entries)%list |}.
Proof.
  revert acc. induction lines as [|ln rest IH]; intros acc Hall; cbv zeta.
  - simpl. unfold paths_where. simpl. rewrite !app_nil_r. destruct acc; reflexivity.
  - cbn [status_loop List.filter branch_of fold_left] in *.
    destruct (is_branch_line ln) eqn:Hb; cbn [negb] in *.
    + rewrite (status_step_branch _ _ Hb). unfold mbind, outcome_bind.
      rewrite (IH _ Hall). reflexivity.
    + inversion Hall as [|? ? Hlen Hrest]; subst.
      rewrite (status_step_entry _ _ Hb Hlen). unfold mbind, outcome_bind.
      rewrite (IH _ Hrest). cbn [sl_branch sl_staged sl_unstaged sl_conflicts].
      unfold paths_where, add_if. cbn [List.filter].
      destruct (in_index ln), (in_tree ln), (in_conflict ln); cbn [List.map];
        rewrite <- ?app_assoc; reflexivity.
Qed.

Lemma status_loop_returns lines acc acc' :
  status_loop lines acc = Return acc' ->
  Forall (fun ln => (2 <= String.length ln)%nat)
    (List.filter (fun ln => negb (is_branch_line ln)) lines).
Proof.
  revert acc. induction lines as [|ln rest IH]; intros acc; [constructor|].
  cbn [status_loop List.filter].
  destruct (status_step acc ln) as [acc1|e] eqn:Hstep; [|discriminate].
  unfold mbind, outcome_bind. intros Hloop.
  destruct (is_branch_line ln) eqn:Hb; cbn [negb]; [eauto|].
  constructor; [|eauto].
  destruct ln as [|x [|y tail]]; [| |simpl; lia].
  - unfold status_step in Hstep. discriminate Hstep.
  - rewrite (status_step_short acc (String x EmptyString) eq_refl) in Hstep.
    discriminate Hstep.
Qed.

(** X10. When the status command prints a text in which every entry has
    its two status codes, [git_status] returns, after running the status
    query and nothing else: the staged paths are those whose index code is
    not a space, the unstaged paths those whose work-tree code is not a
    space, the conflicts those with a [U] code or the codes [AA], each list
    in output order, and the branch is the one of the last branch line. *)
Theorem git_status_lists repo_dir (sh : shell World) out :
  let query := run _run_cmd status_branch_query (abspath repo_dir) sh in
  let entries := status_entries out in
  let result := git_status _run_cmd repo_dir sh in
  stdout query.1 = Some out ->
  Forall (fun ln => (2 <= String.length ln)%nat) entries ->
  result
  = (Return {| st_clean := is_nil (paths_where in_index entries)
                           && is_nil (paths_where in_tree entries)
                           && is_nil (paths_where in_conflict entries);
               st_branch := branch_of (nonblank_lines out) None;
               st_staged := paths_where in_index entries;
               st_unstaged := paths_where in_tree entries;
               st_conflicts := paths_where in_conflict entries;
               st_raw := out |}, query.2)
  /\ invoked sh result.2 = [(status_branch_query, abspath repo_dir)].
Proof.
  intros query entries result Hout Hall.
  assert (E : result = (Return {| st_clean := is_nil (paths_where in_index entries)
                           && is_nil (paths_where in_tree entries)
                           && is_nil (paths_where in_conflict entries);
               st_branch := branch_of (nonblank_lines out) None;
               st_staged := paths_where in_index entries;
               st_unstaged := paths_where in_tree entries;
               st_conflicts := paths_where in_conflict entries;
               st_raw := out |}, query.2)).
  { subst result. rewrite (git_status_unfold _ _ _ Hout). fold query.
    rewrite (status_loop_spec _ _ Hall). reflexivity. }
  rewrite E. split; [reflexivity|]. apply invoked_run.
Qed.

(** X11. An untracked path, printed with the codes [??], is returned both
    as staged and as unstaged whenever [git_status] returns. *)
Theorem git_status_untracked repo_dir (sh : shell World) out path r :
  let query := run _run_cmd status_branch_query (abspath repo_dir) sh in
  stdout query.1 = Some out ->
  In ("?? " ++ path) (nonblank_lines out) ->
  (git_status _run_cmd repo_dir sh).1 = Return r ->
  In path (st_staged r) /\ In path (st_unstaged r).
Proof.
  intros query Hout Hin.
  rewrite (git_status_unfold _ _ _ Hout). fold query.
  destruct (status_loop (nonblank_lines out) _) as [acc|e] eqn:Hloop; [|discriminate].
  pose proof (status_loop_returns _ _ _ Hloop) as Hall.
  rewrite (status_loop_spec _ _ Hall) in Hloop. injection Hloop as <-.
  cbn [fst]. intros [= <-]. simpl.
  assert (He : In ("?? " ++ path) (status_entries out)).
  { unfold status_entries. apply filter_In. split; [exact Hin|reflexivity]. }
  fold (status_entries out). unfold paths_where.
  split; apply in_map_iff; exists ("?? " ++ path);
    (split; [reflexivity|]); apply filter_In; (split; [exact He|reflexivity]).
Qed.

(** Every conflict is counted as staged or as unstaged. *)
Definition conflicts_counted (acc : status_lists) : Prop :=
  forall p, In p (sl_conflicts acc) -> In p (sl_staged acc) \/ In p (sl_unstaged acc).

Lemma status_step_counted acc ln acc' :
  conflicts_counted acc -> status_step acc ln = Return acc' -> conflicts_counted acc'.
Proof.
  unfold status_step. intros Hinv.
  destruct (PyStr.startswith ln "##"); [intros [= <-]; exact Hinv|].
  destruct (PyText.char_at (PyText.take 2 ln) 0) as [x|]; [|discriminate]. simpl.
  destruct (PyText.char_at (PyText.take 2 ln) 1) as [y|]; [|discriminate]. simpl.
  intros [= <-]. intros p. simpl.
  destruct (Ascii.eqb_spec x "U") as [->|Hx]; simpl.
  { rewrite in_app_iff. intros [Hp|Hp].
    - destruct (Hinv p Hp) as [Hs|Hu]; [left; apply in_app_iff; auto|right].
      destruct (negb (Ascii.eqb y " ")); [apply in_app_iff|]; auto.
    - left. apply in_app_iff. auto. }
  destruct (Ascii.eqb_spec y "U") as [->|Hy]; simpl.
  { rewrite in_app_iff. intros [Hp|Hp].
    - destruct (Hinv p Hp) as [Hs|Hu]; [left|right; apply in_app_iff; auto].
      destruct (negb (Ascii.eqb x " ")); [apply in_app_iff|]; auto.
    - right. apply in_app_iff. auto. }
  destruct (Ascii.eqb_spec x "A") as [->|Hxa]; simpl.
  { destruct (Ascii.eqb_spec y "A") as [->|Hya]; simpl.
    - rewrite in_app_iff. intros [Hp|Hp].
      + destruct (Hinv p Hp); [left|right]; apply in_app_iff; auto.
      + left. apply in_app_iff. auto.
    - intros Hp. destruct (Hinv p Hp) as [Hs|Hu]; [left; apply in_app_iff; auto|right].
      destruct (negb (Ascii.eqb y " ")); [apply in_app_iff|]; auto. }
  intros Hp. destruct (Hinv p Hp) as [Hs|Hu]; [left|right].
  - destruct (negb (Ascii.eqb x " ")); [apply in_app_iff|]; auto.
  - destruct (negb (Ascii.eqb y " ")); [apply in_app_iff|]; auto.
Qed.

Lemma status_loop_counted lines acc acc' :
  conflicts_counted acc -> status_loop lines acc = Return acc' -> conflicts_counted acc'.
Proof.
  revert acc. induction lines as [|ln rest IH]; intros acc Hinv; cbn [status_loop].
  - intros [= <-]. exact Hinv.
  - destruct (status_step acc ln) as [acc1|e] eqn:Hstep; [|discriminate].
    unfold mbind, outcome_bind. apply IH. eauto using status_step_counted.
Qed.

(** X12. Whenever [git_status] returns, every path it lists as a conflict
    is also listed as staged or as unstaged; so the tree is reported clean
    exactly when both of these lists are empty. *)
Theorem git_status_conflicts_counted repo_dir (sh : shell World) r :
  (git_status _run_cmd repo_dir sh).1 = Return r ->
  (forall p, In p (st_conflicts r) -> In p (st_staged r) \/ In p (st_unstaged r))
  /\ (st_clean r = true <-> st_staged r = [] /\ st_unstaged r = []).
Proof.
  destruct (stdout (run _run_cmd status_branch_query (abspath repo_dir) sh).1)
    as [out|] eqn:Hout.
  2:{ rewrite (git_status_no_output _ _ Hout). discriminate. }
  rewrite (git_status_unfold _ _ _ Hout).
  destruct (status_loop _ _) as [acc|e] eqn:Hloop; [|discriminate].
  cbn [fst]. intros [= <-]. cbn [st_conflicts st_staged st_unstaged st_clean].
  assert (Hinv : conflicts_counted acc).
  { eapply status_loop_counted; [|exact Hloop]. intros p []. }
  split; [exact Hinv|].
  destruct (sl_staged acc) as [|s ss] eqn:Hs, (sl_unstaged acc) as [|u us] eqn:Hu;
    simpl; try (split; [discriminate|intros [? ?]; discriminate]).
  destruct (sl_conflicts acc) as [|c cs] eqn:Hc; [split; auto|].
  exfalso. destruct (Hinv c) as [Hin|Hin].
  - rewrite Hc. left. reflexivity.
  - rewrite Hs in Hin. destruct Hin.
  - rewrite Hu in Hin. destruct Hin.
Qed.

Lemma status_loop_short lines acc ln :
  In ln lines -> String.length ln = 1%nat -> status_loop lines acc = Raise index_error.
Proof.
  revert acc. induction lines as [|l rest IH]; intros acc Hin Hlen; [destruct Hin|].
  cbn [status_loop]. destruct Hin as [->|Hin].
  - rewrite (status_step_short _ _ Hlen). reflexivity.
  - destruct (status_step acc l) as [acc1|e] eqn:Hstep.
    + unfold mbind, outcome_bind. eauto.
    + apply status_step_raises in Hstep. subst e. reflexivity.
Qed.

(** X13. A status line that is a single character has no second status
    code: when the status command prints one, [git_status] raises
    [IndexError] instead of returning a summary. *)
Theorem git_status_short_line repo_dir (sh : shell World) out ln :
  let query := run _run_cmd status_branch_query (abspath repo_dir) sh in
  stdout query.1 = Some out ->
  In ln (nonblank_lines out) ->
  String.length ln = 1%nat ->
  git_status _run_cmd repo_dir sh = (Raise index_error, query.2).
Proof.
  intros query Hout Hin Hlen. rewrite (git_status_unfold _ _ _ Hout). fold query.
  rewrite (status_loop_short _ _ _ Hin Hlen). reflexivity.
Qed.

End StatusSummary.

(** ** The pull request *)

Definition gh_probe : list string := ["gh"; "--version"].
Definition gh_create (base title body : string) : list string :=
  ["gh"; "pr"; "create"; "--base"; base; "--title"; title; "--body"; body].

Fixpoint last_char (s : string) : option ascii :=
  match s with
  | EmptyString => None
  | String c EmptyString => Some c
  | String _ rest => last_char rest
  end.

Section PullRequest.

Context `{Runtime} {World : Type}.
Variable _run_cmd : list string -> string -> World -> cmd_result * World.

Lemma git_pull_request_unfold base title body repo_dir (sh : shell World) :
  git_pull_request _run_cmd base title body repo_dir sh
  = let cwd := abspath repo_dir in
    let probe := run _run_cmd gh_probe cwd sh in
    if exited_zero probe.1 then
      let create :=
        run _run_cmd (gh_create base (or_default title default_pr_title)
                        (or_default body default_pr_body)) cwd probe.2 in
      if exited_zero create.1 then
        match pr_url (stdout create.1) with
        | Return url => (Return (PrCreated url (stdout create.1)), create.2)
        | Raise e => (Raise e, create.2)
        end
      else
        (Return (PrFailed "gh CLI failed to create PR" (stderr create.1) (stdout create.1)),
         create.2)
    else
      (Return (GhMissing
         "GitHub CLI 'gh' not found. Install 'gh' or provide a GitHub token to use the API. Alternatively, create a PR manually via the host (GitHub/GitLab)."),
       probe.2).
Proof.
  unfold git_pull_request. fold gh_probe. cbv zeta.
  destruct (run _run_cmd gh_probe (abspath repo_dir) sh) as [gh_check sh1]. cbn [fst snd].
  destruct (exited_zero gh_check); [|reflexivity].
  fold (gh_create base (or_default title default_pr_title) (or_default body default_pr_body)).
  destruct (run _run_cmd (gh_create _ _ _) (abspath repo_dir) sh1) as [pr_res sh2].
  reflexivity.
Qed.

(** X14. When the version probe of the hosting CLI does not exit with
    zero, [git_pull_request] returns the guidance failure and runs no
    other command: no pull request is created. *)
Theorem git_pull_request_gh_missing base title body repo_dir (sh : shell World) :
  let cwd := abspath repo_dir in
  let probe := run _run_cmd gh_probe cwd sh in
  let result := git_pull_request _run_cmd base title body repo_dir sh in
  exited_zero probe.1 = false ->
  (exists msg, result = (Return (GhMissing msg), probe.2))
  /\ invoked sh result.2 = [(gh_probe, cwd)].
Proof.
  intros cwd probe result Hz. subst result.
  rewrite git_pull_request_unfold. cbv zeta. fold cwd probe. rewrite Hz.
  split; [eauto|]. apply invoked_run.
Qed.

(** X15. When the probe succeeds, exactly one create command is run, with
    the base branch as given and the default title and body standing in
    for missing or empty ones; when it does not exit with zero the call
    returns a failure carrying its captured output as it is, without a
    second attempt. *)
Theorem git_pull_request_creates_once base title body repo_dir (sh : shell World) :
  let cwd := abspath repo_dir in
  let probe := run _run_cmd gh_probe cwd sh in
  let create :=
    run _run_cmd (gh_create base (or_default title default_pr_title)
                    (or_default body default_pr_body)) cwd probe.2 in
  let result := git_pull_request _run_cmd base title body repo_dir sh in
  exited_zero probe.1 = true ->
  invoked sh result.2
  = [(gh_probe, cwd);
     (gh_create base (or_default title default_pr_title) (or_default body default_pr_body), cwd)]
  /\ (exited_zero create.1 = false ->
      result.1 = Return (PrFailed "gh CLI failed to create PR" (stderr create.1)
                           (stdout create.1))).
Proof.
  intros cwd probe create result Hz. subst result.
  rewrite git_pull_request_unfold. cbv zeta. fold cwd probe. rewrite Hz. fold create.
  destruct (exited_zero create.1).
  - split; [|discriminate]. destruct (pr_url _); apply invoked_run2.
  - split; [apply invoked_run2|reflexivity].
Qed.

Lemma linebreak_isspace c : PyStr.is_linebreak c = true -> PyStr.isspace c = true.
Proof. destruct c as [[] [] [] [] [] [] [] []]; vm_compute; congruence. Qed.

Lemma rstrip_last_char s c :
  last_char (PyStr.rstrip s) = Some c -> PyStr.isspace c = false.
Proof.
  induction s as [|a rest IH]; [discriminate|].
  cbn [PyStr.rstrip]. destruct (PyStr.rstrip rest) as [|b r] eqn:Hr.
  - simpl. destruct (PyStr.isspace a) eqn:Ha; simpl; [discriminate|].
    intros [= <-]. exact Ha.
  - rewrite andb_false_r. cbn [last_char]. exact IH.
Qed.

Lemma splitlines_from_last n : forall s cur,
  (String.length s <= n)%nat ->
  (forall c, last_char s = Some c -> PyStr.is_linebreak c = false) ->
  cur <> EmptyString \/ s <> EmptyString ->
  exists l u, PyStr.splitlines_from cur s = (l ++ [u])%list /\ u <> EmptyString.
Proof.
  assert (Hbase : forall cur, cur <> EmptyString \/ EmptyString <> EmptyString ->
    exists l u, PyStr.splitlines_from cur EmptyString = (l ++ [u])%list /\ u <> EmptyString).
  { intros cur [Hc|Hs]; [|congruence]. exists [], cur.
    destruct cur; [congruence|]. split; [reflexivity|discriminate]. }
  induction n as [|n IH]; intros s cur Hn Hlast Hne;
    destruct s as [|c rest]; auto; simpl in Hn; [lia|].
  cbn [PyStr.splitlines_from]. destruct (PyStr.is_linebreak c) eqn:Hlb.
  - destruct rest as [|c' rest'].
    { specialize (Hlast c eq_refl). congruence. }
    assert (Hrest : forall d, last_char (String c' rest') = Some d ->
              PyStr.is_linebreak d = false) by (intros d Hd; apply Hlast; exact Hd).
    destruct ((PyStr.code c =? 13)%N && (PyStr.code c' =? 10)%N) eqn:Hcr.
    + destruct rest' as [|c'' rest''].
      { apply andb_true_iff in Hcr as [_ Hc']. apply N.eqb_eq in Hc'.
        specialize (Hrest c' eq_refl). unfold PyStr.is_linebreak in Hrest.
        rewrite Hc' in Hrest. discriminate Hrest. }
      destruct (IH (String c'' rest'') EmptyString) as (l & u & Hl & Hu).
      * simpl in *. lia.
      * intros d Hd. apply Hrest. exact Hd.
      * right. discriminate.
      * exists (cur :: l), u. rewrite Hl. split; [reflexivity|exact Hu].
    + destruct (IH (String c' rest') EmptyString) as (l & u & Hl & Hu).
      * simpl in *. lia.
      * exact Hrest.
      * right. discriminate.
      * exists (cur :: l), u. rewrite Hl. split; [reflexivity|exact Hu].
  - apply IH.
    + lia.
    + intros d Hd. apply Hlast. destruct rest; [discriminate|exact Hd].
    + left. unfold PyStr.snoc. destruct cur; discriminate.
Qed.

Lemma last_item_snoc l u : PyText.last_item (l ++ [u])%list = Return u.
Proof.
  destruct l as [|a l]; [reflexivity|].
  simpl. f_equal. apply List.last_last.
Qed.

Definition list_index_error : exn := Exn "IndexError" "list index out of range".

Lemma pr_url_stripped text :
  PyStr.strip text <> EmptyString ->
  exists url, pr_url (Some text) = Return (Some url) /\ url <> EmptyString
              /\ In url (PyStr.splitlines (PyStr.strip text)).
Proof.
  intros Hne. unfold pr_url.
  assert (Ht : PyStr.truthy text = true).
  { destruct text; [exfalso; apply Hne; reflexivity|reflexivity]. }
  rewrite Ht.
  destruct (splitlines_from_last (String.length (PyStr.strip text)) (PyStr.strip text)
              EmptyString) as (l & u & Hl & Hu).
  - lia.
  - intros c Hc. destruct (PyStr.is_linebreak c) eqn:Hlb; [|reflexivity].
    apply linebreak_isspace in Hlb. apply rstrip_last_char in Hc. congruence.
  - right. exact Hne.
  - exists u. unfold PyStr.splitlines. rewrite Hl, last_item_snoc.
    split; [reflexivity|]. split; [exact Hu|]. apply in_app_iff. right. left. reflexivity.
Qed.

Lemma pr_url_blank text :
  text <> EmptyString -> PyStr.strip text = EmptyString ->
  pr_url (Some text) = Raise list_index_error.
Proof.
  intros Hne Hs. unfold pr_url.
  destruct text; [congruence|]. cbn [PyStr.truthy PyStr.is_empty negb].
  rewrite Hs. reflexivity.
Qed.

(** X16. When the create command succeeds and its output has a character
    that is not white space, the reported URL is the last line of the
    stripped output and is not empty; the output itself is returned as
    captured. *)
Theorem git_pull_request_url base title body repo_dir (sh : shell World) text :
  let cwd := abspath repo_dir in
  let probe := run _run_cmd gh_probe cwd sh in
  let create :=
    run _run_cmd (gh_create base (or_default title default_pr_title)
                    (or_default body default_pr_body)) cwd probe.2 in
  exited_zero probe.1 = true ->
  exited_zero create.1 = true ->
  stdout create.1 = Some text ->
  PyStr.strip text <> EmptyString ->
  exists l url,
    (git_pull_request _run_cmd base title body repo_dir sh).1
    = Return (PrCreated (Some url) (Some text))
    /\ PyStr.splitlines (PyStr.strip text) = (l ++ [url])%list
    /\ url <> EmptyString.
Proof.
  intros cwd probe create Hp Hc Hout Hne.
  rewrite git_pull_request_unfold. cbv zeta. fold cwd probe. rewrite Hp. fold create.
  rewrite Hc, Hout.
  destruct (splitlines_from_last (String.length (PyStr.strip text)) (PyStr.strip text)
              EmptyString) as (l & u & Hl & Hu).
  - lia.
  - intros c Hc'. destruct (PyStr.is_linebreak c) eqn:Hlb; [|reflexivity].
    apply linebreak_isspace in Hlb. apply rstrip_last_char in Hc'. congruence.
  - right. exact Hne.
  - exists l, u. unfold pr_url.
    assert (Ht : PyStr.truthy text = true).
    { destruct text; [exfalso; apply Hne; reflexivity|reflexivity]. }
    rewrite Ht. unfold PyStr.splitlines. rewrite Hl, last_item_snoc.
    split; [reflexivity|]. split; [reflexivity|exact Hu].
Qed.

(** X17. When the create command succeeds but prints only white space
    (at least one character of it), taking the last line of the stripped
    output fails: [git_pull_request] raises [IndexError] after the pull
    request has been created. *)
Theorem git_pull_request_blank_output base title body repo_dir (sh : shell World) text :
  let cwd := abspath repo_dir in
  let probe := run _run_cmd gh_probe cwd sh in
  let create :=
    run _run_cmd (gh_create base (or_default title default_pr_title)
                    (or_default body default_pr_body)) cwd probe.2 in
  exited_zero probe.1 = true ->
  exited_zero create.1 = true ->
  stdout create.1 = Some text ->
  text <> EmptyString ->
  PyStr.strip text = EmptyString ->
  git_pull_request _run_cmd base title body repo_dir sh
  = (Raise list_index_error, create.2).
Proof.
  intros cwd probe create Hp Hc Hout Hne Hs.
  rewrite git_pull_request_unfold. cbv zeta. fold cwd probe. rewrite Hp. fold create.
  rewrite Hc, Hout, (pr_url_blank _ Hne Hs). reflexivity.
Qed.

(** X18. [maven_run] runs exactly one command in the resolved project
    directory and returns its result as it is: Maven followed by the given
    goals, the single goal [test] when none are given; an empty list of
    goals is kept and runs Maven without a goal. *)
Theorem maven_run_once project_dir goals (sh : shell World) :
  let result := maven_run _run_cmd project_dir goals sh in
  let cmd := match goals with
             | None => ["mvn"; "test"]
             | Some [] => ["mvn"]
             | Some (g :: gs) => "mvn" :: g :: gs
             end in
  result.1 = (_run_cmd cmd (abspath project_dir) (world sh)).1
  /\ invoked sh result.2 = [(cmd, abspath project_dir)].
Proof.
  intros result cmd.
  assert (E : result = run _run_cmd cmd (abspath project_dir) sh).
  { subst result cmd. unfold maven_run. destruct goals as [[|g gs]|]; reflexivity. }
  rewrite E. split; [|apply invoked_run].
  unfold run. destruct (_run_cmd cmd (abspath project_dir) (world sh)); reflexivity.
Qed.

End PullRequest.

(** ** The coverage plugin in the build file *)

Definition pom_path (project_dir : string) : path :=
  Path.joinpath (Path.of_str project_dir) "pom.xml".

Definition backup_path (project_dir : string) : path :=
  Path.joinpath (Path.of_str project_dir) "pom.xml.bak".

(** The text has a place where the plugin can go. *)
Definition has_anchor (text : string) : bool :=
  PyText.contains "<build>" text || PyText.contains "</project>" text.

Definition mentions_jacoco (text : string) : bool :=
  PyText.contains "jacoco-maven-plugin" text.

Section PluginInsertion.

Lemma append_cons c a b : (String c a ++ b)%string = String c (a ++ b).
Proof. reflexivity. Qed.

Lemma prefix_app n a b : String.prefix n a = true -> String.prefix n (a ++ b) = true.
Proof.
  revert a. induction n as [|c n IH]; intros a; [intros _; destruct (a ++ b); reflexivity|].
  destruct a as [|c' a]; [discriminate|]. rewrite append_cons. cbn [String.prefix].
  destruct (ascii_dec c c'); [apply IH|discriminate].
Qed.

Lemma contains_app_l n a b :
  PyText.contains n a = true -> PyText.contains n (a ++ b) = true.
Proof.
  induction a as [|c a IH].
  - cbn [PyText.contains]. rewrite orb_false_r. destruct n; [|discriminate].
    intros _. destruct b; reflexivity.
  - rewrite append_cons. cbn [PyText.contains]. intros Hc.
    apply orb_true_iff in Hc as [Hp|Hc].
    + apply (prefix_app _ _ b) in Hp. rewrite append_cons in Hp. rewrite Hp. reflexivity.
    + rewrite (IH Hc). apply orb_true_r.
Qed.

Lemma contains_app_r n a b :
  PyText.contains n b = true -> PyText.contains n (a ++ b) = true.
Proof.
  intros Hb. induction a as [|c a IH]; [exact Hb|].
  rewrite append_cons. cbn [PyText.contains]. rewrite IH. apply orb_true_r.
Qed.

Lemma replace_first_contains n old new s :
  PyText.contains old s = true -> old <> EmptyString ->
  PyText.contains n new = true ->
  PyText.contains n (PyText.replace_first old new s) = true.
Proof.
  intros Hc Hold Hn. induction s as [|c s IH].
  - cbn [PyText.contains] in Hc. destruct old; [congruence|discriminate].
  - cbn [PyText.replace_first]. destruct (String.prefix old (String c s)) eqn:Hp.
    + apply contains_app_l, Hn.
    + cbn [PyText.contains] in Hc. rewrite Hp in Hc. cbn [orb] in Hc.
      apply (contains_app_r n (String c EmptyString)). apply IH, Hc.
Qed.

Lemma replace_all_contains n old new s :
  PyText.contains old s = true -> old <> EmptyString ->
  PyText.contains n new = true ->
  PyText.contains n (PyText.replace_all old new s) = true.
Proof.
  unfold PyText.replace_all. intros Hc Hold Hn. induction s as [|c s IH].
  - cbn [PyText.contains] in Hc. destruct old; [congruence|discriminate].
  - cbn [PyText.replace_from]. destruct (String.prefix old (String c s)) eqn:Hp.
    + apply contains_app_l, Hn.
    + cbn [PyText.contains] in Hc. rewrite Hp in Hc. cbn [orb] in Hc.
      apply (contains_app_r n (String c EmptyString)). apply IH, Hc.
Qed.

Lemma replace_all_absent old new s :
  PyText.contains old s = false -> PyText.replace_all old new s = s.
Proof.
  unfold PyText.replace_all. induction s as [|c s IH]; [reflexivity|].
  cbn [PyText.contains PyText.replace_from]. intros Hc.
  apply orb_false_iff in Hc as [Hp Hc]. rewrite Hp, (IH Hc). reflexivity.
Qed.

Lemma insert_plugin_mentions text :
  has_anchor text = true -> mentions_jacoco (insert_plugin text) = true.
Proof.
  unfold has_anchor, mentions_jacoco, insert_plugin. intros Ha.
  destruct (PyText.contains "<build>" text) eqn:Hb.
  - destruct (PyText.contains "<plugins>" text) eqn:Hp.
    + apply replace_first_contains; [exact Hp|discriminate|vm_compute; reflexivity].
    + apply replace_all_contains; [exact Hb|discriminate|vm_compute; reflexivity].
  - apply replace_all_contains; [exact Ha|discriminate|vm_compute; reflexivity].
Qed.

Lemma insert_plugin_no_anchor text : has_anchor text = false -> insert_plugin text = text.
Proof.
  unfold has_anchor, insert_plugin. intros Ha. apply orb_false_iff in Ha as [Hb Hp].
  rewrite Hb. apply replace_all_absent, Hp.
Qed.

Lemma pom_path_parts project_dir :
  pom_path project_dir
  = ((Path.of_str project_dir).1, ((Path.of_str project_dir).2 ++ ["pom.xml"])%list).
Proof. reflexivity. Qed.

Lemma backup_path_parts project_dir :
  backup_path project_dir
  = ((Path.of_str project_dir).1, ((Path.of_str project_dir).2 ++ ["pom.xml.bak"])%list).
Proof. reflexivity. Qed.

Lemma stat_snoc (fs : filesystem) root parts name :
  FS.stat fs (root, (parts ++ [name])%list) = fs !! (root, (parts ++ [name])%list).
Proof. unfold FS.stat. cbn [snd]. destruct parts; reflexivity. Qed.

Lemma pom_with_suffix project_dir :
  Disk.with_suffix (pom_path project_dir) ".xml.bak" = Return (backup_path project_dir).
Proof.
  rewrite pom_path_parts, backup_path_parts. unfold Disk.with_suffix. cbn [fst snd].
  set (parts := (Path.of_str project_dir).2).
  assert (Hstem : Path.stem ((Path.of_str project_dir).1, (parts ++ ["pom.xml"])%list) = "pom").
  { unfold Path.stem, Path.name. cbn [snd]. rewrite List.last_last. reflexivity. }
  rewrite Hstem, List.removelast_last.
  destruct parts; reflexivity.
Qed.

Lemma pom_backup_differ project_dir : pom_path project_dir <> backup_path project_dir.
Proof.
  rewrite pom_path_parts, backup_path_parts. intros [= E].
  apply app_inv_head in E. discriminate E.
Qed.

Lemma parent_snoc root parts name :
  FS.parent (root, (parts ++ [name])%list) = (root, parts).
Proof. unfold FS.parent. cbn [fst snd]. rewrite List.removelast_last. reflexivity. Qed.

Lemma snoc_differs (root : string) (parts : list string) name :
  (root, parts) <> (root, (parts ++ [name])%list).
Proof.
  intros [= E]. apply (f_equal (@List.length string)) in E.
  rewrite List.length_app in E. simpl in E. lia.
Qed.

Lemma stat_insert_other (fs : filesystem) p q n :
  p <> q -> FS.stat (<[p := n]> fs) q = FS.stat fs q.
Proof.
  intros Hne. unfold FS.stat. destruct q.2; [reflexivity|].
  apply lookup_insert_ne, Hne.
Qed.

Lemma stat_delete_other (fs : filesystem) p q :
  p <> q -> FS.stat (delete p fs) q = FS.stat fs q.
Proof.
  intros Hne. unfold FS.stat. destruct q.2; [reflexivity|].
  apply lookup_delete_ne, Hne.
Qed.

(** What the tool does to a build file it has to change. *)
Lemma configure_jacoco_spec (project_dir : string) (fs : filesystem) (text : string) :
  fs !! pom_path project_dir = Some (File text) ->
  mentions_jacoco text = false ->
  FS.is_dir fs (Path.of_str project_dir) = true ->
  configure_jacoco project_dir fs
  = (Return (Inserted "Inserted JaCoCo plugin into pom.xml (backup created)"),
     <[pom_path project_dir := File (insert_plugin text)]>
       (if FS.exists_ fs (backup_path project_dir) then fs
        else <[backup_path project_dir := File text]> fs)).
Proof.
  intros Hpom Hj Hdir.
  assert (Hst : FS.stat fs (pom_path project_dir) = Some (File text)).
  { rewrite pom_path_parts, stat_snoc, <- pom_path_parts. exact Hpom. }
  unfold configure_jacoco. fold (pom_path project_dir).
  unfold FS.exists_ at 1. rewrite Hst.
  rewrite bool_decide_eq_true_2 by eauto. cbn [negb].
  unfold FS.read_text. rewrite Hst. fold (mentions_jacoco text). rewrite Hj.
  unfold backup_pom. rewrite pom_with_suffix.
  destruct (FS.exists_ fs (backup_path project_dir)) eqn:Hb; cbn [negb].
  - unfold FS.write_text. rewrite Hst. reflexivity.
  - assert (Hnone : FS.stat fs (backup_path project_dir) = None).
    { unfold FS.exists_ in Hb. apply bool_decide_eq_false in Hb.
      destruct (FS.stat fs (backup_path project_dir)); [exfalso; apply Hb; eauto|reflexivity]. }
    assert (Hpar : FS.parent (backup_path project_dir) = Path.of_str project_dir).
    { rewrite backup_path_parts, parent_snoc. destruct (Path.of_str project_dir); reflexivity. }
    assert (Hpar' : FS.parent (pom_path project_dir) = Path.of_str project_dir).
    { rewrite pom_path_parts, parent_snoc. destruct (Path.of_str project_dir); reflexivity. }
    apply is_dir_stat in Hdir.
    unfold Disk.replace. rewrite Hst, Hnone, Hpar, Hdir.
    set (fs1 := <[backup_path project_dir := File text]> (delete (pom_path project_dir) fs)).
    assert (Hb1 : FS.stat fs1 (backup_path project_dir) = Some (File text)).
    { subst fs1. rewrite backup_path_parts at 2. rewrite stat_snoc, <- backup_path_parts.
      apply lookup_insert_eq. }
    assert (Hw : FS.write_text fs1 (backup_path project_dir) text = Return fs1).
    { unfold FS.write_text. rewrite Hb1. f_equal. subst fs1. apply insert_insert_eq. }
    rewrite Hw.
    assert (Hp1 : FS.stat fs1 (pom_path project_dir) = None).
    { subst fs1. rewrite stat_insert_other by (apply not_eq_sym, pom_backup_differ).
      rewrite pom_path_parts, stat_snoc. apply lookup_delete_eq. }
    assert (Hd1 : FS.stat fs1 (Path.of_str project_dir) = Some Dir).
    { subst fs1. rewrite stat_insert_other, stat_delete_other; [exact Hdir| |].
      - rewrite pom_path_parts. destruct (Path.of_str project_dir) as [r ps].
        apply not_eq_sym, snoc_differs.
      - rewrite backup_path_parts. destruct (Path.of_str project_dir) as [r ps].
        apply not_eq_sym, snoc_differs. }
    unfold FS.write_text. rewrite Hp1, Hpar', Hd1. f_equal. subst fs1.
    apply map_eq. intros q.
    destruct (decide (q = pom_path project_dir)) as [->|Hq].
    { rewrite !lookup_insert_eq. reflexivity. }
    rewrite !(lookup_insert_ne _ (pom_path project_dir)) by (apply not_eq_sym, Hq).
    destruct (decide (q = backup_path project_dir)) as [->|Hq'].
    { rewrite !lookup_insert_eq. reflexivity. }
    rewrite !(lookup_insert_ne _ (backup_path project_dir)) by (apply not_eq_sym, Hq').
    apply lookup_delete_ne, not_eq_sym, Hq.
Qed.


Lemma configure_jacoco_configured (project_dir : string) (fs : filesystem) (text : string) :
  fs !! pom_path project_dir = Some (File text) ->
  mentions_jacoco text = true ->
  configure_jacoco project_dir fs
  = (Return (AlreadyConfigured "JaCoCo already configured in pom.xml"), fs).
Proof.
  intros Hpom Hj.
  assert (Hst : FS.stat fs (pom_path project_dir) = Some (File text)).
  { rewrite pom_path_parts, stat_snoc, <- pom_path_parts. exact Hpom. }
  unfold configure_jacoco. fold (pom_path project_dir).
  unfold FS.exists_. rewrite Hst, bool_decide_eq_true_2 by eauto. cbn [negb].
  unfold FS.read_text. rewrite Hst. fold (mentions_jacoco text). rewrite Hj. reflexivity.
Qed.

(** X19. On a build file that does not mention the plugin, in a project
    directory that is a directory, [configure_jacoco] reports the insertion
    and leaves the build file holding the text with the plugin inserted.
    The backup holds the original text when there was none before; a backup
    that already exists is left as it is. No other path changes. *)
Theorem configure_jacoco_inserts (project_dir : string) (fs : filesystem) (text : string) :
  let result := configure_jacoco project_dir fs in
  fs !! pom_path project_dir = Some (File text) ->
  mentions_jacoco text = false ->
  FS.is_dir fs (Path.of_str project_dir) = true ->
  (exists msg, result.1 = Return (Inserted msg))
  /\ result.2 !! pom_path project_dir = Some (File (insert_plugin text))
  /\ result.2 !! backup_path project_dir
     = (if FS.exists_ fs (backup_path project_dir) then fs !! backup_path project_dir
        else Some (File text))
  /\ (forall q : path, q <> pom_path project_dir -> q <> backup_path project_dir ->
        result.2 !! q = fs !! q).
Proof.
  intros result Hpom Hj Hdir. subst result.
  rewrite (configure_jacoco_spec _ _ _ Hpom Hj Hdir). cbn [fst snd].
  split; [eauto|]. split; [apply lookup_insert_eq|].
  split.
  - rewrite lookup_insert_ne by apply pom_backup_differ.
    destruct (FS.exists_ fs (backup_path project_dir)); [reflexivity|apply lookup_insert_eq].
  - intros q Hq Hq'. rewrite lookup_insert_ne by (apply not_eq_sym, Hq).
    destruct (FS.exists_ fs (backup_path project_dir)); [reflexivity|].
    apply lookup_insert_ne, not_eq_sym, Hq'.
Qed.

(** X20. When the build file has a place for the plugin (a [<build>]
    element or the closing [</project>] tag), a second call after an
    insertion finds the plugin, reports that it is already configured and
    changes nothing. *)
Theorem configure_jacoco_second_run (project_dir : string) (fs : filesystem) (text : string) :
  let first := configure_jacoco project_dir fs in
  fs !! pom_path project_dir = Some (File text) ->
  mentions_jacoco text = false ->
  FS.is_dir fs (Path.of_str project_dir) = true ->
  has_anchor text = true ->
  exists msg, configure_jacoco project_dir first.2 = (Return (AlreadyConfigured msg), first.2).
Proof.
  intros first Hpom Hj Hdir Ha. subst first.
  rewrite (configure_jacoco_spec _ _ _ Hpom Hj Hdir). cbn [snd].
  eexists. eapply configure_jacoco_configured.
  - apply lookup_insert_eq.
  - apply insert_plugin_mentions, Ha.
Qed.

(** X21. When the build file has neither a [<build>] element nor the
    closing [</project>] tag, [configure_jacoco] still reports that the
    plugin was inserted, although the build file holds the same text as
    before; the next call reports an insertion again. *)
Theorem configure_jacoco_no_anchor (project_dir : string) (fs : filesystem) (text : string) :
  let first := configure_jacoco project_dir fs in
  fs !! pom_path project_dir = Some (File text) ->
  mentions_jacoco text = false ->
  FS.is_dir fs (Path.of_str project_dir) = true ->
  has_anchor text = false ->
  (exists msg, first.1 = Return (Inserted msg))
  /\ first.2 !! pom_path project_dir = Some (File text)
  /\ (exists msg, (configure_jacoco project_dir first.2).1 = Return (Inserted msg)).
Proof.
  intros first Hpom Hj Hdir Ha. subst first.
  rewrite (configure_jacoco_spec _ _ _ Hpom Hj Hdir). cbn [fst snd].
  rewrite (insert_plugin_no_anchor _ Ha).
  split; [eauto|]. split; [apply lookup_insert_eq|].
  erewrite configure_jacoco_spec; [cbn [fst]; eauto|apply lookup_insert_eq|exact Hj|].
  apply is_dir_stat. rewrite stat_insert_other.
  - destruct (FS.exists_ fs (backup_path project_dir)); [apply is_dir_stat, Hdir|].
    rewrite stat_insert_other; [apply is_dir_stat, Hdir|].
    rewrite backup_path_parts. destruct (Path.of_str project_dir) as [r ps].
    apply not_eq_sym, snoc_differs.
  - rewrite pom_path_parts. destruct (Path.of_str project_dir) as [r ps].
    apply not_eq_sym, snoc_differs.
Qed.

(** X22. Whatever [configure_jacoco] returns or raises, it changes no
    path other than the build file and its backup. *)
Theorem configure_jacoco_frame (project_dir : string) (fs : filesystem) (q : path) :
  q <> pom_path project_dir -> q <> backup_path project_dir ->
  (configure_jacoco project_dir fs).2 !! q = fs !! q.
Proof.
  intros Hq Hq'. unfold configure_jacoco, backup_pom. fold (pom_path project_dir).
  rewrite pom_with_suffix.
  unfold Disk.replace, FS.write_text, FS.read_text.
  repeat case_match; simplify_eq; cbn [snd];
    rewrite ?(lookup_insert_ne _ (pom_path project_dir)) by (apply not_eq_sym, Hq);
    rewrite ?(lookup_insert_ne _ (backup_path project_dir)) by (apply not_eq_sym, Hq');
    rewrite ?(lookup_delete_ne _ (pom_path project_dir)) by (apply not_eq_sym, Hq);
    reflexivity.
Qed.

End PluginInsertion.

(** ** The fix proposal files *)

Definition is_file (o : option node) : bool :=
  match o with Some (File _) => true | _ => false end.

(** No path from the root down to [(root, rev rparts)] is a regular file. *)
Fixpoint clear_way (fs : filesystem) (root : string) (rparts : list string) : bool :=
  negb (is_file (FS.stat fs (root, rev rparts)))
  && match rparts with
     | [] => true
     | _ :: rparent => clear_way fs root rparent
     end.

(** A directory can be made at [p], with its parents. *)
Definition can_mkdir (fs : filesystem) (p : path) : bool := clear_way fs p.1 (rev p.2).

Fixpoint no_slash (s : string) : bool :=
  match s with
  | String c rest => negb (Ascii.eqb c "/") && no_slash rest
  | EmptyString => true
  end.

Section ProposalFiles.

Variable Failures : Type.
Variable json_dumps : Z -> Failures -> string.

Lemma no_slash_app a b : no_slash (a ++ b) = no_slash a && no_slash b.
Proof.
  induction a as [|c a IH]; [reflexivity|].
  rewrite append_cons. cbn [no_slash]. rewrite IH. apply andb_assoc.
Qed.

Lemma no_slash_uint d : no_slash (NilEmpty.string_of_uint d) = true.
Proof. induction d; cbn [NilEmpty.string_of_uint no_slash]; auto. Qed.

Lemma no_slash_of_int n : no_slash (PyStr.of_int n) = true.
Proof.
  unfold PyStr.of_int, NilZero.string_of_int, NilZero.string_of_uint.
  destruct (Z.to_int n) as [d|d]; destruct d; try reflexivity;
    apply (no_slash_uint (_ _)) || (cbn [no_slash]; apply (no_slash_uint (_ _))).
Qed.

Lemma split_from_plain cur s :
  no_slash s = true -> PyStr.split_from "/" cur s = [(cur ++ s)%string].
Proof.
  revert cur. induction s as [|c s IH]; intros cur.
  - intros _. cbn [PyStr.split_from]. f_equal. clear. induction cur as [|a cur IH]; [reflexivity|].
    rewrite append_cons, <- IH. reflexivity.
  - cbn [no_slash PyStr.split_from]. intros Hn. apply andb_true_iff in Hn as [Hc Hs].
    apply negb_true_iff in Hc. rewrite Hc, (IH _ Hs). f_equal. unfold PyStr.snoc.
    clear. induction cur as [|a cur IH]; [reflexivity|].
    rewrite !append_cons, IH. reflexivity.
Qed.

Lemma of_str_plain c s :
  Ascii.eqb c "/" = false -> no_slash s = true -> s <> EmptyString ->
  Path.of_str (String c s) = (EmptyString, [String c s]).
Proof.
  intros Hc Hs Hne. unfold Path.of_str. f_equal.
  - unfold Path.root_of, Path.count_slashes. rewrite Hc, Nat.sub_diag. reflexivity.
  - unfold Path.parts_of, PyStr.split. rewrite split_from_plain.
    + change (EmptyString ++ String c s)%string with (String c s).
      cbn [List.filter]. unfold Path.is_component. cbn [PyStr.is_empty negb andb].
      destruct s as [|c' s']; [congruence|].
      destruct (String.eqb_spec (String c (String c' s')) "."); [discriminate|reflexivity].
    + cbn [no_slash]. rewrite Hc, Hs. reflexivity.
Qed.

Lemma proposal_name_path base n ext :
  no_slash ext = true ->
  Path.joinpath base ("proposal_" ++ PyStr.of_int n ++ ext)
  = (base.1, (base.2 ++ [("proposal_" ++ PyStr.of_int n ++ ext)%string])%list).
Proof.
  intros Hext. unfold Path.joinpath.
  change ("proposal_" ++ PyStr.of_int n ++ ext)%string
    with (String "p" ("roposal_" ++ PyStr.of_int n ++ ext)).
  rewrite of_str_plain; [reflexivity|reflexivity| |].
  - rewrite !no_slash_app, no_slash_of_int, Hext. reflexivity.
  - discriminate.
Qed.

Lemma append_inv_head s a b : (s ++ a)%string = (s ++ b)%string -> a = b.
Proof.
  induction s as [|c s IH]; [auto|]. rewrite !append_cons. intros [= E]. auto.
Qed.

Lemma meta_path_parts project_dir n :
  meta_path project_dir n
  = ((proposal_dir project_dir).1,
     ((proposal_dir project_dir).2 ++ [("proposal_" ++ PyStr.of_int n ++ ".json")%string])%list).
Proof. unfold meta_path. apply proposal_name_path. reflexivity. Qed.

Lemma patch_path_parts project_dir n :
  patch_path project_dir n
  = ((proposal_dir project_dir).1,
     ((proposal_dir project_dir).2 ++ [("proposal_" ++ PyStr.of_int n ++ ".patch")%string])%list).
Proof. unfold patch_path. apply proposal_name_path. reflexivity. Qed.

Lemma meta_patch_differ project_dir n : meta_path project_dir n <> patch_path project_dir n.
Proof.
  rewrite meta_path_parts, patch_path_parts. intros [= E].
  apply app_inv_head in E. injection E as E.
  apply append_inv_head, append_inv_head in E. discriminate E.
Qed.

(** What [mkdir_parents_rev] changes: directories on the way, where there
    was nothing. *)
Definition made_dirs (root : string) (depth : nat) (fs fs' : filesystem) : Prop :=
  forall q : path,
    fs' !! q = fs !! q
    \/ (fs !! q = None /\ fs' !! q = Some Dir /\ q.1 = root /\ (List.length q.2 <= depth)%nat).

Lemma made_dirs_refl (root : string) (depth : nat) (fs : filesystem) : made_dirs root depth fs fs.
Proof. intros q. left. reflexivity. Qed.

Lemma made_dirs_trans (root : string) (d1 d2 : nat) (fs1 fs2 fs3 : filesystem) :
  (d1 <= d2)%nat -> made_dirs root d1 fs1 fs2 -> made_dirs root d2 fs2 fs3 ->
  made_dirs root d2 fs1 fs3.
Proof.
  intros Hle H12 H23 q. destruct (H23 q) as [E|(Hn & Hd & Hr & Hl)].
  - rewrite E. destruct (H12 q) as [E'|(Hn & Hd & Hr & Hl)]; [left; exact E'|].
    right. repeat split; auto. lia.
  - destruct (H12 q) as [E'|(Hn' & Hd' & _)]; [|congruence].
    right. rewrite <- E'. auto.
Qed.

Lemma os_mkdir_made (fs fs' : filesystem) (root : string) (parts : list string) :
  FS.os_mkdir fs (root, parts) = inr fs' -> made_dirs root (List.length parts) fs fs'.
Proof.
  unfold FS.os_mkdir. destruct (FS.stat fs (root, parts)) eqn:Hp; [discriminate|].
  destruct (FS.stat fs (FS.parent (root, parts))) as [[|text]|]; try discriminate.
  intros [= <-] q. destruct (decide (q = (root, parts))) as [->|Hq].
  - right. rewrite lookup_insert_eq. unfold FS.stat in Hp. cbn [snd] in *.
    destruct parts; [discriminate|]. auto.
  - left. apply lookup_insert_ne, not_eq_sym, Hq.
Qed.

Lemma mkdir_exist_ok_made (fs fs' : filesystem) (root : string) (parts : list string) :
  FS.mkdir_exist_ok fs (root, parts) = Return fs' ->
  made_dirs root (List.length parts) fs fs'.
Proof.
  unfold FS.mkdir_exist_ok. destruct (FS.os_mkdir fs (root, parts)) as [e|fs1] eqn:Hmk.
  - destruct e; try discriminate;
      (destruct (FS.is_dir fs (root, parts)); [|discriminate]);
      intros [= <-]; apply made_dirs_refl.
  - intros [= <-]. apply os_mkdir_made, Hmk.
Qed.

Lemma mkdir_parents_rev_made (fs fs' : filesystem) (root : string) (rparts : list string) :
  FS.mkdir_parents_rev fs root rparts = Return fs' ->
  made_dirs root (List.length rparts) fs fs'.
Proof.
  revert fs'. induction rparts as [|part rparent IH]; intros fs'.
  - cbn [FS.mkdir_parents_rev].
    destruct (FS.os_mkdir fs (root, rev [])) as [e|fs1] eqn:Hmk.
    + destruct e; try discriminate;
        (destruct (FS.is_dir fs (root, rev [])); [|discriminate]);
        intros [= <-]; apply made_dirs_refl.
    + intros [= <-]. apply os_mkdir_made in Hmk. exact Hmk.
  - cbn [FS.mkdir_parents_rev].
    destruct (FS.os_mkdir fs (root, rev (part :: rparent))) as [e|fs1] eqn:Hmk.
    + destruct e;
        try ((destruct (FS.is_dir fs (root, rev (part :: rparent))); [|discriminate]);
             intros [= <-]; apply made_dirs_refl).
      destruct (FS.mkdir_parents_rev fs root rparent) as [fs1|e] eqn:Hrec; [|discriminate].
      unfold mbind, outcome_bind. intros Hok.
      apply mkdir_exist_ok_made in Hok. rewrite length_rev in Hok.
      eapply made_dirs_trans; [|apply IH; reflexivity|exact Hok]. simpl. lia.
    + intros [= <-]. apply os_mkdir_made in Hmk. rewrite length_rev in Hmk. exact Hmk.
Qed.

Lemma mkdir_parents_made (fs fs' : filesystem) (p : path) :
  FS.mkdir_parents fs p = Return fs' -> made_dirs p.1 (List.length p.2) fs fs'.
Proof.
  unfold FS.mkdir_parents. intros Hmk. apply mkdir_parents_rev_made in Hmk.
  rewrite length_rev in Hmk. exact Hmk.
Qed.

Lemma stat_made (root : string) (depth : nat) (fs fs' : filesystem) (q : path) :
  made_dirs root depth fs fs' ->
  FS.stat fs' q = FS.stat fs q \/ (FS.stat fs q = None /\ FS.stat fs' q = Some Dir).
Proof.
  intros Hm. unfold FS.stat. destruct q.2 eqn:Hq; [left; reflexivity|].
  destruct (Hm q) as [E|(Hn & Hd & _)]; auto.
Qed.

(** [mkdir_parents_rev] succeeds when no regular file is in the way. *)
Lemma mkdir_parents_rev_clear (fs : filesystem) (root : string) (rparts : list string) :
  clear_way fs root rparts = true ->
  exists fs', FS.mkdir_parents_rev fs root rparts = Return fs'.
Proof.
  induction rparts as [|part rparent IH]; cbn [clear_way]; intros Hc;
    apply andb_true_iff in Hc as [Hp Hrest]; apply negb_true_iff in Hp.
  - cbn [FS.mkdir_parents_rev]. unfold FS.os_mkdir, FS.is_dir.
    change (FS.stat fs (root, rev [])) with (Some Dir). eauto.
  - cbn [FS.mkdir_parents_rev]. unfold FS.os_mkdir, FS.is_dir.
    destruct (FS.stat fs (root, rev (part :: rparent))) as [[|text]|] eqn:Hst;
      [eauto|discriminate|].
    assert (Hpar : FS.parent (root, rev (part :: rparent)) = (root, rev rparent)).
    { unfold FS.parent. cbn [fst snd rev]. rewrite List.removelast_last. reflexivity. }
    rewrite Hpar.
    assert (Hup : clear_way fs root rparent = true) by exact Hrest.
    destruct (FS.stat fs (root, rev rparent)) as [[|text]|] eqn:Hup'; [eauto| |].
    { destruct rparent; cbn [clear_way] in Hup; rewrite Hup' in Hup; discriminate. }
    destruct (IH Hup) as [fs1 Hrec]. rewrite Hrec. unfold mbind, outcome_bind.
    pose proof (mkdir_parents_rev_incl _ _ _ _ Hrec) as [_ Hd1].
    pose proof (mkdir_parents_rev_made _ _ _ _ Hrec) as Hm.
    unfold FS.mkdir_exist_ok, FS.os_mkdir, FS.is_dir. rewrite Hpar.
    apply is_dir_stat in Hd1. rewrite Hd1.
    destruct (stat_made _ _ _ _ (root, rev (part :: rparent)) Hm) as [E|[_ E]];
      rewrite E; [rewrite Hst|]; eauto.
Qed.

Lemma mkdir_parents_clear (fs : filesystem) (p : path) :
  can_mkdir fs p = true ->
  exists fs', FS.mkdir_parents fs p = Return fs'
              /\ fs ⊆ fs' /\ FS.is_dir fs' p = true
              /\ made_dirs p.1 (List.length p.2) fs fs'.
Proof.
  intros Hc. destruct (mkdir_parents_rev_clear _ _ _ Hc) as [fs' Hmk].
  exists fs'. split; [exact Hmk|].
  destruct (mkdir_parents_incl _ _ _ Hmk) as [Hsub Hd].
  split; [exact Hsub|]. split; [exact Hd|]. apply mkdir_parents_made, Hmk.
Qed.

Lemma made_dirs_below (root : string) (parts : list string) (name : string) (fs fs' : filesystem) :
  made_dirs root (List.length parts) fs fs' ->
  fs' !! (root, (parts ++ [name])%list) = fs !! (root, (parts ++ [name])%list).
Proof.
  intros Hm. destruct (Hm (root, (parts ++ [name])%list)) as [E|(_ & _ & _ & Hl)]; [exact E|].
  cbn [snd] in Hl. rewrite List.length_app in Hl. simpl in Hl. lia.
Qed.

Lemma write_text_child (fs : filesystem) (root : string) (parts : list string) (name text : string) :
  FS.is_dir fs (root, parts) = true ->
  fs !! (root, (parts ++ [name])%list) <> Some Dir ->
  FS.write_text fs (root, (parts ++ [name])%list) text
  = Return (<[(root, (parts ++ [name])%list) := File text]> fs).
Proof.
  intros Hd Hn. unfold FS.write_text. rewrite stat_snoc, parent_snoc.
  apply is_dir_stat in Hd. rewrite Hd.
  destruct (fs !! (root, (parts ++ [name])%list)) as [[|t]|]; [congruence|reflexivity|reflexivity].
Qed.

(** X23. When no regular file is in the way of the proposal directory
    and neither proposal path is a directory, [_write_fix_proposal]
    returns the path of the JSON file as a string; afterwards the JSON file
    holds the serialised record, the patch file holds the placeholder
    text (replacing what either held before), the proposal directory is a
    directory, every other entry that was there is kept, and what else is
    new is a directory. *)
Theorem write_fix_proposal_files (failures : Failures) (project_dir : string)
    (iteration : Z) (fs : filesystem) :
  let result := _write_fix_proposal Failures json_dumps failures project_dir iteration fs in
  let meta := meta_path project_dir iteration in
  let patch := patch_path project_dir iteration in
  can_mkdir fs (proposal_dir project_dir) = true ->
  fs !! meta <> Some Dir ->
  fs !! patch <> Some Dir ->
  result.1 = Return (Path.to_str meta)
  /\ result.2 !! meta = Some (File (json_dumps iteration failures))
  /\ result.2 !! patch = Some (File patch_text)
  /\ FS.is_dir result.2 (proposal_dir project_dir) = true
  /\ (forall q : path, q <> meta -> q <> patch ->
        result.2 !! q = fs !! q \/ (fs !! q = None /\ result.2 !! q = Some Dir)).
Proof.
  intros result meta patch Hc Hmeta Hpatch. subst result.
  destruct (mkdir_parents_clear _ _ Hc) as (fs1 & Hmk & Hsub & Hd & Hm).
  unfold _write_fix_proposal. rewrite Hmk. fold meta patch.
  assert (Emeta : meta = ((proposal_dir project_dir).1,
            ((proposal_dir project_dir).2 ++ [("proposal_" ++ PyStr.of_int iteration ++ ".json")%string])%list))
    by apply meta_path_parts.
  assert (Epatch : patch = ((proposal_dir project_dir).1,
            ((proposal_dir project_dir).2 ++ [("proposal_" ++ PyStr.of_int iteration ++ ".patch")%string])%list))
    by apply patch_path_parts.
  assert (Hne : meta <> patch) by apply meta_patch_differ.
  assert (Hd' : FS.is_dir fs1 ((proposal_dir project_dir).1, (proposal_dir project_dir).2) = true).
  { destruct (proposal_dir project_dir); exact Hd. }
  assert (Hw1 : FS.write_text fs1 meta (json_dumps iteration failures)
                = Return (<[meta := File (json_dumps iteration failures)]> fs1)).
  { rewrite Emeta. apply write_text_child; [exact Hd'|].
    rewrite (made_dirs_below _ _ _ _ _ Hm), <- Emeta. exact Hmeta. }
  rewrite Hw1.
  set (fs2 := <[meta := File (json_dumps iteration failures)]> fs1).
  assert (Hd2 : FS.is_dir fs2 ((proposal_dir project_dir).1, (proposal_dir project_dir).2) = true).
  { apply is_dir_stat. subst fs2. rewrite stat_insert_other; [apply is_dir_stat, Hd'|].
    rewrite Emeta. apply not_eq_sym, snoc_differs. }
  assert (Hw2 : FS.write_text fs2 patch patch_text = Return (<[patch := File patch_text]> fs2)).
  { rewrite Epatch. apply write_text_child; [exact Hd2|].
    rewrite <- Epatch. subst fs2. rewrite lookup_insert_ne by exact Hne.
    rewrite Epatch, (made_dirs_below _ _ _ _ _ Hm), <- Epatch. exact Hpatch. }
  rewrite Hw2. cbn [fst snd].
  split; [reflexivity|]. split.
  { rewrite lookup_insert_ne by (apply not_eq_sym, Hne). subst fs2. apply lookup_insert_eq. }
  split; [apply lookup_insert_eq|]. split.
  { apply is_dir_stat. rewrite stat_insert_other.
    - apply is_dir_stat. destruct (proposal_dir project_dir); exact Hd2.
    - rewrite Epatch. destruct (proposal_dir project_dir). apply not_eq_sym, snoc_differs. }
  intros q Hq Hq'. subst fs2.
  rewrite lookup_insert_ne by (apply not_eq_sym, Hq').
  rewrite lookup_insert_ne by (apply not_eq_sym, Hq).
  destruct (Hm q) as [E|(Hn & Hdq & _)]; auto.
Qed.

(** X24. Whatever [_write_fix_proposal] returns or raises, every entry of
    the file system other than the two proposal files is kept as it was. *)
Theorem write_fix_proposal_keeps (failures : Failures) (project_dir : string)
    (iteration : Z) (fs : filesystem) (q : path) (n : node) :
  let result := _write_fix_proposal Failures json_dumps failures project_dir iteration fs in
  q <> meta_path project_dir iteration ->
  q <> patch_path project_dir iteration ->
  fs !! q = Some n ->
  result.2 !! q = Some n.
Proof.
  intros result Hq Hq' Hl. subst result. unfold _write_fix_proposal.
  destruct (FS.mkdir_parents fs (proposal_dir project_dir)) as [fs1|e] eqn:Hmk; [|exact Hl].
  destruct (mkdir_parents_incl _ _ _ Hmk) as [Hsub _].
  assert (Hl1 : fs1 !! q = Some n) by (eapply lookup_weaken; eauto).
  unfold FS.write_text.
  repeat case_match; simplify_eq; cbn [snd];
    rewrite ?lookup_insert_ne by (apply not_eq_sym; assumption); exact Hl1.
Qed.

End ProposalFiles.

(** ** The failures of the test reports *)

(** The entry that line 399 appends for a test case, if it appends one. *)
Definition entry_of (tc : xelement) : option test_failure :=
  match failure_of tc with
  | Some failure =>
      Some {| tf_classname := XET.get tc "classname"; tf_name := XET.get tc "name";
              tf_message := or_default (XET.get failure "message") EmptyString;
              tf_stacktrace := or_default (XET.text failure) EmptyString |}
  | None => None
  end.

(** The entries of one decoded report, in document order. *)
Definition report_failures (root : xelement) : list test_failure :=
  omap entry_of (XET.findall_desc root "testcase").

Section SurefireReports.

Variable xml_decode_text : string -> outcome xelement.

(** The root of a report file that can be read and decoded. *)
Definition decoded (fs : filesystem) (xml_file : path) : option xelement :=
  match (text ← FS.read_text fs xml_file; xml_decode_text text) with
  | Return root => Some root
  | Raise _ => None
  end.

Definition file_failures (fs : filesystem) (xml_file : path) : list test_failure :=
  match decoded fs xml_file with
  | Some root => report_failures root
  | None => []
  end.

Lemma scan_testcases_spec testcases failures :
  scan_testcases testcases failures = (failures ++ omap entry_of testcases)%list.
Proof.
  revert failures. induction testcases as [|tc rest IH]; intros failures.
  - cbn. rewrite app_nil_r. reflexivity.
  - cbn [scan_testcases].
    change (omap entry_of (tc :: rest))
      with (match entry_of tc with
            | Some y => y :: omap entry_of rest
            | None => omap entry_of rest
            end).
    destruct (failure_of tc) as [failure|] eqn:Hf.
    + assert (He : entry_of tc
                   = Some {| tf_classname := XET.get tc "classname";
                             tf_name := XET.get tc "name";
                             tf_message := or_default (XET.get failure "message") EmptyString;
                             tf_stacktrace := or_default (XET.text failure) EmptyString |})
        by (unfold entry_of; rewrite Hf; reflexivity).
      rewrite He, IH, <- app_assoc. reflexivity.
    + assert (He : entry_of tc = None) by (unfold entry_of; rewrite Hf; reflexivity).
      rewrite He. apply IH.
Qed.

Lemma scan_reports_spec (fs : filesystem) xml_files failures :
  scan_reports xml_decode_text fs xml_files failures
  = (failures ++ flat_map (file_failures fs) xml_files)%list.
Proof.
  revert failures. induction xml_files as [|xml_file rest IH]; intros failures.
  - cbn. rewrite app_nil_r. reflexivity.
  - cbn [scan_reports flat_map].
    destruct (text ← FS.read_text fs xml_file; xml_decode_text text) as [root|e] eqn:Hdec.
    + assert (Hf : file_failures fs xml_file = omap entry_of (XET.findall_desc root "testcase"))
        by (unfold file_failures, decoded; rewrite Hdec; reflexivity).
      rewrite Hf, IH, scan_testcases_spec, <- app_assoc. reflexivity.
    + assert (Hf : file_failures fs xml_file = [])
        by (unfold file_failures, decoded; rewrite Hdec; reflexivity).
      rewrite Hf. apply IH.
Qed.

Lemma surefire_by_file (project_dir : string) (fs : filesystem) :
  _parse_surefire_reports xml_decode_text project_dir fs
  = if FS.exists_ fs (reports_dir project_dir)
    then flat_map (file_failures fs) (Disk.glob fs (reports_dir project_dir) is_xml)
    else [].
Proof.
  unfold _parse_surefire_reports.
  destruct (FS.exists_ fs (reports_dir project_dir)); [|reflexivity].
  cbn [negb]. apply scan_reports_spec.
Qed.

(** X25. [_parse_surefire_reports] returns no failure when the reports
    directory does not exist. Otherwise it returns, for the report files
    directly in it in listing order, the entries of each report that can be
    read and decoded, in document order; a file that cannot be read or
    decoded contributes nothing and does not stop the scan. *)
Theorem parse_surefire_reports_by_file (project_dir : string) (fs : filesystem) :
  _parse_surefire_reports xml_decode_text project_dir fs
  = if FS.exists_ fs (reports_dir project_dir)
    then flat_map (file_failures fs) (Disk.glob fs (reports_dir project_dir) is_xml)
    else [].
Proof. apply surefire_by_file. Qed.

(** A test case whose failure is a text-only [failure] element. *)
Definition text_only_failure (tc : xelement) : Prop :=
  XET.find tc "error" = None
  /\ forall failure, XET.find tc "failure" = Some failure -> XET.children failure = [].

Lemma entry_of_text_only tc : text_only_failure tc -> entry_of tc = None.
Proof.
  intros [Herr Hf]. unfold entry_of, failure_of. rewrite Herr.
  destruct (XET.find tc "failure") as [failure|]; [|reflexivity].
  unfold XET.truthy. rewrite (Hf failure eq_refl). reflexivity.
Qed.

Lemma omap_none {A B} (f : A -> option B) (l : list A) :
  (forall x, In x l -> f x = None) -> omap f l = [].
Proof.
  induction l as [|x l IH]; intros Hall; [reflexivity|].
  cbn [omap list_omap]. rewrite (Hall x (or_introl eq_refl)).
  apply IH. intros y Hy. apply Hall. right. exact Hy.
Qed.

Lemma flat_map_nil {A B} (f : A -> list B) (l : list A) :
  (forall x, In x l -> f x = []) -> flat_map f l = [].
Proof.
  induction l as [|x l IH]; intros Hall; [reflexivity|].
  cbn [flat_map]. rewrite (Hall x (or_introl eq_refl)).
  apply IH. intros y Hy. apply Hall. right. exact Hy.
Qed.

(** X26. A [failure] element that has text but no child elements counts
    as false, so the scan falls through to the [error] element. When every
    test case of every decodable report has no [error] child and a
    [failure] child, if any, without child elements, no failure is
    reported at all. *)
Theorem parse_surefire_reports_text_only (project_dir : string) (fs : filesystem) :
  (forall xml_file root tc,
     In xml_file (Disk.glob fs (reports_dir project_dir) is_xml) ->
     decoded fs xml_file = Some root ->
     In tc (XET.findall_desc root "testcase") ->
     text_only_failure tc) ->
  _parse_surefire_reports xml_decode_text project_dir fs = [].
Proof.
  intros Hall. rewrite surefire_by_file.
  destruct (FS.exists_ fs (reports_dir project_dir)); [|reflexivity].
  apply flat_map_nil. intros xml_file Hin. unfold file_failures.
  destruct (decoded fs xml_file) as [root|] eqn:Hdec; [|reflexivity].
  apply omap_none. intros tc Htc. apply entry_of_text_only. eauto.
Qed.

(** X27. When a test case of a decodable report has an [error] child and
    its [failure] child, if any, has no child elements, the entry reported
    for it carries the message and the text of the [error] element. *)
Theorem parse_surefire_reports_error (project_dir : string) (fs : filesystem)
    (xml_file : path) (root tc err : xelement) :
  FS.exists_ fs (reports_dir project_dir) = true ->
  In xml_file (Disk.glob fs (reports_dir project_dir) is_xml) ->
  decoded fs xml_file = Some root ->
  In tc (XET.findall_desc root "testcase") ->
  XET.find tc "error" = Some err ->
  (forall failure, XET.find tc "failure" = Some failure -> XET.children failure = []) ->
  In {| tf_classname := XET.get tc "classname"; tf_name := XET.get tc "name";
        tf_message := or_default (XET.get err "message") EmptyString;
        tf_stacktrace := or_default (XET.text err) EmptyString |}
     (_parse_surefire_reports xml_decode_text project_dir fs).
Proof.
  intros Hex Hin Hdec Htc Herr Hf.
  rewrite surefire_by_file, Hex.
  apply in_flat_map. exists xml_file. split; [exact Hin|].
  unfold file_failures. rewrite Hdec. unfold report_failures.
  apply list_elem_of_In, list_elem_of_omap. exists tc.
  split; [apply list_elem_of_In, Htc|].
  unfold entry_of, failure_of. rewrite Herr.
  destruct (XET.find tc "failure") as [failure|]; [|reflexivity].
  unfold XET.truthy. rewrite (Hf failure eq_refl). reflexivity.
Qed.

End SurefireReports.

(** ** What the skeleton generator adds *)

(** The number of regular files. *)
Definition file_count (fs : filesystem) : nat :=
  size (filter (fun kv : path * node => Is_true (is_file (Some kv.2))) fs).

Section SkeletonFiles.

Context `{Runtime}.

Lemma generate_loop_directory (test_root : path) (java_files : list path) (fs : filesystem)
    (created : Z) (d : path) :
  d ∈ java_files -> FS.stat fs d = Some Dir ->
  exists e, (generate_loop test_root java_files fs created).1 = Raise e.
Proof.
  revert fs created. induction java_files as [|java_file rest IH]; intros fs created Hin Hd.
  - apply elem_of_nil in Hin. destruct Hin.
  - cbn [generate_loop].
    destruct (generate_one test_root java_file fs) as [[n|e] fs'] eqn:Hone; [|eauto].
    apply elem_of_cons in Hin as [->|Hin].
    + unfold generate_one, FS.read_text in Hone. rewrite Hd in Hone. discriminate Hone.
    + destruct (generate_one_incl _ _ _ _ _ Hone) as [Hsub _].
      apply IH; [exact Hin|]. eapply stat_mono; eauto.
Qed.

(** X28. The listing of the sources goes by name only. When a directory
    below the source root has a name that ends in [.java], reading it
    fails: [generate_tests] raises instead of returning a result. *)
Theorem generate_tests_directory_entry (project_dir : string) (out_dir : option string)
    (fs : filesystem) (d : path) :
  FS.exists_ fs (source_root project_dir) = true ->
  Path.below (source_root project_dir) d = true ->
  is_java (Path.name d) = true ->
  fs !! d = Some Dir ->
  exists e, (generate_tests project_dir out_dir fs).1 = Raise e.
Proof.
  intros Hex Hb Hj Hd. unfold generate_tests. fold (source_root project_dir).
  rewrite Hex. cbn [negb].
  set (test_root := match out_dir with Some d0 => _ | None => _ end).
  destruct (generate_loop_directory test_root
              (FS.rglob fs (source_root project_dir) is_java) fs 0 d) as [e He].
  - apply rglob_elem. eauto.
  - unfold FS.stat. destruct d.2; [reflexivity|exact Hd].
  - exists e. destruct (generate_loop _ _ _ _) as [[n|e'] fs']; cbn [fst] in *; congruence.
Qed.

Lemma file_count_made (root : string) (depth : nat) (fs fs' : filesystem) :
  made_dirs root depth fs fs' -> file_count fs' = file_count fs.
Proof.
  intros Hm. unfold file_count. f_equal. apply map_eq. intros q.
  rewrite !map_lookup_filter.
  destruct (Hm q) as [E|(Hn & Hd & _)]; [rewrite E; reflexivity|].
  rewrite Hn, Hd. reflexivity.
Qed.

Lemma file_count_new_file (fs : filesystem) (p : path) text :
  fs !! p = None -> file_count (<[p := File text]> fs) = S (file_count fs).
Proof.
  intros Hn. unfold file_count.
  rewrite map_filter_insert_True by exact I.
  apply map_size_insert_None. apply map_lookup_filter_None. left. exact Hn.
Qed.

Lemma generate_one_count (test_root java_file : path) (fs fs' : filesystem) n :
  generate_one test_root java_file fs = (Return n, fs') ->
  Z.of_nat (file_count fs') = Z.of_nat (file_count fs) + n.
Proof.
  unfold generate_one.
  destruct (FS.read_text fs java_file) as [text|e]; [|discriminate].
  destruct (method_findall text) as [|m ms]; [intros [= <- <-]; lia|].
  cbv zeta.
  destruct (FS.mkdir_parents fs _) as [fs1|e] eqn:Hmk; [|discriminate].
  apply mkdir_parents_made, file_count_made in Hmk.
  destruct (FS.exists_ fs1 _) eqn:Hex; [intros [= <- <-]; lia|].
  unfold FS.write_text.
  match goal with |- context [FS.stat fs1 ?p] => set (test_file := p) in * end.
  assert (Hnone : FS.stat fs1 test_file = None).
  { unfold FS.exists_ in Hex. apply bool_decide_eq_false in Hex.
    destruct (FS.stat fs1 test_file); [exfalso; apply Hex; eauto|reflexivity]. }
  rewrite Hnone.
  assert (Hl : fs1 !! test_file = None).
  { unfold FS.stat in Hnone. destruct test_file.2; [discriminate|exact Hnone]. }
  destruct (FS.stat fs1 (FS.parent test_file)) as [[|t]|]; try discriminate.
  intros [= <- <-]. rewrite (file_count_new_file _ _ _ Hl). lia.
Qed.

Lemma generate_loop_count (test_root : path) (java_files : list path) (fs fs' : filesystem)
    created n :
  generate_loop test_root java_files fs created = (Return n, fs') ->
  Z.of_nat (file_count fs') = Z.of_nat (file_count fs) + (n - created).
Proof.
  revert fs created. induction java_files as [|java_file rest IH]; intros fs created.
  - intros [= <- <-]. lia.
  - cbn [generate_loop].
    destruct (generate_one test_root java_file fs) as [[k|e] fs1] eqn:Hone; [|discriminate].
    intros Hloop. apply IH in Hloop. apply generate_one_count in Hone. lia.
Qed.

(** X29. When [generate_tests] returns a count, the count is the number
    of regular files the call has added to the file system: directories it
    made and skeletons it found in place are not counted. *)
Theorem generate_tests_count (project_dir : string) (out_dir : option string)
    (fs fs' : filesystem) n :
  generate_tests project_dir out_dir fs = (Return (Generated n), fs') ->
  Z.of_nat (file_count fs') = Z.of_nat (file_count fs) + n.
Proof.
  unfold generate_tests.
  destruct (negb (FS.exists_ fs _)); [discriminate|].
  destruct (generate_loop _ _ _ _) as [[k|e] fs1] eqn:Hloop; [|discriminate].
  intros [= <- <-]. apply generate_loop_count in Hloop. lia.
Qed.

End SkeletonFiles.

(** ** More examples *)

Section MoreExamples.

Import Demo.
Import Workbench.

Lemma git_commit_threshold_inclusive_witness :
  nonblank_lines (stdout_text (run run_cmd staged_query "/work" (start staged_repo)).1) <> []
  /\ coverage_requested true (Some "cov85.xml") = Some "cov85.xml"
  /\ _compute_jacoco_coverage reports "cov85.xml" = CovOk cov85
  /\ git_commit run_cmd "Add Calc" "." true (Some "cov85.xml") (Some (percent cov85)) reports
       (start staged_repo)
     = (Return (CommitAttempted true quiet quiet (Some cov85)),
        {| world := committed "Add Calc | Coverage: 85.00% (85/100)";
           trace := [(staged_query, "/work");
                     (commit_cmd "Add Calc | Coverage: 85.00% (85/100)", "/work")] |}).
Proof.
  assert (Hs : nonblank_lines
                 (stdout_text (run run_cmd staged_query (abspath ".") (start staged_repo)).1)
               <> []) by (vm_compute; discriminate).
  assert (Hr : coverage_requested true (Some "cov85.xml") = Some "cov85.xml") by reflexivity.
  assert (Hc : _compute_jacoco_coverage reports "cov85.xml" = CovOk cov85)
    by (vm_compute; reflexivity).
  split; [exact Hs|]. split; [exact Hr|]. split; [exact Hc|].
  exact (git_commit_threshold_inclusive run_cmd "Add Calc" "." true (Some "cov85.xml")
           reports (start staged_repo) "cov85.xml" cov85 Hs Hr Hc).
Defined.

Lemma git_add_all_stages_eligible_witness :
  eligible "/work" default_exclude_patterns
    (stdout_text (run run_cmd status_query "/work" (start dirty_repo)).1) <> []
  /\ invoked (start dirty_repo) (git_add_all run_cmd "." None (start dirty_repo)).2
     = [(status_query, "/work"); (add_cmd ["src/Calc.java"], "/work"); (staged_query, "/work")].
Proof.
  assert (Hf : eligible (abspath ".") (default default_exclude_patterns None)
                 (stdout_text (run run_cmd status_query (abspath ".") (start dirty_repo)).1)
               <> []) by (vm_compute; discriminate).
  split; [exact Hf|].
  pose proof (git_add_all_stages_eligible run_cmd "." None (start dirty_repo) Hf)
    as (Hres & _ & _).
  rewrite Hres. vm_compute. reflexivity.
Defined.

Lemma git_add_all_empty_patterns_witness :
  changed_paths (stdout_text (run run_cmd status_query "/work" (start dirty_repo)).1) <> []
  /\ invoked (start dirty_repo) (git_add_all run_cmd "." (Some []) (start dirty_repo)).2
     = [(status_query, "/work");
        (add_cmd ["src/Calc.java"; "target/classes/Calc.class"; "build.log"], "/work");
        (staged_query, "/work")].
Proof.
  assert (Hf : changed_paths
                 (stdout_text (run run_cmd status_query (abspath ".") (start dirty_repo)).1)
               <> []) by (vm_compute; discriminate).
  split; [exact Hf|].
  exact (git_add_all_empty_patterns run_cmd "." (start dirty_repo) Hf).
Defined.

Lemma git_push_unknown_branch_witness :
  PyStr.strip (default EmptyString (stdout (run run_cmd branch_query "/work" (start unborn)).1))
  = EmptyString
  /\ git_push run_cmd "origin" "." (start unborn)
     = (UnknownBranch "Cannot determine current branch.",
        {| world := unborn; trace := [(branch_query, "/work")] |}).
Proof.
  assert (Hb : PyStr.strip (default EmptyString
                 (stdout (run run_cmd branch_query (abspath ".") (start unborn)).1))
               = EmptyString) by (vm_compute; reflexivity).
  split; [exact Hb|].
  exact (proj1 (git_push_unknown_branch run_cmd "origin" "." (start unborn) Hb)).
Defined.

Lemma coverage_malformed_counter_fails_witness :
  ET_parse reports (Path.of_str "broken.xml") = Return one_malformed
  /\ forallb integer_counter (line_counters one_malformed) = false
  /\ exists msg, _compute_jacoco_coverage reports "broken.xml" = CovFail msg.
Proof.
  assert (Hp : ET_parse reports (Path.of_str "broken.xml") = Return one_malformed)
    by (vm_compute; reflexivity).
  assert (Hi : forallb integer_counter (line_counters one_malformed) = false)
    by (vm_compute; reflexivity).
  split; [exact Hp|]. split; [exact Hi|].
  exact (coverage_malformed_counter_fails reports "broken.xml" one_malformed Hp Hi).
Defined.

Lemma coverage_ignores_other_counters_witness :
  @ET_parse runtime_more reports_more (Path.of_str "cov85.xml") = Return eighty_five
  /\ @ET_parse runtime_more reports_more (Path.of_str "more.xml") = Return eighty_five_more
  /\ line_counters eighty_five = line_counters eighty_five_more
  /\ match @_compute_jacoco_coverage runtime_more reports_more "cov85.xml",
           @_compute_jacoco_coverage runtime_more reports_more "more.xml" with
     | CovOk cov, CovOk cov' => cov = cov'
     | CovFail msg, CovFail msg' => msg = msg'
     | _, _ => False
     end.
Proof.
  assert (Hp : @ET_parse runtime_more reports_more (Path.of_str "cov85.xml")
               = Return eighty_five) by (vm_compute; reflexivity).
  assert (Hp' : @ET_parse runtime_more reports_more (Path.of_str "more.xml")
                = Return eighty_five_more) by (vm_compute; reflexivity).
  assert (Hl : line_counters eighty_five = line_counters eighty_five_more)
    by (vm_compute; reflexivity).
  split; [exact Hp|]. split; [exact Hp'|]. split; [exact Hl|].
  exact (@coverage_ignores_other_counters runtime_more reports_more reports_more
           "cov85.xml" "more.xml" eighty_five eighty_five_more Hp Hp' Hl).
Defined.

Lemma analyze_coverage_explicit_only_witness :
  PyStr.truthy "missing.xml" = true
  /\ FS.exists_ built (Path.of_str "missing.xml") = false
  /\ FS.exists_ built (Path.of_str "proj/target/site/jacoco/jacoco.xml") = true
  /\ analyze_coverage "proj" (Some "missing.xml") built
     = Return (ReportNotFound
         "JaCoCo XML report not found. Run Maven tests with JaCoCo enabled.").
Proof.
  assert (Hm : FS.exists_ built (Path.of_str "missing.xml") = false)
    by (vm_compute; reflexivity).
  split; [reflexivity|]. split; [exact Hm|]. split; [vm_compute; reflexivity|].
  exact (analyze_coverage_explicit_only "proj" "missing.xml" built eq_refl Hm).
Defined.


(** In the built project a report lies at the conventional location and
    is found by the listing; the project of the examples has no report
    anywhere and nothing is listed. *)
Example analyze_coverage_listing :
  FS.rglob built (Path.of_str "proj") (fun n => (n =? "jacoco.xml")%string)
  = [default_report "proj"]
  /\ first_existing built (candidates "proj" None built) = Some (default_report "proj")
  /\ FS.rglob reports (Path.of_str "proj") (fun n => (n =? "jacoco.xml")%string) = [].
Proof.
  split; [|split]; vm_compute; reflexivity.
Qed.

Lemma git_status_lists_witness :
  stdout (run tool status_branch_query "/work" (at_desk busy)).1 = Some (porcelain busy)
  /\ Forall (fun ln => (2 <= String.length ln)%nat) (status_entries (porcelain busy))
  /\ git_status tool "." (at_desk busy)
     = (Return busy_summary, {| world := busy; trace := [(status_branch_query, "/work")] |}).
Proof.
  assert (Hout : stdout (run tool status_branch_query (abspath ".") (at_desk busy)).1
                 = Some (porcelain busy)) by (vm_compute; reflexivity).
  assert (Hall : Forall (fun ln => (2 <= String.length ln)%nat)
                   (status_entries (porcelain busy))).
  { vm_compute. repeat (constructor; [lia|]). constructor. }
  pose proof (git_status_lists tool "." (at_desk busy) (porcelain busy) Hout Hall)
    as [Hres _].
  split; [exact Hout|]. split; [exact Hall|]. rewrite Hres. vm_compute. reflexivity.
Defined.

Lemma git_status_untracked_witness :
  stdout (run tool status_branch_query "/work" (at_desk busy)).1 = Some (porcelain busy)
  /\ In ("?? " ++ "notes.txt") (nonblank_lines (porcelain busy))
  /\ (git_status tool "." (at_desk busy)).1 = Return busy_summary
  /\ In "notes.txt" (st_staged busy_summary) /\ In "notes.txt" (st_unstaged busy_summary).
Proof.
  assert (Hout : stdout (run tool status_branch_query (abspath ".") (at_desk busy)).1
                 = Some (porcelain busy)) by (vm_compute; reflexivity).
  assert (Hin : In ("?? " ++ "notes.txt") (nonblank_lines (porcelain busy))).
  { vm_compute. do 3 right. left. reflexivity. }
  assert (Hret : (git_status tool "." (at_desk busy)).1 = Return busy_summary)
    by (vm_compute; reflexivity).
  pose proof (git_status_untracked tool "." (at_desk busy) (porcelain busy) "notes.txt"
                busy_summary Hout Hin Hret) as Hboth.
  split; [exact Hout|]. split; [exact Hin|]. split; [exact Hret|exact Hboth].
Defined.

(** A status command whose result holds no output. *)
Example git_status_without_output :
  git_status (fun _ _ (w : unit) =>
                ({| returncode := Some 128; stdout := None; stderr := Some "fatal" |}, w))
    "." {| world := tt; trace := [] |}
  = (Raise no_splitlines, {| world := tt; trace := [(status_branch_query, "/work")] |}).
Proof.
  vm_compute. reflexivity.
Qed.

Lemma git_status_conflicts_counted_witness :
  (git_status tool "." (at_desk busy)).1 = Return busy_summary
  /\ (forall p, In p (st_conflicts busy_summary) ->
        In p (st_staged busy_summary) \/ In p (st_unstaged busy_summary))
  /\ (st_clean busy_summary = true <->
      st_staged busy_summary = [] /\ st_unstaged busy_summary = []).
Proof.
  assert (Hret : (git_status tool "." (at_desk busy)).1 = Return busy_summary)
    by (vm_compute; reflexivity).
  pose proof (git_status_conflicts_counted tool "." (at_desk busy) busy_summary Hret) as Hc.
  split; [exact Hret|exact Hc].
Defined.

Lemma git_status_short_line_witness :
  stdout (run tool status_branch_query "/work" (at_desk clipped)).1 = Some (porcelain clipped)
  /\ In "M" (nonblank_lines (porcelain clipped))
  /\ String.length "M" = 1%nat
  /\ git_status tool "." (at_desk clipped)
     = (Raise index_error, {| world := clipped; trace := [(status_branch_query, "/work")] |}).
Proof.
  assert (Hout : stdout (run tool status_branch_query (abspath ".") (at_desk clipped)).1
                 = Some (porcelain clipped)) by (vm_compute; reflexivity).
  assert (Hin : In "M" (nonblank_lines (porcelain clipped))).
  { vm_compute. right. left. reflexivity. }
  pose proof (git_status_short_line tool "." (at_desk clipped) (porcelain clipped) "M"
                Hout Hin eq_refl) as Hres.
  split; [exact Hout|]. split; [exact Hin|]. split; [reflexivity|].
  rewrite Hres. vm_compute. reflexivity.
Defined.

Lemma git_pull_request_gh_missing_witness :
  exited_zero (run tool gh_probe "/work" (at_desk clipped)).1 = false
  /\ (exists msg, git_pull_request tool "main" None None "." (at_desk clipped)
                  = (Return (GhMissing msg), (run tool gh_probe "/work" (at_desk clipped)).2))
  /\ invoked (at_desk clipped) (git_pull_request tool "main" None None "." (at_desk clipped)).2
     = [(gh_probe, "/work")].
Proof.
  assert (Hz : exited_zero (run tool gh_probe (abspath ".") (at_desk clipped)).1 = false)
    by (vm_compute; reflexivity).
  pose proof (git_pull_request_gh_missing tool "main" None None "." (at_desk clipped) Hz)
    as Hres.
  split; [exact Hz|exact Hres].
Defined.

Lemma git_pull_request_creates_once_witness :
  exited_zero (run tool gh_probe "/work" (at_desk refused)).1 = true
  /\ invoked (at_desk refused)
       (git_pull_request tool "main" None (Some EmptyString) "." (at_desk refused)).2
     = [(gh_probe, "/work"); (gh_create "main" default_pr_title default_pr_body, "/work")]
  /\ (git_pull_request tool "main" None (Some EmptyString) "." (at_desk refused)).1
     = Return (PrFailed "gh CLI failed to create PR" (Some EmptyString) (Some EmptyString)).
Proof.
  assert (Hz : exited_zero (run tool gh_probe (abspath ".") (at_desk refused)).1 = true)
    by (vm_compute; reflexivity).
  pose proof (git_pull_request_creates_once tool "main" None (Some EmptyString) "."
                (at_desk refused) Hz) as [Hinv Hfail].
  split; [exact Hz|]. split; [exact Hinv|].
  rewrite Hfail; vm_compute; reflexivity.
Defined.

Lemma git_pull_request_url_witness :
  exited_zero (run tool gh_probe "/work" (at_desk busy)).1 = true
  /\ exited_zero
       (run tool (gh_create "main" "Ship it" default_pr_body) "/work"
          (run tool gh_probe "/work" (at_desk busy)).2).1 = true
  /\ stdout
       (run tool (gh_create "main" "Ship it" default_pr_body) "/work"
          (run tool gh_probe "/work" (at_desk busy)).2).1 = Some (gh_reply busy)
  /\ PyStr.strip (gh_reply busy) <> EmptyString
  /\ exists l url,
       (git_pull_request tool "main" (Some "Ship it") None "." (at_desk busy)).1
       = Return (PrCreated (Some url) (Some (gh_reply busy)))
       /\ PyStr.splitlines (PyStr.strip (gh_reply busy)) = (l ++ [url])%list
       /\ url <> EmptyString.
Proof.
  assert (Hp : exited_zero (run tool gh_probe (abspath ".") (at_desk busy)).1 = true)
    by (vm_compute; reflexivity).
  assert (Hc : exited_zero
            (run tool (gh_create "main" (or_default (Some "Ship it") default_pr_title)
                         (or_default None default_pr_body)) (abspath ".")
               (run tool gh_probe (abspath ".") (at_desk busy)).2).1 = true)
    by (vm_compute; reflexivity).
  assert (Ho : stdout
            (run tool (gh_create "main" (or_default (Some "Ship it") default_pr_title)
                         (or_default None default_pr_body)) (abspath ".")
               (run tool gh_probe (abspath ".") (at_desk busy)).2).1 = Some (gh_reply busy))
    by (vm_compute; reflexivity).
  assert (Hne : PyStr.strip (gh_reply busy) <> EmptyString) by (vm_compute; discriminate).
  pose proof (git_pull_request_url tool "main" (Some "Ship it") None "." (at_desk busy)
                (gh_reply busy) Hp Hc Ho Hne) as Hres.
  split; [exact Hp|]. split; [exact Hc|]. split; [exact Ho|]. split; [exact Hne|].
  exact Hres.
Defined.

(** The URL of that pull request is the last line printed. *)
Example git_pull_request_last_line :
  (git_pull_request tool "main" (Some "Ship it") None "." (at_desk busy)).1
  = Return (PrCreated (Some "https://github.com/acme/calc/pull/7") (Some (gh_reply busy))).
Proof.
  vm_compute. reflexivity.
Qed.

Lemma git_pull_request_blank_output_witness :
  exited_zero (run tool gh_probe "/work" (at_desk terse)).1 = true
  /\ exited_zero
       (run tool (gh_create "main" default_pr_title default_pr_body) "/work"
          (run tool gh_probe "/work" (at_desk terse)).2).1 = true
  /\ stdout
       (run tool (gh_create "main" default_pr_title default_pr_body) "/work"
          (run tool gh_probe "/work" (at_desk terse)).2).1 = Some (gh_reply terse)
  /\ gh_reply terse <> EmptyString
  /\ PyStr.strip (gh_reply terse) = EmptyString
  /\ (git_pull_request tool "main" None None "." (at_desk terse)).1 = Raise list_index_error
  /\ pulls (world (git_pull_request tool "main" None None "." (at_desk terse)).2)
     = [("main", default_pr_title)].
Proof.
  assert (Hp : exited_zero (run tool gh_probe (abspath ".") (at_desk terse)).1 = true)
    by (vm_compute; reflexivity).
  assert (Hc : exited_zero
            (run tool (gh_create "main" (or_default None default_pr_title)
                         (or_default None default_pr_body)) (abspath ".")
               (run tool gh_probe (abspath ".") (at_desk terse)).2).1 = true)
    by (vm_compute; reflexivity).
  assert (Ho : stdout
            (run tool (gh_create "main" (or_default None default_pr_title)
                         (or_default None default_pr_body)) (abspath ".")
               (run tool gh_probe (abspath ".") (at_desk terse)).2).1 = Some (gh_reply terse))
    by (vm_compute; reflexivity).
  assert (Hne : gh_reply terse <> EmptyString) by (vm_compute; discriminate).
  assert (Hs : PyStr.strip (gh_reply terse) = EmptyString) by (vm_compute; reflexivity).
  pose proof (git_pull_request_blank_output tool "main" None None "." (at_desk terse)
                (gh_reply terse) Hp Hc Ho Hne Hs) as Hres.
  split; [exact Hp|]. split; [exact Hc|]. split; [exact Ho|]. split; [exact Hne|].
  split; [exact Hs|]. rewrite Hres. split; vm_compute; reflexivity.
Defined.

Lemma configure_jacoco_inserts_witness :
  with_pom pom_with_plugins !! pom_path "proj" = Some (File pom_with_plugins)
  /\ mentions_jacoco pom_with_plugins = false
  /\ FS.is_dir (with_pom pom_with_plugins) (Path.of_str "proj") = true
  /\ let result := configure_jacoco "proj" (with_pom pom_with_plugins) in
     (exists msg, result.1 = Return (Inserted msg))
     /\ result.2 !! pom_path "proj" = Some (File (insert_plugin pom_with_plugins))
     /\ result.2 !! backup_path "proj"
        = (if FS.exists_ (with_pom pom_with_plugins) (backup_path "proj")
           then with_pom pom_with_plugins !! backup_path "proj"
           else Some (File pom_with_plugins))
     /\ (forall q : path, q <> pom_path "proj" -> q <> backup_path "proj" ->
           result.2 !! q = with_pom pom_with_plugins !! q).
Proof.
  assert (Hpom : with_pom pom_with_plugins !! pom_path "proj" = Some (File pom_with_plugins))
    by (vm_compute; reflexivity).
  assert (Hj : mentions_jacoco pom_with_plugins = false) by (vm_compute; reflexivity).
  assert (Hd : FS.is_dir (with_pom pom_with_plugins) (Path.of_str "proj") = true)
    by (vm_compute; reflexivity).
  pose proof (configure_jacoco_inserts "proj" (with_pom pom_with_plugins) pom_with_plugins
                Hpom Hj Hd) as Hres.
  split; [exact Hpom|]. split; [exact Hj|]. split; [exact Hd|exact Hres].
Defined.

(** The plugin goes right after the opening tag of the plugins. *)
Example configure_jacoco_text :
  insert_plugin pom_with_plugins
  = "<project><build><plugins>" ++ PyStr.nl ++ plugin_snippet
      ++ "</plugins></build></project>".
Proof.
  vm_compute. reflexivity.
Qed.

Lemma configure_jacoco_second_run_witness :
  with_pom pom_with_plugins !! pom_path "proj" = Some (File pom_with_plugins)
  /\ mentions_jacoco pom_with_plugins = false
  /\ FS.is_dir (with_pom pom_with_plugins) (Path.of_str "proj") = true
  /\ has_anchor pom_with_plugins = true
  /\ exists msg,
       configure_jacoco "proj" (configure_jacoco "proj" (with_pom pom_with_plugins)).2
       = (Return (AlreadyConfigured msg),
          (configure_jacoco "proj" (with_pom pom_with_plugins)).2).
Proof.
  assert (Hpom : with_pom pom_with_plugins !! pom_path "proj" = Some (File pom_with_plugins))
    by (vm_compute; reflexivity).
  assert (Hj : mentions_jacoco pom_with_plugins = false) by (vm_compute; reflexivity).
  assert (Hd : FS.is_dir (with_pom pom_with_plugins) (Path.of_str "proj") = true)
    by (vm_compute; reflexivity).
  assert (Ha : has_anchor pom_with_plugins = true) by (vm_compute; reflexivity).
  pose proof (configure_jacoco_second_run "proj" (with_pom pom_with_plugins) pom_with_plugins
                Hpom Hj Hd Ha) as Hres.
  split; [exact Hpom|]. split; [exact Hj|]. split; [exact Hd|]. split; [exact Ha|exact Hres].
Defined.

Lemma configure_jacoco_no_anchor_witness :
  with_pom pom_fragment !! pom_path "proj" = Some (File pom_fragment)
  /\ mentions_jacoco pom_fragment = false
  /\ FS.is_dir (with_pom pom_fragment) (Path.of_str "proj") = true
  /\ has_anchor pom_fragment = false
  /\ let first := configure_jacoco "proj" (with_pom pom_fragment) in
     (exists msg, first.1 = Return (Inserted msg))
     /\ first.2 !! pom_path "proj" = Some (File pom_fragment)
     /\ (exists msg, (configure_jacoco "proj" first.2).1 = Return (Inserted msg)).
Proof.
  assert (Hpom : with_pom pom_fragment !! pom_path "proj" = Some (File pom_fragment))
    by (vm_compute; reflexivity).
  assert (Hj : mentions_jacoco pom_fragment = false) by (vm_compute; reflexivity).
  assert (Hd : FS.is_dir (with_pom pom_fragment) (Path.of_str "proj") = true)
    by (vm_compute; reflexivity).
  assert (Ha : has_anchor pom_fragment = false) by (vm_compute; reflexivity).
  pose proof (configure_jacoco_no_anchor "proj" (with_pom pom_fragment) pom_fragment
                Hpom Hj Hd Ha) as Hres.
  split; [exact Hpom|]. split; [exact Hj|]. split; [exact Hd|]. split; [exact Ha|exact Hres].
Defined.

Lemma configure_jacoco_frame_witness :
  Path.of_str "proj/README.md" <> pom_path "proj"
  /\ Path.of_str "proj/README.md" <> backup_path "proj"
  /\ (configure_jacoco "proj" (with_pom pom_with_plugins)).2 !! Path.of_str "proj/README.md"
     = with_pom pom_with_plugins !! Path.of_str "proj/README.md".
Proof.
  assert (Hq : Path.of_str "proj/README.md" <> pom_path "proj")
    by (intros E; vm_compute in E; discriminate E).
  assert (Hq' : Path.of_str "proj/README.md" <> backup_path "proj")
    by (intros E; vm_compute in E; discriminate E).
  pose proof (configure_jacoco_frame "proj" (with_pom pom_with_plugins)
                (Path.of_str "proj/README.md") Hq Hq') as Hres.
  split; [exact Hq|]. split; [exact Hq'|exact Hres].
Defined.

Lemma write_fix_proposal_files_witness :
  can_mkdir (with_pom pom_fragment) (proposal_dir "proj") = true
  /\ with_pom pom_fragment !! meta_path "proj" 2 <> Some Dir
  /\ with_pom pom_fragment !! patch_path "proj" 2 <> Some Dir
  /\ let result :=
       _write_fix_proposal (list test_failure) dumps [] "proj" 2 (with_pom pom_fragment) in
     result.1 = Return (Path.to_str (meta_path "proj" 2))
     /\ result.2 !! meta_path "proj" 2 = Some (File (dumps 2 []))
     /\ result.2 !! patch_path "proj" 2 = Some (File patch_text)
     /\ FS.is_dir result.2 (proposal_dir "proj") = true
     /\ (forall q : path, q <> meta_path "proj" 2 -> q <> patch_path "proj" 2 ->
           result.2 !! q = with_pom pom_fragment !! q
           \/ (with_pom pom_fragment !! q = None /\ result.2 !! q = Some Dir)).
Proof.
  assert (Hc : can_mkdir (with_pom pom_fragment) (proposal_dir "proj") = true)
    by (vm_compute; reflexivity).
  assert (Hm : with_pom pom_fragment !! meta_path "proj" 2 <> Some Dir)
    by (vm_compute; discriminate).
  assert (Hp : with_pom pom_fragment !! patch_path "proj" 2 <> Some Dir)
    by (vm_compute; discriminate).
  pose proof (write_fix_proposal_files (list test_failure) dumps [] "proj" 2
                (with_pom pom_fragment) Hc Hm Hp) as Hres.
  split; [exact Hc|]. split; [exact Hm|]. split; [exact Hp|exact Hres].
Defined.

(** The path returned for the second iteration. *)
Example write_fix_proposal_path :
  Path.to_str (meta_path "proj" 2) = "proj/.mcp/fixes/proposal_2.json".
Proof.
  vm_compute. reflexivity.
Qed.

Lemma write_fix_proposal_keeps_witness :
  Path.of_str "proj/README.md" <> meta_path "proj" 2
  /\ Path.of_str "proj/README.md" <> patch_path "proj" 2
  /\ with_pom pom_fragment !! Path.of_str "proj/README.md" = Some (File "Calc")
  /\ (_write_fix_proposal (list test_failure) dumps [] "proj" 2 (with_pom pom_fragment)).2
       !! Path.of_str "proj/README.md" = Some (File "Calc").
Proof.
  assert (Hq : Path.of_str "proj/README.md" <> meta_path "proj" 2)
    by (intros E; vm_compute in E; discriminate E).
  assert (Hq' : Path.of_str "proj/README.md" <> patch_path "proj" 2)
    by (intros E; vm_compute in E; discriminate E).
  assert (Hl : with_pom pom_fragment !! Path.of_str "proj/README.md" = Some (File "Calc"))
    by (vm_compute; reflexivity).
  pose proof (write_fix_proposal_keeps (list test_failure) dumps [] "proj" 2
                (with_pom pom_fragment) (Path.of_str "proj/README.md") (File "Calc")
                Hq Hq' Hl) as Hres.
  split; [exact Hq|]. split; [exact Hq'|]. split; [exact Hl|exact Hres].
Defined.

Lemma parse_surefire_reports_text_only_witness :
  (forall xml_file root tc,
     In xml_file (Disk.glob tested (reports_dir "proj") is_xml) ->
     decoded decode_report tested xml_file = Some root ->
     In tc (XET.findall_desc root "testcase") ->
     text_only_failure tc)
  /\ FS.exists_ tested (reports_dir "proj") = true
  /\ _parse_surefire_reports decode_report "proj" tested = [].
Proof.
  assert (Hall : forall xml_file root tc,
            In xml_file (Disk.glob tested (reports_dir "proj") is_xml) ->
            decoded decode_report tested xml_file = Some root ->
            In tc (XET.findall_desc root "testcase") ->
            text_only_failure tc).
  { assert (Hg : Disk.glob tested (reports_dir "proj") is_xml
                 = [Path.of_str "proj/target/surefire-reports/TEST-CalcTest.xml";
                    Path.of_str "proj/target/surefire-reports/TEST-broken.xml"])
      by (vm_compute; reflexivity).
    assert (Hgood : decoded decode_report tested
                      (Path.of_str "proj/target/surefire-reports/TEST-CalcTest.xml")
                    = Some calc_report) by (vm_compute; reflexivity).
    assert (Hbad : decoded decode_report tested
                     (Path.of_str "proj/target/surefire-reports/TEST-broken.xml")
                   = None) by (vm_compute; reflexivity).
    assert (Hcases : XET.findall_desc calc_report "testcase" = [failing_case; passing_case])
      by (vm_compute; reflexivity).
    intros xml_file root tc Hin Hdec Htc. rewrite Hg in Hin.
    destruct Hin as [<-|[<-|[]]].
    - rewrite Hgood in Hdec. injection Hdec as <-. rewrite Hcases in Htc.
      destruct Htc as [<-|[<-|[]]]; (split; [reflexivity|]); intros failure Hf.
      + injection Hf as <-. reflexivity.
      + discriminate Hf.
    - rewrite Hbad in Hdec. discriminate Hdec. }
  pose proof (parse_surefire_reports_text_only decode_report "proj" tested Hall) as Hres.
  split; [exact Hall|]. split; [vm_compute; reflexivity|exact Hres].
Defined.

Lemma parse_surefire_reports_error_witness :
  FS.exists_ crashed (reports_dir "proj") = true
  /\ In (Path.of_str "proj/target/surefire-reports/TEST-CalcTest.xml")
       (Disk.glob crashed (reports_dir "proj") is_xml)
  /\ decoded decode_report crashed
       (Path.of_str "proj/target/surefire-reports/TEST-CalcTest.xml") = Some crash_report
  /\ In crashing_case (XET.findall_desc crash_report "testcase")
  /\ XET.find crashing_case "error" = Some crash
  /\ (forall failure,
        XET.find crashing_case "failure" = Some failure -> XET.children failure = [])
  /\ In crash_entry (_parse_surefire_reports decode_report "proj" crashed).
Proof.
  assert (Hex : FS.exists_ crashed (reports_dir "proj") = true) by (vm_compute; reflexivity).
  assert (Hin : In (Path.of_str "proj/target/surefire-reports/TEST-CalcTest.xml")
                  (Disk.glob crashed (reports_dir "proj") is_xml)).
  { assert (Hg : Disk.glob crashed (reports_dir "proj") is_xml
                 = [Path.of_str "proj/target/surefire-reports/TEST-CalcTest.xml"])
      by (vm_compute; reflexivity).
    rewrite Hg. left. reflexivity. }
  assert (Hdec : decoded decode_report crashed
                   (Path.of_str "proj/target/surefire-reports/TEST-CalcTest.xml")
                 = Some crash_report) by (vm_compute; reflexivity).
  assert (Htc : In crashing_case (XET.findall_desc crash_report "testcase"))
    by (right; left; reflexivity).
  assert (Herr : XET.find crashing_case "error" = Some crash) by reflexivity.
  assert (Hf : forall failure,
            XET.find crashing_case "failure" = Some failure -> XET.children failure = [])
    by (intros failure [= <-]; reflexivity).
  pose proof (parse_surefire_reports_error decode_report "proj" crashed _ _ _ _
                Hex Hin Hdec Htc Herr Hf) as Hres.
  split; [exact Hex|]. split; [exact Hin|]. split; [exact Hdec|]. split; [exact Htc|].
  split; [exact Herr|]. split; [exact Hf|exact Hres].
Defined.

Lemma generate_tests_directory_entry_witness :
  FS.exists_ odd_project (source_root "proj") = true
  /\ Path.below (source_root "proj") (Path.of_str "proj/src/main/java/com/acme/Gen.java") = true
  /\ is_java (Path.name (Path.of_str "proj/src/main/java/com/acme/Gen.java")) = true
  /\ odd_project !! Path.of_str "proj/src/main/java/com/acme/Gen.java" = Some Dir
  /\ exists e, (generate_tests "proj" None odd_project).1 = Raise e.
Proof.
  assert (Hex : FS.exists_ odd_project (source_root "proj") = true)
    by (vm_compute; reflexivity).
  assert (Hb : Path.below (source_root "proj")
                 (Path.of_str "proj/src/main/java/com/acme/Gen.java") = true)
    by (vm_compute; reflexivity).
  assert (Hj : is_java (Path.name (Path.of_str "proj/src/main/java/com/acme/Gen.java")) = true)
    by (vm_compute; reflexivity).
  assert (Hd : odd_project !! Path.of_str "proj/src/main/java/com/acme/Gen.java" = Some Dir)
    by (vm_compute; reflexivity).
  pose proof (generate_tests_directory_entry "proj" None odd_project
                (Path.of_str "proj/src/main/java/com/acme/Gen.java") Hex Hb Hj Hd) as Hres.
  split; [exact Hex|]. split; [exact Hb|]. split; [exact Hj|]. split; [exact Hd|exact Hres].
Defined.

Lemma generate_tests_count_witness :
  generate_tests "proj" None project = (Return (Generated 1), first_run.2)
  /\ Z.of_nat (file_count first_run.2) = Z.of_nat (file_count project) + 1.
Proof.
  assert (H1 : first_run.1 = Return (Generated 1)) by (vm_compute; reflexivity).
  assert (H0 : generate_tests "proj" None project = (Return (Generated 1), first_run.2)).
  { rewrite <- H1. apply surjective_pairing. }
  pose proof (generate_tests_count "proj" None project first_run.2 1 H0) as Hres.
  split; [exact H0|exact Hres].
Defined.

(** The project has two regular files before the first run and three
    after it. *)
Example generate_tests_files :
  file_count project = 2%nat /\ file_count first_run.2 = 3%nat.
Proof.
  split; vm_compute; reflexivity.
Qed.

End MoreExamples.
